(** * Air-quality monitoring: the statistics pipeline

    A shallow embedding of the Python analysis scripts
    ([python/analysis.py], [python/analyze.py] and
    [python/correlation_large.py]) together with the properties their
    specification states about them.

    Numbers.  The scripts compute on IEEE doubles.  Here a reading is an
    exact rational ([Qc], the canonical rationals, so that equal numbers
    are equal terms) and the two places where the code takes a square
    root (the Pearson denominator and the standard deviation) produce a
    real number ([R]).  Sums, means, percentages and coefficients are the
    exact ones: the rounding of the floating-point operations, which for
    a sum depends on the order pandas adds in, is not modelled.  Where a
    statement below gives a sum or a mean, it gives the exact one, which
    the double of the script matches up to that rounding.  Where the
    rounding can change more than the last digits (the closed form of
    the Streaming Aggregator, a comparison with a threshold, a tie when
    rounding to 2 decimals), the statements say only what it cannot
    change: which rows the number is computed from, whether it is
    defined, and, of a figure rounded to 2 decimals, that it is within
    half a hundredth of the exact one.

    pandas.  A CSV field is represented by what pandas reads it as: the
    [created_at] field by its reading under [pd.to_datetime], every other
    field by its reading under numeric parsing.  [NaN] and [NaT] are
    [None]. *)

From Stdlib Require Import QArith Qcanon Qround Qreals Reals Lra Lia ZArith String List.
From stdpp Require Import base option list sorting gmap strings numbers.

Set Warnings "-register-all".
Local Open Scope Qc_scope.

(** ** Exact numbers *)

Module Num.

Definition Qc_of_nat (n : nat) : Qc := Qc_of_Z (Z.of_nat n).

(** A decimal literal [a / b]. *)
Definition dec (a : Z) (b : positive) : Qc := Q2Qc (a # b).

Definition Qc2R (x : Qc) : R := Q2R (this x).

Definition Qc_leb (x y : Qc) : bool := bool_decide (x ≤ y).
Definition Qc_ltb (x y : Qc) : bool := bool_decide (x < y).

(** [Series.sum()] over the values that are present. *)
Definition total (l : list Qc) : Qc := foldr Qcplus 0 l.

(** [Series.mean()]: [NaN] on an empty series. *)
Definition mean (l : list Qc) : option Qc :=
  match l with
  | [] => None
  | _ => Some (total l / Qc_of_nat (length l))
  end.

Definition Qc_max (x y : Qc) : Qc := if Qc_leb x y then y else x.
Definition Qc_min (x y : Qc) : Qc := if Qc_leb x y then x else y.

(** [Series.max()] and [Series.min()]. *)
Definition maximum (l : list Qc) : option Qc :=
  match l with
  | [] => None
  | x :: l' => Some (foldl Qc_max x l')
  end.

Definition minimum (l : list Qc) : option Qc :=
  match l with
  | [] => None
  | x :: l' => Some (foldl Qc_min x l')
  end.

(** [Series.median()]: the middle of the sorted values, or the mean of
    the two middle ones. *)
Definition median (l : list Qc) : option Qc :=
  let s := merge_sort Qcle l in
  let n := length s in
  if Nat.even n
  then match s !! (n / 2 - 1)%nat, s !! (n / 2)%nat with
       | Some a, Some b => Some ((a + b) / dec 2 1)
       | _, _ => None
       end
  else s !! (n / 2)%nat.

(** Sum of squared deviations from [m]. *)
Definition ssd (m : Qc) (l : list Qc) : Qc :=
  total (map (fun x => (x - m) * (x - m)) l).

(** The sample variance (pandas' [ddof = 1]); undefined below two
    values. *)
Definition variance (l : list Qc) : option Qc :=
  match mean l with
  | Some m =>
      if (2 <=? length l)%nat
      then Some (ssd m l / Qc_of_nat (length l - 1))
      else None
  | None => None
  end.

(** [Series.std()] is the square root of the sample variance. *)
Definition std (l : list Qc) : option R :=
  (fun v => sqrt (Qc2R v)) <$> variance l.

(** Python's [round(x, ndigits)] on an exact number: to the nearest
    multiple of [10^-ndigits], a tie going to the even neighbour.  (The
    double the script rounds is seldom the tie itself: [(1 / 4000) * 100]
    is a little more than 0.025 and rounds to 0.03.) *)
Definition round_half_even (x : Qc) : Z :=
  let f := Qfloor (this x) in
  let r := x - Qc_of_Z f in
  if Qc_ltb r (dec 1 2) then f
  else if Qc_ltb (dec 1 2) r then (f + 1)%Z
  else if Z.even f then f else (f + 1)%Z.

Definition pow10 (n : nat) : Qc := Qc_of_Z (10 ^ Z.of_nat n).

Definition round (x : Qc) (ndigits : nat) : Qc :=
  Qc_of_Z (round_half_even (x * pow10 ndigits)) / pow10 ndigits.

(** The same rounding on a real number, for the values that come out
    of a square root. *)
Definition Rround_half_even (x : R) : Z :=
  let f := Int_part x in
  let r := frac_part x in
  if Rlt_dec r (1 / 2) then f
  else if Rlt_dec (1 / 2) r then (f + 1)%Z
  else if Z.even f then f else (f + 1)%Z.

Definition Rround (x : R) (ndigits : nat) : R :=
  (IZR (Rround_half_even (x * 10 ^ ndigits)) / 10 ^ ndigits)%R.

End Num.

(** ** The part of pandas the scripts use *)

Module Pandas.
Import Num.

(** The [created_at] field of a CSV line as [pd.to_datetime] reads it:
    a date without a UTC offset, a date with one (as the stamps the
    ThingSpeak feed writes, [2024-01-01T00:00:00Z]), an empty field, or
    text that is no date.  [t] is the time of day and date the stamp
    shows, in seconds since the epoch.  A column that parses holds
    dates of one kind, all without an offset or all with the same one:
    that is what a pandas datetime column is. *)
Inductive stamp := TsOk (t : Z) | TsAware (t : Z) | TsEmpty | TsText.

(** Any other field as numeric parsing reads it: a number, an empty
    field, or text that is no number. *)
Inductive field := NumOk (q : Qc) | NumEmpty | NumText.

Record row := Row { created_at : stamp; fields : gmap string field }.

(** [columns] is the header: [created_at] is a column of the frame
    only when the header names it. *)
Record DataFrame := Frame { columns : list string; rows : list row }.

(** What [os.path] and [pd.read_csv] find at a path. *)
Inductive file :=
| Absent                    (* no file at the path *)
| NoColumns                 (* a file with nothing to parse *)
| Csv (df : DataFrame).

(** A date argument: [None] or the empty string, a date in the
    documented form [YYYY-MM-DD] (which has no UTC offset), or a
    non-empty string [pd.to_datetime] rejects. *)
Inductive date_arg := NoDate | Date (t : Z) | BadDate.

(** [KeyError] holds its argument as Python prints it: a column name
    in quotes, [None], or a list of names. *)
Inductive exn :=
| FileNotFoundError (path : string)
| EmptyDataError
| KeyError (key : string)
| ValueError (msg : string)
| TypeError (msg : string)
| ZeroDivisionError.

Definition quoted (s : string) : string := "'" +:+ s +:+ "'".

Definition listed (l : list string) : string :=
  "[" +:+ String.concat ", " (quoted <$> l) +:+ "]".

Definition str (e : exn) : string :=
  match e with
  | FileNotFoundError p => "[Errno 2] No such file or directory: " +:+ quoted p
  | EmptyDataError => "No columns to parse from file"
  | KeyError k => k
  | ValueError m => m
  | TypeError m => m
  | ZeroDivisionError => "division by zero"
  end.

(** [pd.read_csv(path)]. *)
Definition read_csv (path : string) (f : file) : exn + DataFrame :=
  match f with
  | Csv df => inr df
  | NoColumns => inl EmptyDataError
  | Absent => inl (FileNotFoundError path)
  end.

#[export] Instance exn_ret : MRet (Datatypes.sum exn) := fun A a => inr a.

#[export] Instance exn_bind : MBind (Datatypes.sum exn) := fun A B k m =>
  match m with inl e => inl e | inr a => k a end.

#[export] Instance exn_fmap : FMap (Datatypes.sum exn) := fun A B f m =>
  match m with inl e => inl e | inr a => inr (f a) end.

(** The values a result dictionary holds. *)
Inductive value :=
| VNone
| VBool (b : bool)
| VInt (n : Z)
| VNum (q : Qc)
| VReal (r : R)
| VNaN
| VStr (s : string)
| VTime (t : Z)       (* a timestamp printed by [strftime] *)
| VList (l : list value)
| VDict (d : list (string * value)).

(** [float(x)] of an optional number: [NaN] stays [NaN]. *)
Definition VFloat (x : option Qc) : value :=
  match x with Some q => VNum q | None => VNaN end.

(** [d[k]] on a dictionary value. *)
Definition item (k : string) (v : value) : option value :=
  match v with
  | VDict d => snd <$> List.find (fun kv => bool_decide (kv.1 = k)) d
  | _ => None
  end.

Definition len (df : DataFrame) : nat := length (rows df).

Definition has_column (c : string) (df : DataFrame) : bool :=
  bool_decide (c ∈ columns df).

(** [pd.to_datetime(..., errors='coerce')]: what is no date is [NaT]. *)
Definition to_datetime_coerce (s : stamp) : option Z :=
  match s with TsOk t | TsAware t => Some t | _ => None end.

(** [pd.to_datetime(...)]: text that is no date raises. *)
Definition to_datetime (s : stamp) : exn + option Z :=
  match s with
  | TsOk t | TsAware t => inr (Some t)
  | TsEmpty => inr None
  | TsText => inl (ValueError "Unknown datetime string format")
  end.

Definition time_of (r : row) : option Z := to_datetime_coerce (created_at r).

(** [pd.to_numeric(..., errors='coerce')]. *)
Definition to_numeric (f : field) : option Qc :=
  match f with NumOk q => Some q | _ => None end.

Definition cell (r : row) (c : string) : field :=
  default NumEmpty (fields r !! c).

(** [df[target] = series]: the column is overwritten, or added at the
    end of the header. *)
Definition assign (target : string) (f : row -> field) (df : DataFrame)
  : DataFrame :=
  Frame (if has_column target df then columns df else columns df ++ [target])
        (map (fun r => Row (created_at r) (<[target := f r]> (fields r)))
             (rows df)).

(** A field after [pd.to_numeric(..., errors='coerce')]. *)
Definition coerce (f : field) : field :=
  match f with NumOk q => NumOk q | _ => NumEmpty end.

(** [pd.to_numeric(df[c], errors='coerce')] as a series. *)
Definition numeric (df : DataFrame) (c : string) : list (option Qc) :=
  map (fun r => to_numeric (cell r c)) (rows df).

(** [series.dropna()]. *)
Definition dropna (s : list (option Qc)) : list Qc := omap Datatypes.id s.

(** The parsed [created_at] column is time-zone-aware when its dates
    carry an offset. *)
Definition is_aware (r : row) : bool :=
  match created_at r with TsAware _ => true | _ => false end.

Definition aware (df : DataFrame) : bool := existsb is_aware (rows df).

(** [df['created_at'] >= bound] and [<= bound] for a bound without an
    offset: pandas refuses to compare an aware column with it. *)
Definition invalid_comparison : exn :=
  TypeError "Invalid comparison between dtype=datetime64[ns, UTC] and Timestamp".

Definition compare_dates (df : DataFrame) : exn + unit :=
  if aware df then inl invalid_comparison else inr ().

(** The comparison in one row, once the column can be compared: it is
    false on [NaT]. *)
Definition on_or_after (start : Z) (r : row) : bool :=
  match time_of r with Some t => bool_decide (start ≤ t)%Z | None => false end.

Definition on_or_before (end_ : Z) (r : row) : bool :=
  match time_of r with Some t => bool_decide (t ≤ end_)%Z | None => false end.

Definition select (p : row -> bool) (df : DataFrame) : DataFrame :=
  Frame (columns df) (List.filter p (rows df)).

(** [df['created_at'].min()] and [.max()], which skip [NaT] and are
    [NaT] when nothing is left. *)
Definition times (df : DataFrame) : list Z := omap time_of (rows df).

Definition Z_minimum (l : list Z) : option Z :=
  match l with [] => None | x :: l' => Some (foldl Z.min x l') end.

Definition Z_maximum (l : list Z) : option Z :=
  match l with [] => None | x :: l' => Some (foldl Z.max x l') end.

(** [.dt.hour] and [.dt.dayofweek] (Monday is 0; the epoch was a
    Thursday). *)
Definition hour (t : Z) : Z := ((t / 3600) mod 24)%Z.
Definition dayofweek (t : Z) : Z := ((t / 86400 + 3) mod 7)%Z.

(** [df.groupby(key)[c].mean()]: the keys in ascending order, rows
    whose key is missing left out, and per key the mean of the values
    present. *)
Definition group_keys (key : Z -> Z) (df : DataFrame) : list Z :=
  merge_sort Z.le (remove_dups (map key (times df))).

Definition group_mean (key : Z -> Z) (df : DataFrame) (c : string) (k : Z)
  : option Qc :=
  mean (dropna (numeric
    (select (fun r => bool_decide (key <$> time_of r = Some k)) df) c)).

(** [df[[a, b]].corr().iloc[0, 1]]: Pearson's coefficient over the rows
    where both values are present, from the sums of centred products;
    [NaN] when there is no such row or the divisor is zero. *)
Definition pairs (df : DataFrame) (a b : string) : list (Qc * Qc) :=
  omap (fun r => match to_numeric (cell r a), to_numeric (cell r b) with
                 | Some x, Some y => Some (x, y)
                 | _, _ => None
                 end) (rows df).

Definition pearson (ps : list (Qc * Qc)) : option R :=
  match mean ps.*1, mean ps.*2 with
  | Some mx, Some my =>
      let sxy := total (map (fun p => (p.1 - mx) * (p.2 - my)) ps) in
      let sxx := ssd mx ps.*1 in
      let syy := ssd my ps.*2 in
      if decide (sxx * syy = 0) then None
      else Some (Qc2R sxy / sqrt (Qc2R (sxx * syy)))%R
  | _, _ => None
  end.

Definition corr (df : DataFrame) (a b : string) : option R :=
  pearson (pairs df a b).

End Pandas.

(** ** [python/analysis.py]: the Statistics Engine *)

Module Analysis.
Import Num Pandas.

(** The [result] dictionary, and the lines the run has printed about
    missing values and missing columns ([Warning: No valid ... values
    found] and [ERROR: ...]).  The other lines the script prints are
    left out: the progress lines, and the lines of the handlers around
    the plots and around the extended analysis. *)
Abbreviation result := (gmap string value).

Record state := State { res : result; warnings : list string }.

(** A statement of the function body either goes on, or executes
    [return result], or raises; the dictionary keeps what was stored
    in it up to that point in each case. *)
Inductive outcome (A : Type) :=
| Normal (a : A)
| Returned
| Raised (e : exn).
Arguments Normal {A} a.
Arguments Returned {A}.
Arguments Raised {A} e.

Definition M (A : Type) : Type := state -> state * outcome A.

#[export] Instance M_ret : MRet M := fun A a s => (s, Normal a).

#[export] Instance M_bind : MBind M := fun A B k m s =>
  match m s with
  | (s', Normal a) => k a s'
  | (s', Returned) => (s', Returned)
  | (s', Raised e) => (s', Raised e)
  end.

Definition store (k : string) (v : value) : M unit :=
  fun s => (State (<[k := v]> (res s)) (warnings s), Normal ()).

Definition warn (msg : string) : M unit :=
  fun s => (State (res s) (warnings s ++ [msg]), Normal ()).

Definition raise {A} (e : exn) : M A := fun s => (s, Raised e).

Definition return_result {A} : M A := fun s => (s, Returned).

Definition lift {A} (x : exn + A) : M A :=
  match x with inl e => raise e | inr a => mret a end.

(** [try: ... except Exception as ex_err: print(...)], the handler of
    the extended analysis: what was raised is printed and dropped, and
    the function goes on. *)
Definition try_pass (m : M unit) : M unit := fun s =>
  match m s with
  | (s', Raised _) => (s', Normal ())
  | r => r
  end.

Definition initial : result :=
  list_to_map
    [("average_pm25", VInt 0); ("average_pm10", VInt 0);
     ("average_temperature", VInt 0); ("average_humidity", VInt 0);
     ("max_pm25", VInt 0); ("max_pm10", VInt 0);
     ("min_pm25", VInt 0); ("min_pm10", VInt 0);
     ("record_count", VInt 0);
     ("date_range", VDict [("start", VNone); ("end", VNone)])].

(** [df[c]] for a column name that may be [None]. *)
Definition getitem (df : DataFrame) (c : option string)
  : exn + list (option Qc) :=
  match c with
  | Some c =>
      if has_column c df then inr (numeric df c) else inl (KeyError (quoted c))
  | None => inl (KeyError "None")
  end.

Definition no_NaT (df : DataFrame) : bool :=
  forallb (fun r => bool_decide (is_Some (time_of r))) (rows df).

(** The group keys print as integers, or as floats once the column
    holds a [NaT]. *)
Definition key_value (df : DataFrame) (k : Z) : value :=
  if no_NaT df then VInt k else VNum (Qc_of_Z k).

Definition calculate_hourly_patterns (df : DataFrame) (pm25_col pm10_col : string)
  : value :=
  let hours := group_keys hour df in
  VDict [("hours", VList (key_value df <$> hours));
         ("pm25", VList ((fun k => VFloat (group_mean hour df pm25_col k)) <$> hours));
         ("pm10", VList ((fun k => VFloat (group_mean hour df pm10_col k)) <$> hours))].

Definition days : list string :=
  ["Monday"; "Tuesday"; "Wednesday"; "Thursday"; "Friday"; "Saturday"; "Sunday"].

(** [days[d]] raises on a float key, which is what the keys are once
    the column holds a [NaT]. *)
Definition calculate_daily_patterns (df : DataFrame) (pm25_col pm10_col : string)
  : exn + value :=
  let ds := group_keys dayofweek df in
  if no_NaT df then
    inr (VDict
      [("days", VList ((fun d => VStr (default "" (days !! Z.to_nat d))) <$> ds));
       ("pm25", VList ((fun k => VFloat (group_mean dayofweek df pm25_col k)) <$> ds));
       ("pm10", VList ((fun k => VFloat (group_mean dayofweek df pm10_col k)) <$> ds))])
  else
    match ds with
    | [] => inr (VDict [("days", VList []); ("pm25", VList []); ("pm10", VList [])])
    | _ => inl (TypeError "list indices must be integers or slices, not float")
    end.

(** [df[[a, b]].corr().iloc[0, 1]]. *)
Definition corr_of (df : DataFrame) (a b : option string) : exn + option R :=
  match a, b with
  | Some a, Some b =>
      if has_column a df
      then if has_column b df then inr (corr df a b)
           else inl (KeyError (quoted (listed [b] +:+ " not in index")))
      else inl (KeyError (quoted (listed [a] +:+ " not in index")))
  | _, _ => inl (KeyError "'[None] not in index'")
  end.

(** [round(float(v), 3)]. *)
Definition round3 (v : option R) : value :=
  match v with Some r => VReal (Rround r 3) | None => VNaN end.

Definition calculate_correlations (df : DataFrame)
    (pm25_col pm10_col temp_col humidity_col : option string) : exn + value :=
  pm25_temp ← corr_of df pm25_col temp_col;
  pm25_humidity ← corr_of df pm25_col humidity_col;
  pm10_temp ← corr_of df pm10_col temp_col;
  pm10_humidity ← corr_of df pm10_col humidity_col;
  pm25_pm10 ← corr_of df pm25_col pm10_col;
  inr (VDict [("pm25_temp", round3 pm25_temp);
              ("pm25_humidity", round3 pm25_humidity);
              ("pm10_temp", round3 pm10_temp);
              ("pm10_humidity", round3 pm10_humidity);
              ("pm25_pm10", round3 pm25_pm10)]).

(** [(df[c].notna().sum() / total_records) * 100]. *)
Definition completeness (s : list (option Qc)) (total_records : nat) : Qc :=
  Qc_of_nat (length (dropna s)) / Qc_of_nat total_records * dec 100 1.

(** [abs(x - mean) > 3 * std], decided on the squares: [v] is the
    variance, so that the standard deviation is its square root.  (On
    doubles a value exactly three standard deviations from the mean can
    fall on either side.) *)
Definition beyond_3_std (m v x : Qc) : bool :=
  Qc_ltb (dec 9 1 * v) ((x - m) * (x - m)).

(** [len(df[abs(df[c] - mean) > 3 * std])]: a comparison with [NaN]
    is false, whether the [NaN] is the value, the mean or the standard
    deviation. *)
Definition outlier_rows (s : list (option Qc)) : nat :=
  match mean (dropna s), variance (dropna s) with
  | Some m, Some v => length (List.filter (beyond_3_std m v) (dropna s))
  | _, _ => 0%nat
  end.

Definition outliers (s : list (option Qc)) (total_records : nat) : Qc :=
  Qc_of_nat (outlier_rows s) / Qc_of_nat total_records * dec 100 1.

Definition assess_data_quality (df : DataFrame)
    (pm25_col pm10_col temp_col humidity_col : option string) : exn + value :=
  let total_records := len df in
  pm25 ← getitem df pm25_col;
  pm10 ← getitem df pm10_col;
  temperature ← getitem df temp_col;
  humidity ← getitem df humidity_col;
  if (total_records =? 0)%nat then inl ZeroDivisionError
  else
    inr (VDict
      [("completeness", VDict
          [("pm25", VNum (round (completeness pm25 total_records) 2));
           ("pm10", VNum (round (completeness pm10 total_records) 2));
           ("temperature", VNum (round (completeness temperature total_records) 2));
           ("humidity", VNum (round (completeness humidity total_records) 2))]);
       ("outliers", VDict
          [("pm25", VNum (round (outliers pm25 total_records) 2));
           ("pm10", VNum (round (outliers pm10 total_records) 2))]);
       ("record_count", VInt (Z.of_nat total_records))]).

(** The four statistics blocks of the function body: two of this
    shape for the pollutants, two of the next for temperature and
    humidity. *)
Definition pollutant_block (df : DataFrame) (col : option string)
    (name average max_ min_ : string) : M unit :=
  match col with
  | Some c =>
      let valid := dropna (numeric df c) in
      if (0 <? length valid)%nat then
        store average (VFloat (mean valid));;
        store max_ (VFloat (maximum valid));;
        store min_ (VFloat (minimum valid))
      else warn ("Warning: No valid " +:+ name +:+ " values found")
  | None => mret ()
  end.

Definition climate_block (df : DataFrame) (col : option string)
    (name average : string) : M unit :=
  match col with
  | Some c =>
      let valid := dropna (numeric df c) in
      if (0 <? length valid)%nat then store average (VFloat (mean valid))
      else warn ("Warning: No valid " +:+ name +:+ " values found")
  | None => mret ()
  end.

(** [timestamp.strftime(...)], which [NaT] does not support. *)
Definition strftime (t : option Z) : M value :=
  match t with
  | Some t => mret (VTime t)
  | None => raise (ValueError "NaTType does not support strftime")
  end.

Definition update (k : string) (v : value) (d : list (string * value))
  : list (string * value) :=
  (fun kv => if decide (kv.1 = k) then (k, v) else kv) <$> d.

(** [result[k][k'] = v]. *)
Definition store_in (k k' : string) (v : value) : M unit := fun s =>
  match res s !! k with
  | Some (VDict d) => store k (VDict (update k' v d)) s
  | _ => raise (TypeError "object does not support item assignment") s
  end.

Definition filter_date (d : date_arg) (p : Z -> row -> bool) (df : DataFrame)
  : M DataFrame :=
  match d with
  | NoDate => mret df
  | Date t => lift (compare_dates df);; mret (select (p t) df)
  | BadDate => raise (ValueError "Unknown datetime string format")
  end.

(** The column to use for each of the four fields ([None] when there
    is none). *)
Definition pm25_col (df : DataFrame) : option string :=
  let has_pm25 := has_column "pm25" df in
  let has_field3 := has_column "field3" df in
  if has_pm25 then Some "pm25" else if has_field3 then Some "field3" else None.

Definition pm10_col (df : DataFrame) : option string :=
  let has_pm10 := has_column "pm10" df in
  let has_field4 := has_column "field4" df in
  if has_pm10 then Some "pm10" else if has_field4 then Some "field4" else None.

Definition temp_col (df : DataFrame) : option string :=
  let has_temp := has_column "temperature" df in
  let has_field2 := has_column "field2" df in
  if has_temp then Some "temperature"
  else if has_field2 then Some "field2" else None.

Definition humidity_col (df : DataFrame) : option string :=
  let has_humidity := has_column "humidity" df in
  let has_field1 := has_column "field1" df in
  if has_humidity then Some "humidity"
  else if has_field1 then Some "field1" else None.

Definition missing_columns : string :=
  "Could not find PM2.5 or PM10 columns in the data".

(** The body of the function under its [try], in two parts: reading
    and filtering the file, then the statistics of what is left. *)
Definition read_and_filter (csv : file) (csv_path : string)
    (start_date end_date : date_arg) : M DataFrame :=
  df ← lift (read_csv csv_path csv);
  if (len df =? 0)%nat then
    store "error" (VStr "No data found in CSV file");; return_result
  else
  (if has_column "created_at" df then mret ()
   else raise (KeyError (quoted "created_at")));;
  df ← filter_date start_date on_or_after df;
  df ← filter_date end_date on_or_before df;
  if (len df =? 0)%nat then
    store "error" (VStr "No data found for the specified date range");;
    return_result
  else mret df.

(** The block under [if extended:], which runs inside its own
    handler. *)
Definition extended_analysis (df : DataFrame)
    (pm25_col pm10_col temp_col humidity_col : option string) : M unit :=
  store "hourly_patterns"
    (calculate_hourly_patterns df (default "" pm25_col) (default "" pm10_col));;
  correlations ← lift (calculate_correlations df pm25_col pm10_col
                                              temp_col humidity_col);
  store "correlations" correlations;;
  daily ← lift (calculate_daily_patterns df (default "" pm25_col)
                                         (default "" pm10_col));
  store "daily_patterns" daily;;
  quality ← lift (assess_data_quality df pm25_col pm10_col
                                      temp_col humidity_col);
  store "data_quality" quality;;
  (* more plots, inside a handler of their own *)
  store "analysis_version" (VInt 2).

Definition statistics (df : DataFrame) (extended : bool) : M unit :=
  let pm25_col := pm25_col df in
  let pm10_col := pm10_col df in
  let temp_col := temp_col df in
  let humidity_col := humidity_col df in
  if negb (bool_decide (is_Some pm25_col)) || negb (bool_decide (is_Some pm10_col))
  then
    store "error" (VStr missing_columns);;
    warn ("ERROR: " +:+ missing_columns);;
    return_result
  else
  pollutant_block df pm25_col "PM2.5" "average_pm25" "max_pm25" "min_pm25";;
  pollutant_block df pm10_col "PM10" "average_pm10" "max_pm10" "min_pm10";;
  climate_block df temp_col "temperature" "average_temperature";;
  climate_block df humidity_col "humidity" "average_humidity";;
  store "record_count" (VInt (Z.of_nat (len df)));;
  (if (0 <? len df)%nat then
     start ← strftime (Z_minimum (times df));
     store_in "date_range" "start" start;;
     end_ ← strftime (Z_maximum (times df));
     store_in "date_range" "end" end_
   else mret ());;
  (* The plots are drawn here, inside a handler that drops what they
     raise; they leave [result] alone. *)
  if extended
  then try_pass (extended_analysis df pm25_col pm10_col temp_col humidity_col)
  else mret ().

Definition body (csv : file) (csv_path : string)
    (start_date end_date : date_arg) (extended : bool) : M unit :=
  df ← read_and_filter csv csv_path start_date end_date;
  statistics df extended.

(** The function: the file test, then the body under
    [try: ... except Exception as e:]. *)
Definition analyze_air_quality_data (csv : file) (csv_path : string)
    (start_date end_date : date_arg) (extended : bool) : state :=
  match csv with
  | Absent =>
      State (<["error" := VStr ("File not found: " +:+ csv_path)]> initial) []
  | _ =>
      match body csv csv_path start_date end_date extended (State initial []) with
      | (s, Raised e) =>
          State (<["error" := VStr ("Error analyzing data: " +:+ str e)]> (res s))
                (warnings s)
      | (s, _) => s
      end
  end.

Definition analyze_air_quality_data_extended (csv : file) (csv_path : string)
    (start_date end_date : date_arg) : state :=
  analyze_air_quality_data csv csv_path start_date end_date true.

End Analysis.

(** ** [python/analyze.py]: loading, statistics and air-quality levels *)

Module Analyze.
Import Num Pandas.

(** For each target field, the column names to try, in order. *)
Definition FIELD_MAPPING : list (string * list string) :=
  [("pm25", ["field3"; "pm25"]);
   ("pm10", ["field4"; "pm10"]);
   ("temperature", ["field2"; "temperature"]);
   ("humidity", ["field1"; "humidity"])].

Record level_info := LevelInfo { max : Qc; level : string; color : string }.

Definition AQI_LEVELS : list (string * list level_info) :=
  [("pm25",
    [LevelInfo (dec 12 1) "Good" "green";
     LevelInfo (dec 354 10) "Moderate" "yellow";
     LevelInfo (dec 554 10) "Unhealthy for Sensitive Groups" "orange";
     LevelInfo (dec 1504 10) "Unhealthy" "red";
     LevelInfo (dec 2504 10) "Very Unhealthy" "purple";
     LevelInfo (dec 500 1) "Hazardous" "maroon"]);
   ("pm10",
    [LevelInfo (dec 54 1) "Good" "green";
     LevelInfo (dec 154 1) "Moderate" "yellow";
     LevelInfo (dec 254 1) "Unhealthy for Sensitive Groups" "orange";
     LevelInfo (dec 354 1) "Unhealthy" "red";
     LevelInfo (dec 424 1) "Very Unhealthy" "purple";
     LevelInfo (dec 604 1) "Hazardous" "maroon"])].

(** The inner loop of the mapping: the first of [possible_fields] that
    is a column. *)
Fixpoint first_present (possible_fields : list string) (df : DataFrame)
  : option string :=
  match possible_fields with
  | [] => None
  | f :: rest => if has_column f df then Some f else first_present rest df
  end.

Definition map_field (df : DataFrame) (entry : string * list string)
  : DataFrame :=
  match first_present entry.2 df with
  | Some f => assign entry.1 (fun r => coerce (cell r f)) df
  | None => assign entry.1 (fun _ => NumEmpty) df
  end.

(** [df.sort_values('created_at')], on rows that all have a time. *)
Definition earlier (r1 r2 : row) : bool :=
  bool_decide (default 0 (time_of r1) ≤ default 0 (time_of r2))%Z.

Fixpoint insert_row (r : row) (l : list row) : list row :=
  match l with
  | [] => [r]
  | r' :: l' => if earlier r r' then r :: l else r' :: insert_row r l'
  end.

Definition sort_values (df : DataFrame) : DataFrame :=
  Frame (columns df) (foldr insert_row [] (rows df)).

Definition filter_date (d : date_arg) (p : Z -> row -> bool) (df : DataFrame)
  : exn + DataFrame :=
  match d with
  | NoDate => inr df
  | Date t => compare_dates df;; inr (select (p t) df)
  | BadDate => inl (ValueError "Unknown datetime string format")
  end.

Definition present (c : string) (r : row) : bool :=
  bool_decide (is_Some (to_numeric (cell r c))).

(** The body of [load_data] under its [try]. *)
Definition load_body (csv : file) (data_file : string)
    (start_date end_date : date_arg) : exn + DataFrame :=
  df ← read_csv data_file csv;
  (if has_column "created_at" df then inr ()
   else inl (KeyError (quoted "created_at")));;
  let df := select (fun r => bool_decide (is_Some (time_of r))) df in
  let df := sort_values df in
  let df := foldl map_field df FIELD_MAPPING in
  df ← filter_date start_date on_or_after df;
  df ← filter_date end_date on_or_before df;
  inr (select (fun r => present "pm25" r && present "pm10" r) df).

(** [load_data]: [None] when the file is not there or anything was
    raised. *)
Definition load_data (csv : file) (data_file : string)
    (start_date end_date : date_arg) : option DataFrame :=
  match csv with
  | Absent => None
  | _ =>
      match load_body csv data_file start_date end_date with
      | inr df => Some df
      | inl _ => None
      end
  end.

Definition info (level color : string) : value :=
  VDict [("level", VStr level); ("color", VStr color)].

(** The loop over the levels of a pollutant. *)
Fixpoint first_level (value : Qc) (levels : list level_info) : Pandas.value :=
  match levels with
  | [] => info "Extremely Hazardous" "black"
  | level_info :: rest =>
      if Qc_leb value (max level_info)
      then info (level level_info) (color level_info)
      else first_level value rest
  end.

(** [AQI_LEVELS.get(pollutant, AQI_LEVELS["pm25"])]. *)
Definition levels_of (pollutant : string) : list level_info :=
  default (default [] (snd <$> head AQI_LEVELS))
          (snd <$> List.find (fun e => bool_decide (e.1 = pollutant)) AQI_LEVELS).

Definition get_air_quality_level (value : option Qc) (pollutant : string)
  : Pandas.value :=
  match value with
  | None => info "Unknown" "gray"
  | Some v => first_level v (levels_of pollutant)
  end.

(** [float(x)] of an optional real. *)
Definition VFloatR (x : option R) : value :=
  match x with Some r => VReal r | None => VNaN end.

(** The five numbers of one metric. *)
Definition summary (s : list (option Qc)) : list (string * value) :=
  let v := dropna s in
  [("mean", VFloat (mean v));
   ("median", VFloat (median v));
   ("min", VFloat (minimum v));
   ("max", VFloat (maximum v));
   ("std", VFloatR (std v))].

Definition strftime (t : option Z) : exn + value :=
  match t with
  | Some t => inr (VTime t)
  | None => inl (ValueError "NaTType does not support strftime")
  end.

Definition all_isna (s : list (option Qc)) : bool :=
  forallb (fun x => negb (bool_decide (is_Some x))) s.

Definition optional_summary (df : DataFrame) (c : string)
  : list (string * value) :=
  if has_column c df && negb (all_isna (numeric df c))
  then [(c, VDict (summary (numeric df c)))]
  else [].

Definition calculate_statistics (df : option DataFrame) : exn + value :=
  match df with
  | None => inr (VDict [("count", VInt 0); ("error", VStr "No data available")])
  | Some df =>
      if (len df =? 0)%nat
      then inr (VDict [("count", VInt 0); ("error", VStr "No data available")])
      else
        start ← strftime (Z_minimum (times df));
        end_ ← strftime (Z_maximum (times df));
        (if has_column "pm25" df then inr () else inl (KeyError (quoted "pm25")));;
        (if has_column "pm10" df then inr () else inl (KeyError (quoted "pm10")));;
        let pm25 := numeric df "pm25" in
        let pm10 := numeric df "pm10" in
        inr (VDict
          ([("count", VInt (Z.of_nat (len df)));
            ("date_range", VDict [("start", start); ("end", end_)]);
            ("pm25", VDict (summary pm25 ++
               [("air_quality",
                 get_air_quality_level (mean (dropna pm25)) "pm25")]));
            ("pm10", VDict (summary pm10 ++
               [("air_quality",
                 get_air_quality_level (mean (dropna pm10)) "pm10")]))]
           ++ optional_summary df "temperature"
           ++ optional_summary df "humidity"))
  end.

(** The chart functions, which belong to the renderer: each gives a
    path (or [None]) and a description, or raises. *)
Record charts := Charts {
  create_time_series : DataFrame -> exn + (option string * string);
  create_daily_pattern : DataFrame -> exn + (option string * string);
  create_heatmap : DataFrame -> exn + (option string * string);
  create_correlation : DataFrame -> exn + (option string * string)
}.

Definition draw (c : charts) (viz_type : string) (df : DataFrame)
  : exn + (option string * string) :=
  if decide (viz_type = "time_series") then create_time_series c df
  else if decide (viz_type = "daily_pattern") then create_daily_pattern c df
  else if decide (viz_type = "heatmap") then create_heatmap c df
  else if decide (viz_type = "correlation") then create_correlation c df
  else create_time_series c df.

Abbreviation result := (gmap string value).

Definition initial (viz_type : string) : result :=
  list_to_map
    [("success", VBool false);
     ("statistics", VNone);
     ("visualization",
      VDict [("type", VStr viz_type); ("path", VNone); ("description", VNone)]);
     ("error", VNone)].

Definition VOpt (s : option string) : value :=
  match s with Some s => VStr s | None => VNone end.

Definition analyze_data (c : charts) (csv : file) (data_file viz_type : string)
    (start_date end_date : date_arg) : result :=
  let result := initial viz_type in
  match load_data csv data_file start_date end_date with
  | None => <["error" := VStr "No data available for analysis"]> result
  | Some df =>
      if (len df =? 0)%nat
      then <["error" := VStr "No data available for analysis"]> result
      else
        match calculate_statistics (Some df) with
        | inl e => <["error" := VStr (str e)]> result
        | inr statistics =>
            let result := <["statistics" := statistics]> result in
            match draw c viz_type df with
            | inl e => <["error" := VStr (str e)]> result
            | inr (path, description) =>
                <["success" := VBool (bool_decide (is_Some path))]>
                  (<["visualization" :=
                       VDict [("type", VStr viz_type); ("path", VOpt path);
                              ("description", VStr description)]]> result)
            end
        end
  end.

End Analyze.

(** ** [python/correlation_large.py]: the Streaming Aggregator

    The aggregation variables hold the exact sums.  The code adds
    doubles, chunk by chunk, and a closed form over such sums loses
    digits where it subtracts; of the two coefficients the statements
    below therefore say nothing beyond which rows they are computed
    from. *)

Module CorrelationLarge.
Import Num Pandas.

(** The aggregation variables of [create_correlation_large]. *)
Record sums := Sums {
  pm25_temp_products : Qc;
  pm25_hum_products : Qc;
  pm25_sum : Qc;
  pm10_sum : Qc;
  temp_sum : Qc;
  hum_sum : Qc;
  pm25_squared_sum : Qc;
  temp_squared_sum : Qc;
  hum_squared_sum : Qc;
  count : nat
}.

Definition zero : sums := Sums 0 0 0 0 0 0 0 0 0 0.

Definition chunk_size : nat := Z.to_nat 50000.

(** [pd.read_csv(path, chunksize=n)]: the lines of the file, [n] at a
    time; a file without lines gives one empty chunk. *)
Fixpoint chunks_aux {A} (fuel n : nat) (l : list A) : list (list A) :=
  match fuel with
  | O => []
  | S fuel =>
      match l with
      | [] => []
      | _ => take n l :: chunks_aux fuel n (drop n l)
      end
  end.

Definition chunks {A} (n : nat) (l : list A) : list (list A) :=
  chunks_aux (length l) n l.

Definition read_csv_chunks (path : string) (n : nat) (f : file)
  : exn + list DataFrame :=
  df ← read_csv path f;
  match rows df with
  | [] => inr [df]
  | _ => inr (Frame (columns df) <$> chunks n (rows df))
  end.

(** [pd.to_datetime(date) if date else None]. *)
Definition parse_date (d : date_arg) : exn + option Z :=
  match d with
  | NoDate => inr None
  | Date t => inr (Some t)
  | BadDate => inl (ValueError "Unknown datetime string format")
  end.

Definition is_text (r : row) : bool :=
  match created_at r with TsText => true | _ => false end.

(** A column read from the file holds strings as soon as one of its
    fields in the chunk is text that is no number. *)
Definition holds_text (chunk : DataFrame) (c : string) : bool :=
  existsb (fun r => match cell r c with NumText => true | _ => false end)
          (rows chunk).

Definition notna (c : string) (r : row) : bool :=
  match cell r c with NumEmpty => false | _ => true end.

(** [chunk[c]] for a column that may not be there. *)
Definition require (chunk : DataFrame) (c : string) : exn + unit :=
  if has_column c chunk then inr () else inl (KeyError (quoted c)).

(** The test [dropna(subset=cols)] makes before it drops a row: the
    columns it does not find are the argument of one [KeyError]. *)
Definition missing (chunk : DataFrame) (cols : list string) : list string :=
  List.filter (fun c => negb (has_column c chunk)) cols.

Definition require_all (chunk : DataFrame) (cols : list string) : exn + unit :=
  match missing chunk cols with
  | [] => inr ()
  | absent => inl (KeyError (listed absent))
  end.

(** The number in a field that holds one. *)
Definition num (c : string) (r : row) : Qc := default 0 (to_numeric (cell r c)).

Definition column_sum (chunk : DataFrame) (f : row -> Qc) : Qc :=
  total (map f (rows chunk)).

(** The updates of the aggregation variables by one chunk. *)
Definition add (chunk : DataFrame) (s : sums) : sums :=
  Sums
    (pm25_temp_products s + column_sum chunk (fun r => num "pm25" r * num "temperature" r))
    (pm25_hum_products s + column_sum chunk (fun r => num "pm25" r * num "humidity" r))
    (pm25_sum s + column_sum chunk (num "pm25"))
    (pm10_sum s + column_sum chunk (num "pm10"))
    (temp_sum s + column_sum chunk (num "temperature"))
    (hum_sum s + column_sum chunk (num "humidity"))
    (pm25_squared_sum s + column_sum chunk (fun r => num "pm25" r * num "pm25" r))
    (temp_squared_sum s + column_sum chunk (fun r => num "temperature" r * num "temperature" r))
    (hum_squared_sum s + column_sum chunk (fun r => num "humidity" r * num "humidity" r))
    (count s + len chunk).

(** [chunk[(chunk['created_at'] >= start) & (chunk['created_at'] <= end)]]
    under [if start and end:]. *)
Definition filter_by_date (start end_ : option Z) (chunk : DataFrame)
  : exn + DataFrame :=
  match start, end_ with
  | Some start, Some end_ =>
      compare_dates chunk;;
      inr (select (fun r => on_or_after start r && on_or_before end_ r) chunk)
  | _, _ => inr chunk
  end.

Definition pollutants_mapped (chunk : DataFrame) : bool :=
  has_column "field3" chunk && has_column "field4" chunk.

Definition climate_mapped (chunk : DataFrame) : bool :=
  has_column "field1" chunk && has_column "field2" chunk.

(** The two blocks under "Map fields correctly". *)
Definition map_fields (chunk : DataFrame) : DataFrame :=
  let chunk :=
    if pollutants_mapped chunk
    then assign "pm10" (fun r => coerce (cell r "field4"))
           (assign "pm25" (fun r => coerce (cell r "field3")) chunk)
    else chunk in
  if climate_mapped chunk
  then assign "temperature" (fun r => coerce (cell r "field2"))
         (assign "humidity" (fun r => coerce (cell r "field1")) chunk)
  else chunk.

(** The rows [dropna(subset=[...])] keeps. *)
Definition complete (r : row) : bool :=
  notna "pm25" r && notna "pm10" r && notna "temperature" r && notna "humidity" r.

(** One of the four columns, left as read from the file, holds
    strings. *)
Definition reads_strings (read : DataFrame) : bool :=
  (negb (pollutants_mapped read)
     && (holds_text read "pm25" || holds_text read "pm10"))
  || (negb (climate_mapped read)
        && (holds_text read "temperature" || holds_text read "humidity")).

(** The body of the loop for one chunk. *)
Definition process (start end_ : option Z) (chunk : DataFrame) (s : sums)
  : exn + sums :=
  require chunk "created_at";;
  (if existsb is_text (rows chunk)
   then inl (ValueError "Unknown datetime string format") else inr ());;
  let read := chunk in
  chunk ← filter_by_date start end_ chunk;
  if (len chunk =? 0)%nat then inr s
  else
    let chunk := map_fields chunk in
    require_all chunk ["pm25"; "pm10"; "temperature"; "humidity"];;
    let chunk := select complete chunk in
    if (len chunk =? 0)%nat then inr s
    else if reads_strings read
    then inl (TypeError "can't multiply sequence by non-int")
    else inr (add chunk s).

Fixpoint loop (start end_ : option Z) (cs : list DataFrame) (s : sums)
  : exn + sums :=
  match cs with
  | [] => inr s
  | chunk :: rest => s' ← process start end_ chunk s; loop start end_ rest s'
  end.

(** Pearson's coefficient from the aggregated values.  A negative
    product under the root makes [np.sqrt] give [nan], which is not
    [== 0] and makes the quotient [nan]. *)
Definition calculate_correlation
    (xy_sum x_sum y_sum x_squared_sum y_squared_sum : Qc) (n : nat) : option R :=
  let n := Qc_of_nat n in
  let numerator := n * xy_sum - x_sum * y_sum in
  let radicand :=
    (n * x_squared_sum - x_sum * x_sum) * (n * y_squared_sum - y_sum * y_sum) in
  if Qc_ltb radicand 0 then None
  else
    let denominator := sqrt (Qc2R radicand) in
    if Req_dec_T denominator 0 then Some 0%R
    else Some (Qc2R numerator / denominator)%R.

(** What the function reports: the image is the renderer's, the
    description prints the count and the two coefficients. *)
Inductive report :=
| NoData
| Correlation (count : nat) (pm25_temp_corr pm25_hum_corr : option R).

Definition summarise (s : sums) : report :=
  if (count s =? 0)%nat then NoData
  else
    Correlation (count s)
      (calculate_correlation (pm25_temp_products s) (pm25_sum s) (temp_sum s)
                             (pm25_squared_sum s) (temp_squared_sum s) (count s))
      (calculate_correlation (pm25_hum_products s) (pm25_sum s) (hum_sum s)
                             (pm25_squared_sum s) (hum_squared_sum s) (count s)).

(** The function, with the chunk size as a parameter. *)
Definition create_correlation_chunked (n : nat) (csv : file) (csv_path : string)
    (start_date end_date : date_arg) : exn + report :=
  start ← parse_date start_date;
  end_ ← parse_date end_date;
  cs ← read_csv_chunks csv_path n csv;
  s ← loop start end_ cs zero;
  inr (summarise s).

Definition create_correlation_large : file -> string -> date_arg -> date_arg
                                      -> exn + report :=
  create_correlation_chunked chunk_size.

End CorrelationLarge.

(** * Properties *)

Import Num Pandas.

(** ** Vocabulary of the statements *)


(** The four fields and the legacy code of each, as the specification
    pairs them. *)
Definition semantic_fields : list string :=
  ["pm25"; "pm10"; "temperature"; "humidity"].

Definition legacy_code (target : string) : string :=
  if decide (target = "pm25") then "field3"
  else if decide (target = "pm10") then "field4"
  else if decide (target = "temperature") then "field2"
  else "field1".

(** A resolver takes the semantic name when that column is there and the
    legacy code only otherwise. *)
Definition semantic_first (resolve : string -> DataFrame -> option string) : Prop :=
  forall df target, target ∈ semantic_fields ->
    resolve target df =
      if has_column target df then Some target
      else if has_column (legacy_code target) df then Some (legacy_code target)
      else None.

(** A resolver takes the legacy code when that column is there and the
    semantic name only otherwise. *)
Definition legacy_first (resolve : string -> DataFrame -> option string) : Prop :=
  forall df target, target ∈ semantic_fields ->
    resolve target df =
      if has_column (legacy_code target) df then Some (legacy_code target)
      else if has_column target df then Some target
      else None.

(** The resolver of [analyze_air_quality_data]. *)
Definition analysis_resolver (target : string) (df : DataFrame) : option string :=
  if decide (target = "pm25") then Analysis.pm25_col df
  else if decide (target = "pm10") then Analysis.pm10_col df
  else if decide (target = "temperature") then Analysis.temp_col df
  else Analysis.humidity_col df.

(** The resolver of [load_data]: the inner loop over the entry of
    [FIELD_MAPPING]. *)
Definition analyze_resolver (target : string) (df : DataFrame) : option string :=
  Analyze.first_present
    (default [] (snd <$> List.find (fun e => bool_decide (e.1 = target))
                                   Analyze.FIELD_MAPPING)) df.

(** The rows a date argument leaves: all of them unless it is a date. *)
Definition bounded (d : date_arg) (p : Z -> row -> bool) (df : DataFrame)
  : DataFrame :=
  match d with Date t => select (p t) df | _ => df end.

(** The rows within an optional start and an optional end, each bound
    applied when it is given. *)
Definition in_range (start_date end_date : date_arg) (df : DataFrame) : DataFrame :=
  bounded end_date on_or_before (bounded start_date on_or_after df).

(** A date argument the [created_at] column of a file can be compared
    with: no date at all, or a date when the dates of the column carry no
    UTC offset. *)
Definition comparable (d : date_arg) (df : DataFrame) : Prop :=
  match d with
  | NoDate => True
  | Date _ => aware df = false
  | BadDate => False
  end.

(** A date is asked for and the dates of the file carry an offset. *)
Definition incomparable (sd ed : date_arg) (df : DataFrame) : Prop :=
  aware df = true
  /\ ((exists t, sd = Date t) \/ (sd = NoDate /\ exists t, ed = Date t)).

(** Statements about a run of the body of [analyze_air_quality_data]:
    [m] keeps [I] (whatever way it ends), [m] keeps [I] and goes on, and
    [m] ends in a state with [Q] from any state. *)
Definition keeps {A} (I : Analysis.state -> Prop) (m : Analysis.M A) : Prop :=
  forall s, I s -> I (m s).1.

Definition proceeds {A} (I : Analysis.state -> Prop) (m : Analysis.M A) : Prop :=
  forall s, I s -> I (m s).1 /\ exists a, (m s).2 = Analysis.Normal a.


(** The entry of the result stored under a key, and a printed warning. *)
Definition holds (k : string) (v : value) (s : Analysis.state) : Prop :=
  Analysis.res s !! k = Some v.

Definition warned (w : string) (s : Analysis.state) : Prop :=
  w ∈ Analysis.warnings s.

(** No error so far, and [date_range] still the dictionary it was
    initialised to. *)
Definition sound (s : Analysis.state) : Prop :=
  Analysis.res s !! "error" = None
  /\ exists d, Analysis.res s !! "date_range" = Some (VDict d).

(** The values of a column that are present: the numbers of the rows
    whose field holds one, in the order of the rows. *)
Definition present_values (df : DataFrame) (c : string) : list Qc :=
  omap (fun r => match cell r c with NumOk q => Some q | _ => None end) (rows df).



(** The frame [load_data] maps the fields of: the rows that have a time,
    in the order of their times. *)
Definition timed (df : DataFrame) : DataFrame :=
  Analyze.sort_values (select (fun r => bool_decide (is_Some (time_of r))) df).

(** The field [load_data] stores for a target: the numeric reading of the
    column its resolver picks, or nothing. *)
Definition loaded_field (df : DataFrame) (target : string) (r : row) : field :=
  match analyze_resolver target df with
  | Some c => coerce (cell r c)
  | None => NumEmpty
  end.

(** A row after the field mapping of [load_data]. *)
Definition loaded_row (df : DataFrame) (r : row) : row :=
  Row (created_at r)
      (<["humidity" := loaded_field df "humidity" r]>
         (<["temperature" := loaded_field df "temperature" r]>
            (<["pm10" := loaded_field df "pm10" r]>
               (<["pm25" := loaded_field df "pm25" r]> (fields r))))).

(** Relabelling a legacy file with the semantic names. *)
Definition legacy_fields : list string := ["field3"; "field4"; "field2"; "field1"].

Definition semantic_name (c : string) : string :=
  if decide (c = "field3") then "pm25"
  else if decide (c = "field4") then "pm10"
  else if decide (c = "field2") then "temperature"
  else if decide (c = "field1") then "humidity"
  else c.

Definition rename_key (old new : string) (m : gmap string field) : gmap string field :=
  match m !! old with
  | Some v => <[new := v]> (delete old m)
  | None => delete new m
  end.

Definition relabel_row (r : row) : row :=
  Row (created_at r)
      (rename_key "field1" "humidity"
         (rename_key "field2" "temperature"
            (rename_key "field4" "pm10"
               (rename_key "field3" "pm25" (fields r))))).

Definition relabel (df : DataFrame) : DataFrame :=
  Frame (semantic_name <$> columns df) (relabel_row <$> rows df).

(** A file that names no column by a semantic name. *)
Definition legacy_only (df : DataFrame) : Prop :=
  forall c, c ∈ semantic_fields -> has_column c df = false.

(** Two rows that read the same time and the same four fields. *)
Definition same_readings (r r' : row) : Prop :=
  created_at r = created_at r'
  /\ forall c, c ∈ semantic_fields -> cell r c = cell r' c.

(** A resolved column of a legacy file: none, or a legacy code. *)
Definition legacy_column (col : option string) : Prop :=
  forall c, col = Some c -> c ∈ legacy_fields.

(** A resolved column is a column of the frame. *)
Definition present_column (df : DataFrame) (col : option string) : Prop :=
  forall c, col = Some c -> has_column c df = true.

(** Two frames whose rows read alike and that have the same target
    columns. *)
Definition same_frames (df df' : DataFrame) : Prop :=
  Forall2 same_readings (rows df) (rows df')
  /\ forall c, c ∈ semantic_fields -> has_column c df = has_column c df'.

(** The lines of a file that the Streaming Aggregator can take in any
    chunking: no [created_at] that is text and no date, and no text that
    is no number in a column named [pm25], [pm10], [temperature] or
    [humidity]. *)
Definition clean (l : list row) : Prop :=
  Forall (fun r => created_at r <> TsText
                   /\ forall c, c ∈ semantic_fields -> cell r c <> NumText) l.

(** The rows of a chunk that reach the aggregation variables: those the
    date filter keeps, with the fields mapped, that have all four
    values. *)
Definition between (start end_ : option Z) (l : list row) : list row :=
  match start, end_ with
  | Some a, Some b => List.filter (fun r => on_or_after a r && on_or_before b r) l
  | _, _ => l
  end.

(** The date filter can be applied to the lines: the two bounds are not
    both given, or no date of the lines carries an offset. *)
Definition filterable (start end_ : option Z) (l : list row) : Prop :=
  match start, end_ with
  | Some _, Some _ => existsb is_aware l = false
  | _, _ => True
  end.

Definition aggregated (cols : list string) (start end_ : option Z) (l : list row)
  : list row :=
  List.filter CorrelationLarge.complete
    (rows (CorrelationLarge.map_fields (Frame cols (between start end_ l)))).

(** The Streaming Aggregator reads a field from its legacy code when the
    header names the two legacy codes that are mapped together (those of
    PM2.5 and PM10, or those of temperature and humidity), and from the
    column of its own name otherwise. *)
Definition legacy_pair (cols : list string) (c : string) : bool :=
  let df := Frame cols [] in
  if decide (c = "pm25" \/ c = "pm10")
  then has_column "field3" df && has_column "field4" df
  else has_column "field1" df && has_column "field2" df.

Definition found (cols : list string) (c : string) : bool :=
  legacy_pair cols c || has_column c (Frame cols []).

Definition reading (cols : list string) (c : string) (r : row) : option Qc :=
  to_numeric (cell r (if legacy_pair cols c then legacy_code c else c)).

(** The rows of a file that count as data points: those between the
    bounds that have a number for each of the four fields. *)
Definition holds_four (cols : list string) (r : row) : bool :=
  forallb (fun c => bool_decide (is_Some (reading cols c r))) semantic_fields.

Definition counted (cols : list string) (start end_ : option Z) (l : list row)
  : list row :=
  List.filter (holds_four cols) (between start end_ l).

(** The four column tests of [dropna(subset=[...])], which depend on the
    header only. *)
Definition required (cols : list string) : exn + unit :=
  CorrelationLarge.require_all (CorrelationLarge.map_fields (Frame cols []))
    semantic_fields.


(** A value more than three standard deviations from the mean, and a
    value at least that far from it. *)
Definition beyond (m : Qc) (sd : R) (x : Qc) : Prop :=
  (3 * sd < Rabs (Qc2R x - Qc2R m))%R.

Definition reaches (m : Qc) (sd : R) (x : Qc) : Prop :=
  (3 * sd <= Rabs (Qc2R x - Qc2R m))%R.

#[export] Instance beyond_dec (m : Qc) (sd : R) (x : Qc) : Decision (beyond m sd x) :=
  Rlt_dec _ _.

#[export] Instance reaches_dec (m : Qc) (sd : R) (x : Qc) : Decision (reaches m sd x) :=
  Rle_dec _ _.

(** [k] is the number of outliers among the values: of those more than
    three standard deviations from their mean, a value exactly three
    standard deviations from it counting or not; none where the standard
    deviation is undefined. *)
Definition outlier_count (values : list Qc) (k : nat) : Prop :=
  match mean values, std values with
  | Some m, Some sd =>
      (length (filter (beyond m sd) values) <= k
       /\ k <= length (filter (reaches m sd) values))%nat
  | _, _ => k = 0%nat
  end.

(** [f] is [x] to 2 decimal places: a number of hundredths, half a
    hundredth from [x] at most. *)
Definition to_2_decimals (f x : Qc) : Prop :=
  (exists z : Z, f = Qc_of_Z z / dec 100 1)
  /\ x - dec 1 200 ≤ f /\ f ≤ x + dec 1 200.

(** [k] rows as a percentage of all the rows. *)
Definition percent_of_rows (k total_records : nat) : Qc :=
  Qc_of_nat k / Qc_of_nat total_records * dec 100 1.

(** The outliers of a column as a fraction of its values. *)
Definition outlier_fraction (s : list (option Qc)) : Qc :=
  Qc_of_nat (Analysis.outlier_rows s) / Qc_of_nat (length (dropna s)).


(** ** Example files *)

(** A line with a time and some numeric fields. *)
Definition line (t : Z) (l : list (string * Qc)) : row :=
  Row (TsOk t) (list_to_map (prod_map Datatypes.id NumOk <$> l)).

(** A file that carries PM2.5 and PM10 under both names. *)
Definition both_names : DataFrame :=
  Frame ["created_at"; "field3"; "field4"; "pm25"; "pm10"]
    [line 1704067200 [("field3", dec 5 1); ("field4", dec 6 1);
                      ("pm25", dec 7 1); ("pm10", dec 8 1)]].

(** The two readings of the specification's scenario, an hour apart on
    1 January 2024. *)
Definition two_rows : DataFrame :=
  Frame ["created_at"; "pm25"; "pm10"]
    [line 1704067200 [("pm25", dec 10 1); ("pm10", dec 20 1)];
     line 1704070800 [("pm25", dec 30 1); ("pm10", dec 40 1)]].

(** A file with PM2.5 readings and no PM10 column under either name. *)
Definition pm25_only : DataFrame :=
  Frame ["created_at"; "pm25"; "temperature"; "humidity"]
    [line 1704067200 [("pm25", dec 10 1); ("temperature", dec 21 1);
                      ("humidity", dec 40 1)];
     line 1704070800 [("pm25", dec 30 1); ("temperature", dec 22 1);
                      ("humidity", dec 45 1)]].

(** A file whose [created_at] fields are text that is no date. *)
Definition unparsed_times : DataFrame :=
  Frame ["created_at"; "pm25"; "pm10"]
    [Row TsText (list_to_map [("pm25", NumOk (dec 10 1)); ("pm10", NumOk (dec 20 1))]);
     Row TsText (list_to_map [("pm25", NumOk (dec 30 1)); ("pm10", NumOk (dec 40 1))])].

(** The legacy file of the specification's scenario: PM2.5 readings 5 and
    15 under [field3], and no column named [pm25]. *)
Definition legacy_file : DataFrame :=
  Frame ["created_at"; "field1"; "field2"; "field3"; "field4"]
    [line 1704067200 [("field1", dec 40 1); ("field2", dec 21 1);
                      ("field3", dec 5 1); ("field4", dec 12 1)];
     line 1704070800 [("field1", dec 45 1); ("field2", dec 22 1);
                      ("field3", dec 15 1); ("field4", dec 18 1)]].

(** A file whose PM2.5 readings are all the same. *)
Definition constant_pm25 : DataFrame :=
  Frame ["created_at"; "pm25"; "pm10"; "temperature"; "humidity"]
    [line 1704067200 [("pm25", dec 5 1); ("pm10", dec 10 1);
                      ("temperature", dec 20 1); ("humidity", dec 40 1)];
     line 1704070800 [("pm25", dec 5 1); ("pm10", dec 12 1);
                      ("temperature", dec 21 1); ("humidity", dec 45 1)];
     line 1704074400 [("pm25", dec 5 1); ("pm10", dec 16 1);
                      ("temperature", dec 23 1); ("humidity", dec 43 1)]].

(** A file in which one line has no PM10 value. *)
Definition pm10_gap : DataFrame :=
  Frame ["created_at"; "pm25"; "pm10"; "temperature"; "humidity"]
    [line 1704067200 [("pm25", dec 0 1); ("pm10", dec 1 1);
                      ("temperature", dec 0 1); ("humidity", dec 1 1)];
     line 1704070800 [("pm25", dec 1 1); ("pm10", dec 1 1);
                      ("temperature", dec 1 1); ("humidity", dec 2 1)];
     line 1704074400 [("pm25", dec 2 1);
                      ("temperature", dec 0 1); ("humidity", dec 3 1)]].

(** Twelve lines: ten PM2.5 readings of 0, one of 100 and one line
    without a PM2.5 value. *)
Definition one_spike : DataFrame :=
  Frame ["created_at"; "pm25"; "pm10"; "temperature"; "humidity"]
    (replicate 10 (line 1704067200 [("pm25", dec 0 1); ("pm10", dec 8 1);
                                    ("temperature", dec 21 1); ("humidity", dec 40 1)])
     ++ [line 1704070800 [("pm25", dec 100 1); ("pm10", dec 8 1);
                          ("temperature", dec 21 1); ("humidity", dec 40 1)];
         line 1704074400 [("pm10", dec 8 1);
                          ("temperature", dec 21 1); ("humidity", dec 40 1)]]).


(** The two readings of [two_rows] with the stamps the ThingSpeak feed
    writes, which carry a UTC offset ([2024-01-01T00:00:00Z]). *)
Definition utc_stamps : DataFrame :=
  Frame ["created_at"; "pm25"; "pm10"; "temperature"; "humidity"]
    [Row (TsAware 1704067200)
         (list_to_map [("pm25", NumOk (dec 10 1)); ("pm10", NumOk (dec 20 1));
                       ("temperature", NumOk (dec 21 1));
                       ("humidity", NumOk (dec 40 1))]);
     Row (TsAware 1704070800)
         (list_to_map [("pm25", NumOk (dec 30 1)); ("pm10", NumOk (dec 40 1));
                       ("temperature", NumOk (dec 22 1));
                       ("humidity", NumOk (dec 45 1))])].

(** ** [python/analysis.py]: the command line *)

Module AnalysisMain.
Import Num Pandas Analysis.

Definition DEFAULT_DATA_PATH : string :=
  "C:\Users\burak\Desktop\iotprojects\air-quality-monitering\data\air_quality_data.csv".

Section Main.
(** What is on disk at a path, and what [pd.to_datetime] makes of a
    string: a time, or nothing when it rejects the string. *)
Variable fs : string -> file.
Variable to_datetime : string -> option Z.

(** A date argument as the function tests and parses it: [None] and the
    empty string are falsy, any other string goes to [pd.to_datetime]. *)
Definition date_of (arg : option string) : date_arg :=
  match arg with
  | None => NoDate
  | Some s =>
      if decide (s = "") then NoDate
      else match to_datetime s with
           | Some t => Date t
           | None => BadDate
           end
  end.

Definition is_flag (arg : string) : bool :=
  bool_decide (arg = "--extended") || bool_decide (arg = "-e").

(** The block under [if __name__ == "__main__":], up to the result it
    prints; [argv] is [sys.argv]. *)
Definition main (argv : list string) : state :=
  let csv_path :=
    if (length argv <? 2)%nat then DEFAULT_DATA_PATH
    else default DEFAULT_DATA_PATH (argv !! 1%nat) in
  let start_date := if (2 <? length argv)%nat then argv !! 2%nat else None in
  let end_date := if (3 <? length argv)%nat then argv !! 3%nat else None in
  let extended := existsb is_flag argv in
  analyze_air_quality_data (fs csv_path) csv_path
    (date_of start_date) (date_of end_date) extended.
End Main.

End AnalysisMain.

(** ** [python/analyze.py]: the correlation chart *)

Module AnalyzeCharts.
Import Num Pandas Analyze.

(** What ends the function other than a return: an exception of the
    kinds above, or the use of a local variable that was never
    assigned. *)
Inductive failure :=
| Exception (e : exn)
| UnboundLocalError (name : string).

(** The plotting calls, which belong to matplotlib and seaborn: making
    the figure, drawing one panel with its title, and laying out and
    saving the figure (with the directory made for it).  Each draws, or
    raises. *)
Record renderer := Renderer {
  subplots : exn + unit;
  regplot : string -> DataFrame -> exn + unit;
  savefig : string -> exn + unit
}.

Definition plot (x : exn + unit) : failure + unit :=
  match x with inl e => inl (Exception e) | inr u => inr u end.

#[export] Instance failure_bind : MBind (Datatypes.sum failure) := fun A B k m =>
  match m with inl e => inl e | inr a => k a end.

(** [df.dropna(subset=[c, 'pm25'])], on a frame that has the column
    [c]. *)
Definition dropna_subset (c : string) (df : DataFrame) : failure + DataFrame :=
  if has_column "pm25" df
  then inr (select (fun r => present c r && present "pm25" r) df)
  else inl (Exception (KeyError (listed ["pm25"]))).

(** One of the two panels: the coefficient is assigned only when some
    row has both values. *)
Definition panel (r : renderer) (c : string) (df : DataFrame)
  : failure + option (option R) :=
  valid ← dropna_subset c df;
  if (0 <? len valid)%nat
  then plot (regplot r c valid);; inr (Some (corr valid c "pm25"))
  else inr None.

(** [x > y] on a coefficient that may be [NaN]: a comparison with [NaN]
    is false. *)
Definition exceeds (x : option R) (y : R) : bool :=
  match x with
  | Some x => if Rlt_dec y x then true else false
  | None => false
  end.

Definition temperature_sentence (temp_corr : option R) : string :=
  if exceeds temp_corr (5 / 10)
  then "Strong positive correlation with temperature, suggesting PM2.5 levels increase in warmer conditions. "
  else if exceeds temp_corr (2 / 10)
  then "Moderate positive correlation with temperature. "
  else if exceeds temp_corr (- (2 / 10))
  then "Weak or no correlation with temperature. "
  else if exceeds temp_corr (- (5 / 10))
  then "Moderate negative correlation with temperature, suggesting PM2.5 levels decrease in warmer conditions. "
  else "Strong negative correlation with temperature, suggesting PM2.5 levels significantly decrease in warmer conditions. ".

Definition humidity_sentence (humidity_corr : option R) : string :=
  if exceeds humidity_corr (5 / 10)
  then "Strong positive correlation with humidity, suggesting PM2.5 levels increase in humid conditions."
  else if exceeds humidity_corr (2 / 10)
  then "Moderate positive correlation with humidity."
  else if exceeds humidity_corr (- (2 / 10))
  then "Weak or no correlation with humidity."
  else if exceeds humidity_corr (- (5 / 10))
  then "Moderate negative correlation with humidity, suggesting PM2.5 levels decrease in humid conditions."
  else "Strong negative correlation with humidity, suggesting PM2.5 levels significantly decrease in humid conditions.".

(** The use of a coefficient in the description. *)
Definition bound (name : string) (v : option (option R)) : failure + option R :=
  match v with
  | Some x => inr x
  | None => inl (UnboundLocalError name)
  end.

(** [create_correlation], on a frame whose four fields are numeric as
    [load_data] leaves them; [timestamp] is the time of the call as the
    file name prints it. *)
Definition create_correlation (r : renderer) (timestamp : string)
    (df : option DataFrame) : failure + (option string * string) :=
  match df with
  | None => inr (None, "No data available for correlation analysis")
  | Some df =>
      if (len df =? 0)%nat
      then inr (None, "No data available for correlation analysis")
      else
        let has_temp :=
          has_column "temperature" df && negb (all_isna (numeric df "temperature")) in
        let has_humidity :=
          has_column "humidity" df && negb (all_isna (numeric df "humidity")) in
        if negb has_temp && negb has_humidity
        then inr (None, "Temperature and humidity data not available for correlation analysis")
        else
          plot (subplots r);;
          temp_corr ← (if has_temp then panel r "temperature" df else inr None);
          humidity_corr ← (if has_humidity then panel r "humidity" df else inr None);
          let filename := "correlation_" +:+ timestamp +:+ ".png" in
          plot (savefig r filename);;
          let description :=
            "Correlation analysis between air quality (PM2.5) and environmental factors. " in
          description ←
            (if has_temp
             then c ← bound "temp_corr" temp_corr;
                  inr (description +:+ temperature_sentence c)
             else inr description);
          description ←
            (if has_humidity
             then c ← bound "humidity_corr" humidity_corr;
                  inr (description +:+ humidity_sentence c)
             else inr description);
          inr (Some ("/images/" +:+ filename), description)
  end.

End AnalyzeCharts.


(** ** [python/analyze.py]: the command line *)

Module AnalyzeMain.
Import Num Pandas Analyze.

(** The truth value of a result entry, as [or] and [if not] test it. *)
Definition truthy (v : value) : bool :=
  match v with
  | VNone => false
  | VBool b => b
  | VInt n => negb (n =? 0)%Z
  | VNum q => negb (bool_decide (q = 0))
  | VReal r => if Req_dec_T r 0 then false else true
  | VNaN => true
  | VStr s => negb (bool_decide (s = ""))
  | VTime _ => true
  | VList l => negb (bool_decide (l = []))
  | VDict d => negb (bool_decide (d = []))
  end.

(** [result[k]] and [v[k]]. *)
Definition getitem (result : gmap string value) (k : string) : exn + value :=
  match result !! k with
  | Some v => inr v
  | None => inl (KeyError (quoted k))
  end.

Definition subscript (v : value) (k : string) : exn + value :=
  match v with
  | VDict _ =>
      match item k v with
      | Some x => inr x
      | None => inl (KeyError (quoted k))
      end
  | _ => inl (TypeError "object is not subscriptable")
  end.

(** [main], after the arguments are parsed: the two values it prints
    first, and the exit status (1 for [sys.exit(1)], 0 otherwise).  The
    JSON dump it may print between the two is left out. *)
Definition main (c : charts) (csv : file) (data_file viz_type : string)
    (start_date end_date : date_arg) : exn + (list value * Z) :=
  let result := analyze_data c csv data_file viz_type start_date end_date in
  visualization ← getitem result "visualization";
  path ← subscript visualization "path";
  printed ←
    (match path with
     | VNone =>
         error ← getitem result "error";
         inr [VStr "/images/error.png";
              if truthy error then error
              else VStr "Analysis failed without specific error message."]
     | _ =>
         description ← subscript visualization "description";
         inr [path; description]
     end);
  success ← getitem result "success";
  inr (printed, if truthy success then 0%Z else 1%Z).

End AnalyzeMain.

(** ** Vocabulary of the further properties *)

(** The entries the extended analysis adds to the result. *)
Definition extended_keys : list string :=
  ["hourly_patterns"; "correlations"; "daily_patterns"; "data_quality";
   "analysis_version"].

(** Two states with the same entries outside the extended ones. *)
Definition agree (s s' : Analysis.state) : Prop :=
  forall k, k ∉ extended_keys -> Analysis.res s !! k = Analysis.res s' !! k.

(** Two runs that end the same way in states that agree. *)
Definition alike {A} (x y : Analysis.state * Analysis.outcome A) : Prop :=
  x.2 = y.2 /\ agree x.1 y.1.

(** The result has no entry under a key. *)
Definition absent (k : string) (s : Analysis.state) : Prop :=
  Analysis.res s !! k = None.

(** An entry that is a number from 0 to 100. *)
Definition percentage (v : value) : Prop :=
  exists q, v = VNum q /\ 0 ≤ q /\ q ≤ dec 100 1.

(** Two rows with a time each, the first not after the second. *)
Definition not_after (r1 r2 : row) : Prop :=
  exists t1 t2, time_of r1 = Some t1 /\ time_of r2 = Some t2 /\ (t1 ≤ t2)%Z.

(** A row as [load_data] leaves it: it has a time and both pollutant
    values, and each of the four fields is a number or empty. *)
Definition loaded_form (r : row) : Prop :=
  is_Some (time_of r)
  /\ is_Some (to_numeric (cell r "pm25")) /\ is_Some (to_numeric (cell r "pm10"))
  /\ forall c, c ∈ semantic_fields -> cell r c <> NumText.

(** A row within the date arguments that are dates. *)
Definition within (sd ed : date_arg) (r : row) : Prop :=
  (forall t, sd = Date t -> on_or_after t r = true)
  /\ (forall t, ed = Date t -> on_or_before t r = true).



(** The fields the Streaming Aggregator does not find in a file with
    this header, in the order [dropna] names them. *)
Definition lacking (cols : list string) : list string :=
  List.filter (fun c => negb (found cols c)) semantic_fields.

(** A renderer whose calls all draw. *)
Definition draws (r : AnalyzeCharts.renderer) : Prop :=
  AnalyzeCharts.subplots r = inr ()
  /\ (forall c df, AnalyzeCharts.regplot r c df = inr ())
  /\ (forall f, AnalyzeCharts.savefig r f = inr ()).

Definition easel : AnalyzeCharts.renderer :=
  AnalyzeCharts.Renderer (inr ()) (fun _ _ => inr ()) (fun _ => inr ()).

(** Some row has a value in a column. *)
Definition has_values (df : DataFrame) (c : string) : bool :=
  negb (Analyze.all_isna (numeric df c)).

(** A frame whose four fields hold numbers or nothing. *)
Definition numeric_fields (df : DataFrame) : Prop :=
  Forall (fun r => forall c, c ∈ semantic_fields -> cell r c <> NumText) (rows df).

(** A column that has values, none of them in a row that has a PM2.5
    value. *)
Definition unpaired (df : DataFrame) (c : string) : Prop :=
  has_column c df = true /\ has_values df c = true
  /\ Forall (fun r => Analyze.present c r && Analyze.present "pm25" r = false)
            (rows df).

(** A column whose values are all the same. *)
Definition constant (df : DataFrame) (c : string) : Prop :=
  exists v, Forall (fun r => forall q, to_numeric (cell r c) = Some q -> q = v)
                   (rows df).

(** The path and the opening of the description of a correlation
    chart. *)
Definition chart_path (timestamp : string) : string :=
  "/images/" +:+ ("correlation_" +:+ timestamp +:+ ".png").

Definition opening : string :=
  "Correlation analysis between air quality (PM2.5) and environmental factors. ".

(** A file in which the temperature and the PM2.5 value never come in
    the same line. *)
Definition unpaired_temperature : DataFrame :=
  Frame ["created_at"; "pm25"; "pm10"; "temperature"]
    [line 1704067200 [("pm25", dec 10 1); ("pm10", dec 20 1)];
     line 1704070800 [("pm10", dec 40 1); ("temperature", dec 21 1)]].

(** ** The values present in a column *)

Section PresentValues.

(** [dropna] leaves the numbers of the rows that hold one. *)
Lemma dropna_numeric (df : DataFrame) (c : string) :
  dropna (numeric df c) = present_values df c.
Proof.
  unfold dropna, numeric, present_values.
  induction (rows df) as [|r l IH]; [reflexivity|].
  cbn [map omap list_omap]. rewrite <- IH.
  unfold to_numeric. now destruct (cell r c).
Qed.
End PresentValues.

Lemma Qc_leb_le (x y : Qc) : Qc_leb x y = true <-> x ≤ y.
Proof. unfold Qc_leb. apply bool_decide_eq_true. Qed.

Lemma Qc_leb_gt (x y : Qc) : Qc_leb x y = false <-> y < x.
Proof.
  unfold Qc_leb. rewrite bool_decide_eq_false. split.
  - apply Qcnot_le_lt.
  - apply Qclt_not_le.
Qed.

Lemma Qc_ltb_lt (x y : Qc) : Qc_ltb x y = true <-> x < y.
Proof. unfold Qc_ltb. apply bool_decide_eq_true. Qed.

(** ** Air-quality levels *)

Section Levels.
Import Analyze.



End Levels.

Section LevelsOfTheMean.
Import Analyze.

Lemma item_summary_air_quality (s : list (option Qc)) (q : value) :
  item "air_quality" (VDict (summary s ++ [("air_quality", q)])) = Some q.
Proof. reflexivity. Qed.

Lemma item_summary_mean (s : list (option Qc)) (q : value) :
  item "mean" (VDict (summary s ++ [("air_quality", q)]))
  = Some (VFloat (mean (dropna s))).
Proof. reflexivity. Qed.

End LevelsOfTheMean.



(** ** The field resolvers *)

Lemma semantic_fields_cases (target : string) :
  target ∈ semantic_fields ->
  target = "pm25" \/ target = "pm10" \/ target = "temperature" \/ target = "humidity".
Proof.
  unfold semantic_fields. rewrite !elem_of_cons, elem_of_nil. tauto.
Qed.

Lemma analysis_resolver_semantic_first : semantic_first analysis_resolver.
Proof.
  intros df target Ht.
  destruct (semantic_fields_cases _ Ht) as [-> | [-> | [-> | ->]]]; reflexivity.
Qed.

Lemma analyze_resolver_legacy_first : legacy_first analyze_resolver.
Proof.
  intros df target Ht.
  destruct (semantic_fields_cases _ Ht) as [-> | [-> | [-> | ->]]];
    unfold analyze_resolver; simpl; unfold legacy_code; simpl;
    repeat match goal with |- context [has_column ?c df] =>
      destruct (has_column c df) end; reflexivity.
Qed.

(** The column [load_data] fills for a field holds the numeric reading of
    the column its resolver picked, and nothing when it picked none. *)
Lemma map_field_cell (df : DataFrame) (target : string) (fs : list string) :
  map (fun r => cell r target) (rows (Analyze.map_field df (target, fs)))
  = match Analyze.first_present fs df with
    | Some c => map (fun r => coerce (cell r c)) (rows df)
    | None => map (fun _ => NumEmpty) (rows df)
    end.
Proof.
  unfold Analyze.map_field. simpl.
  destruct (Analyze.first_present fs df); simpl; rewrite map_map;
    apply map_ext; intros r; unfold cell; simpl; now rewrite lookup_insert_eq.
Qed.

(** On a file that has both names, [load_data] reads PM2.5 from
    [field3]. *)
Example load_data_both_names :
  (fun df => numeric df "pm25") <$> Analyze.load_data (Csv both_names) "f.csv" NoDate NoDate
  = Some [Some (dec 5 1)].
Proof. vm_compute. reflexivity. Qed.

(** C2, as stated, fails for the resolver of [load_data]: with [field3]
    and [pm25] both in the file it picks [field3]. *)
Lemma analyze_resolver_not_semantic_first : ~ semantic_first analyze_resolver.
Proof.
  intros H. specialize (H both_names "pm25"). 
  assert (Hin : "pm25" ∈ semantic_fields) by (unfold semantic_fields; set_solver).
  specialize (H Hin). vm_compute in H. discriminate.
Qed.

(** C2 (amended).  The resolver of [analyze_air_quality_data] takes the
    semantic name when present and the legacy code only otherwise; the
    resolver of [load_data] takes the legacy code when present and the
    semantic name only otherwise; with either, a field is unavailable
    exactly when neither name is a column. *)
Theorem field_resolvers :
  semantic_first analysis_resolver
  /\ legacy_first analyze_resolver
  /\ (forall df target, target ∈ semantic_fields ->
        (analysis_resolver target df = None
         <-> has_column target df = false /\ has_column (legacy_code target) df = false)
        /\ (analyze_resolver target df = None
            <-> has_column target df = false /\ has_column (legacy_code target) df = false)).
Proof.
  split; [apply analysis_resolver_semantic_first|].
  split; [apply analyze_resolver_legacy_first|].
  intros df target Ht.
  rewrite (analysis_resolver_semantic_first df target Ht).
  rewrite (analyze_resolver_legacy_first df target Ht).
  destruct (has_column target df), (has_column (legacy_code target) df);
    split; split; try (intros [? ?]); try discriminate; auto.
Qed.

Lemma field_resolvers_witness :
  analysis_resolver "pm25" both_names = Some "pm25"
  /\ analyze_resolver "pm25" both_names = Some "field3".
Proof.
  destruct field_resolvers as (Hs & Hl & _).
  assert (Hin : "pm25" ∈ semantic_fields) by (unfold semantic_fields; set_solver).
  split.
  - rewrite (Hs both_names "pm25" Hin). reflexivity.
  - rewrite (Hl both_names "pm25" Hin). reflexivity.
Defined.

(** ** A small logic for the runs of the body *)

Section RunLogic.
Import Analysis.
Context {A B : Type}.
Implicit Types (I Q : state -> Prop) (s : state).

Lemma run_bind (m : M A) (k : A -> M B) s :
  (m ≫= k) s =
  match m s with
  | (s', Normal a) => k a s'
  | (s', Returned) => (s', Returned)
  | (s', Raised e) => (s', Raised e)
  end.
Proof. reflexivity. Qed.

Lemma run_ret (a : A) s : (mret a : M A) s = (s, Normal a).
Proof. reflexivity. Qed.

Lemma keeps_bind I (m : M A) (k : A -> M B) :
  keeps I m -> (forall a, keeps I (k a)) -> keeps I (m ≫= k).
Proof.
  intros Hm Hk s Hs. rewrite run_bind. specialize (Hm s Hs).
  destruct (m s) as [s' [a| |e]]; simpl in *; auto. now apply Hk.
Qed.

Lemma proceeds_bind I (m : M A) (k : A -> M B) :
  proceeds I m -> (forall a, proceeds I (k a)) -> proceeds I (m ≫= k).
Proof.
  intros Hm Hk s Hs. rewrite run_bind. destruct (Hm s Hs) as [Hs' [a Ha]].
  destruct (m s) as [s' o]; simpl in *; subst o. now apply Hk.
Qed.



Lemma proceeds_keeps I (m : M A) : proceeds I m -> keeps I m.
Proof. intros H s Hs. now apply H. Qed.
End RunLogic.

Section RunLeaves.
Import Analysis.
Implicit Types (I Q : state -> Prop) (s : state).

Lemma keeps_ret {A} I (a : A) : keeps I (mret a : M A).
Proof. intros s Hs. exact Hs. Qed.

Lemma keeps_raise {A} I (e : exn) : keeps I (raise e : M A).
Proof. intros s Hs. exact Hs. Qed.

Lemma keeps_return {A} I : keeps I (return_result : M A).
Proof. intros s Hs. exact Hs. Qed.

Lemma keeps_lift {A} I (x : exn + A) : keeps I (lift x).
Proof. destruct x; [apply keeps_raise | apply keeps_ret]. Qed.

Lemma keeps_try_pass I (m : M unit) : keeps I m -> keeps I (try_pass m).
Proof.
  intros Hm s Hs. unfold try_pass. specialize (Hm s Hs).
  destruct (m s) as [s' [a| |e]]; exact Hm.
Qed.

Lemma proceeds_ret {A} I (a : A) : proceeds I (mret a : M A).
Proof. intros s Hs. split; [exact Hs | now exists a]. Qed.

Lemma proceeds_try_pass I (m : M unit) :
  keeps I m -> (forall s, (m s).2 <> Returned) -> proceeds I (try_pass m).
Proof.
  intros Hm Hr s Hs. unfold try_pass. specialize (Hm s Hs). specialize (Hr s).
  destruct (m s) as [s' [a| |e]]; simpl in *; split; auto;
    try (now exists a); try (now exists ()); contradiction.
Qed.

(** Storing under a key keeps what is held under another key, the
    warnings, and soundness when the key is none of its two. *)
Lemma keeps_store_holds (k k' : string) (v v' : value) :
  k <> k' -> keeps (holds k v) (store k' v').
Proof.
  intros Hk s Hs. unfold holds, store in *. cbn [fst res].
  rewrite lookup_insert_ne; auto.
Qed.

Lemma keeps_store_warned (w k' : string) (v' : value) :
  keeps (warned w) (store k' v').
Proof. intros s Hs. exact Hs. Qed.

Lemma keeps_warn_holds (k : string) (v : value) (w : string) :
  keeps (holds k v) (warn w).
Proof. intros s Hs. exact Hs. Qed.

Lemma keeps_warn_warned (w w' : string) : keeps (warned w) (warn w').
Proof.
  intros s Hs. unfold warned, warn in *. cbn [fst warnings].
  apply elem_of_app. now left.
Qed.

Lemma proceeds_store_sound (k : string) (v : value) :
  k <> "error" -> k <> "date_range" -> proceeds sound (store k v).
Proof.
  intros H1 H2 s [He [d Hd]]. split; [|now exists ()].
  unfold sound, store. cbn [fst res]. rewrite !lookup_insert_ne by auto. eauto.
Qed.

Lemma proceeds_warn_sound (w : string) : proceeds sound (warn w).
Proof. intros s Hs. split; [exact Hs | now exists ()]. Qed.

Lemma proceeds_store_any (k : string) (v : value) :
  proceeds (fun _ => True) (store k v).
Proof. intros s _. split; [exact Logic.I | now exists ()]. Qed.

Lemma proceeds_warn_any (w : string) : proceeds (fun _ => True) (warn w).
Proof. intros s _. split; [exact Logic.I | now exists ()]. Qed.

Lemma keeps_store_in_holds (k k1 k2 : string) (v v' : value) :
  k <> k1 -> keeps (holds k v) (store_in k1 k2 v').
Proof.
  intros Hk s Hs. unfold store_in.
  destruct (res s !! k1) as [[] |]; try exact Hs.
  now apply keeps_store_holds.
Qed.

Lemma keeps_store_in_warned (w k1 k2 : string) (v' : value) :
  keeps (warned w) (store_in k1 k2 v').
Proof.
  intros s Hs. unfold store_in. destruct (res s !! k1) as [[] |]; exact Hs.
Qed.

Lemma proceeds_store_in_sound (k2 : string) (v : value) :
  proceeds sound (store_in "date_range" k2 v).
Proof.
  intros s [He [d Hd]]. unfold store_in. rewrite Hd. split; [|now exists ()].
  unfold sound, store. cbn [fst res]. rewrite lookup_insert_ne by discriminate.
  split; [exact He|]. rewrite lookup_insert_eq. eauto.
Qed.
End RunLeaves.

Ltac run :=
  repeat (rewrite ?run_bind, ?run_ret;
          cbv beta iota delta [Analysis.store Analysis.warn Analysis.raise
                               Analysis.return_result Analysis.lift read_csv]).

(** Keeping an entry or a warning, through any piece of the body. *)
Ltac keeps_tac :=
  repeat first
    [ apply keeps_bind; [|intros ?]
    | apply keeps_ret | apply keeps_raise | apply keeps_return | apply keeps_lift
    | apply keeps_try_pass
    | apply keeps_store_holds; discriminate
    | apply keeps_store_warned | apply keeps_warn_holds | apply keeps_warn_warned
    | apply keeps_store_in_holds; discriminate | apply keeps_store_in_warned
    | match goal with |- keeps _ (if ?b then _ else _) => destruct b end
    | match goal with |- keeps _ (match ?x with _ => _ end) => destruct x end
    | progress unfold Analysis.pollutant_block, Analysis.climate_block,
                      Analysis.strftime ].

(** ** [analyze_air_quality_data]: reading and filtering *)

Section ReadAndFilter.
Import Analysis.

Lemma len_in_range_0 (sd ed : date_arg) (df : DataFrame) :
  len df = 0%nat -> len (in_range sd ed df) = 0%nat.
Proof.
  unfold in_range, bounded, len. intros H.
  destruct ed, sd; simpl; try assumption;
    destruct (rows df); try discriminate; reflexivity.
Qed.

Lemma aware_filter (p : row -> bool) (l : list row) :
  existsb is_aware l = false -> existsb is_aware (List.filter p l) = false.
Proof.
  induction l as [|r l IH]; [reflexivity|]. cbn [existsb List.filter].
  intros H. apply orb_false_iff in H as [Hr Hl].
  destruct (p r); [cbn [existsb]; rewrite Hr|]; now apply IH.
Qed.

Lemma aware_select (p : row -> bool) (df : DataFrame) :
  aware df = false -> aware (select p df) = false.
Proof. apply aware_filter. Qed.

Lemma aware_bounded (d : date_arg) (p : Z -> row -> bool) (df : DataFrame) :
  aware df = false -> aware (bounded d p df) = false.
Proof. destruct d; cbn [bounded]; auto. apply aware_select. Qed.

Lemma comparable_bounded (d d' : date_arg) (p : Z -> row -> bool) (df : DataFrame) :
  comparable d df -> comparable d (bounded d' p df).
Proof. destruct d; cbn [comparable]; auto. apply aware_bounded. Qed.

(** A date that can be compared leaves the rows within the bound. *)
Lemma filter_date_comparable (d : date_arg) (p : Z -> row -> bool) (df : DataFrame)
    (s : state) :
  comparable d df -> filter_date d p df s = (s, Normal (bounded d p df)).
Proof.
  destruct d as [|t|]; cbn [comparable filter_date bounded]; [reflexivity| |tauto].
  intros H. unfold compare_dates. rewrite H. reflexivity.
Qed.

(** A date compared with dates that carry an offset raises. *)
Lemma filter_date_aware (t : Z) (p : Z -> row -> bool) (df : DataFrame) (s : state) :
  aware df = true -> filter_date (Date t) p df s = (s, Raised invalid_comparison).
Proof. intros H. cbn [filter_date]. unfold compare_dates. rewrite H. reflexivity. Qed.

Lemma read_and_filter_ok (df : DataFrame) (path : string) (sd ed : date_arg) (s : state) :
  has_column "created_at" df = true ->
  comparable sd df -> comparable ed df ->
  len (in_range sd ed df) <> 0%nat ->
  read_and_filter (Csv df) path sd ed s = (s, Normal (in_range sd ed df)).
Proof.
  intros Hc Hsd Hed Hlen. unfold read_and_filter.
  assert (Hdf : len df <> 0%nat).
  { intros H0. apply Hlen. now apply len_in_range_0. }
  run. destruct (Nat.eqb_spec (len df) 0) as [|_]; [contradiction|].
  rewrite Hc. run. rewrite (filter_date_comparable sd) by assumption. run.
  rewrite (filter_date_comparable ed) by now apply comparable_bounded. run.
  fold (in_range sd ed df).
  destruct (Nat.eqb_spec (len (in_range sd ed df)) 0) as [E|_];
    [contradiction|reflexivity].
Qed.

(** With dates that carry an offset, the first date argument that is a
    date ends the run. *)
Lemma read_and_filter_incomparable (df : DataFrame) (path : string)
    (sd ed : date_arg) (s : state) :
  has_column "created_at" df = true -> len df <> 0%nat ->
  incomparable sd ed df ->
  read_and_filter (Csv df) path sd ed s = (s, Raised invalid_comparison).
Proof.
  intros Hc Hdf [Ha Hd]. unfold read_and_filter.
  run. destruct (Nat.eqb_spec (len df) 0) as [|_]; [contradiction|].
  rewrite Hc. run.
  destruct Hd as [[t ->] | [-> [t ->]]].
  - now rewrite filter_date_aware.
  - rewrite (filter_date_comparable NoDate) by exact I. run. cbn [bounded].
    now rewrite filter_date_aware.
Qed.

Lemma read_and_filter_no_lines (df : DataFrame) (path : string) (sd ed : date_arg) (s : state) :
  len df = 0%nat ->
  read_and_filter (Csv df) path sd ed s
  = (State (<["error" := VStr "No data found in CSV file"]> (res s)) (warnings s),
     Returned).
Proof.
  intros H0. unfold read_and_filter. run.
  destruct (Nat.eqb_spec (len df) 0) as [_|]; [|contradiction]. now run.
Qed.

Lemma read_and_filter_out_of_range (df : DataFrame) (path : string) (sd ed : date_arg)
    (s : state) :
  has_column "created_at" df = true ->
  comparable sd df -> comparable ed df ->
  len df <> 0%nat ->
  len (in_range sd ed df) = 0%nat ->
  read_and_filter (Csv df) path sd ed s
  = (State (<["error" := VStr "No data found for the specified date range"]> (res s))
           (warnings s),
     Returned).
Proof.
  intros Hc Hsd Hed Hdf Hlen. unfold read_and_filter.
  run. destruct (Nat.eqb_spec (len df) 0) as [|_]; [contradiction|].
  rewrite Hc. run. rewrite (filter_date_comparable sd) by assumption. run.
  rewrite (filter_date_comparable ed) by now apply comparable_bounded. run.
  fold (in_range sd ed df).
  destruct (Nat.eqb_spec (len (in_range sd ed df)) 0) as [E|]; [now run|contradiction].
Qed.
End ReadAndFilter.

(** ** [analyze_air_quality_data]: the statistics *)

Section Statistics.
Import Analysis.

Lemma statistics_unavailable (df : DataFrame) (extended : bool) (s : state) :
  pm25_col df = None \/ pm10_col df = None ->
  statistics df extended s
  = (State (<["error" := VStr missing_columns]> (res s))
           (warnings s ++ ["ERROR: " +:+ missing_columns]),
     Returned).
Proof.
  intros H. unfold statistics.
  assert (Hb : negb (bool_decide (is_Some (pm25_col df)))
               || negb (bool_decide (is_Some (pm10_col df))) = true).
  { destruct H as [-> | ->].
    - reflexivity.
    - rewrite orb_true_iff. right. reflexivity. }
  rewrite Hb. now run.
Qed.

Lemma available (df : DataFrame) (c25 c10 : string) :
  pm25_col df = Some c25 -> pm10_col df = Some c10 ->
  negb (bool_decide (is_Some (pm25_col df)))
  || negb (bool_decide (is_Some (pm10_col df))) = false.
Proof. intros -> ->. reflexivity. Qed.





Lemma pollutant_block_proceeds (I : state -> Prop) (df : DataFrame) (col : option string)
    (name average max_ min_ : string) :
  (forall v, proceeds I (store average v)) ->
  (forall v, proceeds I (store max_ v)) ->
  (forall v, proceeds I (store min_ v)) ->
  (forall w, proceeds I (warn w)) ->
  proceeds I (pollutant_block df col name average max_ min_).
Proof.
  intros Ha Hx Hn Hw. unfold pollutant_block. destruct col; [|apply proceeds_ret].
  destruct (0 <? _)%nat; [|apply Hw].
  apply proceeds_bind; [apply Ha|intros _].
  apply proceeds_bind; [apply Hx|intros _]. apply Hn.
Qed.

Lemma climate_block_proceeds (I : state -> Prop) (df : DataFrame) (col : option string)
    (name average : string) :
  (forall v, proceeds I (store average v)) ->
  (forall w, proceeds I (warn w)) ->
  proceeds I (climate_block df col name average).
Proof.
  intros Ha Hw. unfold climate_block. destruct col; [|apply proceeds_ret].
  destruct (0 <? _)%nat; [apply Ha|apply Hw].
Qed.


(** The extended block, whatever it raises, goes on, and keeps an entry
    outside its five keys and the warnings. *)
Lemma extended_analysis_no_return (df : DataFrame) (c1 c2 c3 c4 : option string)
    (s : state) :
  (extended_analysis df c1 c2 c3 c4 s).2 <> Returned.
Proof.
  unfold extended_analysis. run.
  destruct (calculate_correlations df c1 c2 c3 c4); run; [discriminate|].
  destruct (calculate_daily_patterns df _ _); run; [discriminate|].
  destruct (assess_data_quality df c1 c2 c3 c4); run; discriminate.
Qed.

Lemma extended_analysis_sound (df : DataFrame) (c1 c2 c3 c4 : option string) :
  proceeds sound (try_pass (extended_analysis df c1 c2 c3 c4)).
Proof.
  apply proceeds_try_pass; [|apply extended_analysis_no_return].
  unfold extended_analysis.
  repeat first [ apply keeps_bind; [|intros ?] | apply keeps_lift
               | apply proceeds_keeps, proceeds_store_sound; discriminate ].
Qed.

Lemma extended_analysis_any (df : DataFrame) (c1 c2 c3 c4 : option string) :
  proceeds (fun _ => True) (try_pass (extended_analysis df c1 c2 c3 c4)).
Proof.
  apply proceeds_try_pass; [|apply extended_analysis_no_return].
  intros s _. exact Logic.I.
Qed.

Lemma Z_minimum_is_Some (l : list Z) : l <> [] -> exists t, Z_minimum l = Some t.
Proof. destruct l; [contradiction|]. simpl. eauto. Qed.

Lemma Z_maximum_is_Some (l : list Z) : l <> [] -> exists t, Z_maximum l = Some t.
Proof. destruct l; [contradiction|]. simpl. eauto. Qed.

(** With both pollutant columns found and a time in some row, the
    statistics run to their end without an error. *)
Lemma statistics_sound (df : DataFrame) (extended : bool) (c25 c10 : string) :
  pm25_col df = Some c25 -> pm10_col df = Some c10 ->
  times df <> [] ->
  proceeds sound (statistics df extended).
Proof.
  intros H25 H10 Ht. unfold statistics. rewrite (available df c25 c10 H25 H10).
  destruct (Z_minimum_is_Some _ Ht) as [t1 ->].
  destruct (Z_maximum_is_Some _ Ht) as [t2 ->].
  repeat (apply proceeds_bind; [|intros _]).
  - apply pollutant_block_proceeds; intros;
      try apply proceeds_store_sound; try discriminate; apply proceeds_warn_sound.
  - apply pollutant_block_proceeds; intros;
      try apply proceeds_store_sound; try discriminate; apply proceeds_warn_sound.
  - apply climate_block_proceeds; intros;
      try apply proceeds_store_sound; try discriminate; apply proceeds_warn_sound.
  - apply climate_block_proceeds; intros;
      try apply proceeds_store_sound; try discriminate; apply proceeds_warn_sound.
  - apply proceeds_store_sound; discriminate.
  - destruct (0 <? len df)%nat; [|apply proceeds_ret].
    unfold strftime.
    repeat (apply proceeds_bind; [|intros ?]);
      try apply proceeds_ret; apply proceeds_store_in_sound.
  - destruct extended; [apply extended_analysis_sound | apply proceeds_ret].
Qed.

Lemma pollutant_block_normal (df : DataFrame) (col : option string)
    (name average max_ min_ : string) (s : state) :
  exists s', pollutant_block df col name average max_ min_ s = (s', Normal ()).
Proof.
  destruct (pollutant_block_proceeds (fun _ => True) df col name average max_ min_
              (proceeds_store_any _) (proceeds_store_any _) (proceeds_store_any _)
              proceeds_warn_any s Logic.I) as [_ [[] E]].
  destruct (pollutant_block _ _ _ _ _ _ s) as [s' o]; simpl in E; subst o. eauto.
Qed.

Lemma climate_block_normal (df : DataFrame) (col : option string)
    (name average : string) (s : state) :
  exists s', climate_block df col name average s = (s', Normal ()).
Proof.
  destruct (climate_block_proceeds (fun _ => True) df col name average
              (proceeds_store_any _) proceeds_warn_any s Logic.I) as [_ [[] E]].
  destruct (climate_block _ _ _ _ s) as [s' o]; simpl in E; subst o. eauto.
Qed.

(** With no time in any row, they raise after the statistics and the
    record count are stored. *)
Lemma statistics_all_NaT (df : DataFrame) (extended : bool) (c25 c10 : string) (s : state) :
  pm25_col df = Some c25 -> pm10_col df = Some c10 ->
  len df <> 0%nat -> times df = [] ->
  (statistics df extended s).2
  = Raised (ValueError "NaTType does not support strftime").
Proof.
  intros H25 H10 Hlen Ht. unfold statistics. rewrite (available df c25 c10 H25 H10).
  rewrite Ht. cbn [Z_minimum Z_maximum strftime].
  destruct (Nat.ltb_spec 0 (len df)) as [_|]; [|lia].
  rewrite run_bind.
  destruct (pollutant_block_normal df (pm25_col df) "PM2.5" "average_pm25"
              "max_pm25" "min_pm25" s) as [s1 ->].
  rewrite run_bind.
  destruct (pollutant_block_normal df (pm10_col df) "PM10" "average_pm10"
              "max_pm10" "min_pm10" s1) as [s2 ->].
  rewrite run_bind.
  destruct (climate_block_normal df (temp_col df) "temperature"
              "average_temperature" s2) as [s3 ->].
  rewrite run_bind.
  destruct (climate_block_normal df (humidity_col df) "humidity"
              "average_humidity" s3) as [s4 ->].
  now run.
Qed.

End Statistics.

(** ** [analyze_air_quality_data]: the result of a run *)

Section AnalysisResult.
Import Analysis.

Lemma analyze_run (df : DataFrame) (path : string) (sd ed : date_arg) (extended : bool) :
  has_column "created_at" df = true ->
  comparable sd df -> comparable ed df ->
  len (in_range sd ed df) <> 0%nat ->
  analyze_air_quality_data (Csv df) path sd ed extended
  = match statistics (in_range sd ed df) extended (State initial []) with
    | (s, Raised e) =>
        State (<["error" := VStr ("Error analyzing data: " +:+ str e)]> (res s))
              (warnings s)
    | (s, _) => s
    end.
Proof.
  intros Hc Hsd Hed Hlen. unfold analyze_air_quality_data, body.
  rewrite run_bind, read_and_filter_ok by assumption. reflexivity.
Qed.

(** An entry other than [error], and a warning, are in the result as the
    statistics left them. *)
Lemma analyze_holds (df : DataFrame) (path : string) (sd ed : date_arg) (extended : bool)
    (k : string) (v : value) :
  has_column "created_at" df = true ->
  comparable sd df -> comparable ed df ->
  len (in_range sd ed df) <> 0%nat ->
  k <> "error" ->
  holds k v (statistics (in_range sd ed df) extended (State initial [])).1 ->
  holds k v (analyze_air_quality_data (Csv df) path sd ed extended).
Proof.
  intros Hc Hsd Hed Hlen Hk H. rewrite analyze_run by assumption.
  destruct (statistics _ _ _) as [s [a| |e]]; simpl in H; try exact H.
  unfold holds in *. cbn [res]. now rewrite lookup_insert_ne by auto.
Qed.


Lemma initial_holds_0 (k : string) :
  k ∈ ["average_pm25"; "average_pm10"; "average_temperature"; "average_humidity";
       "max_pm25"; "max_pm10"; "min_pm25"; "min_pm10"; "record_count"] ->
  holds k (VInt 0) (State initial []).
Proof.
  rewrite !elem_of_cons, elem_of_nil.
  intros [-> | [-> | [-> | [-> | [-> | [-> | [-> | [-> | [-> | []]]]]]]]]];
    reflexivity.
Qed.













Lemma statistics_temperature_unavailable (df : DataFrame) (extended : bool) :
  temp_col df = None ->
  keeps (holds "average_temperature" (VInt 0)) (statistics df extended).
Proof.
  intros Ht. unfold statistics. rewrite Ht. keeps_tac.
Qed.



Lemma statistics_humidity_unavailable (df : DataFrame) (extended : bool) :
  humidity_col df = None ->
  keeps (holds "average_humidity" (VInt 0)) (statistics df extended).
Proof.
  intros Hh. unfold statistics. rewrite Hh. keeps_tac.
Qed.

End AnalysisResult.

(** ** Statistics over the values that are present *)

Lemma foldl_Qc_max_spec (l : list Qc) (x : Qc) :
  let m := foldl Qc_max x l in
  (m = x \/ m ∈ l) /\ x ≤ m /\ forall y, y ∈ l -> y ≤ m.
Proof.
  revert x. induction l as [|a l IH]; intros x; simpl.
  - split; [now left|]. split; [apply Qcle_refl|]. intros y Hy. inversion Hy.
  - destruct (IH (Qc_max x a)) as (Hin & Hle & Hall).
    assert (Hxa : x ≤ Qc_max x a /\ a ≤ Qc_max x a
                  /\ (Qc_max x a = x \/ Qc_max x a = a)).
    { unfold Qc_max. destruct (Qc_leb x a) eqn:E.
      - apply Qc_leb_le in E. repeat split; auto using Qcle_refl.
      - apply Qc_leb_gt in E. repeat split; auto using Qcle_refl, Qclt_le_weak. }
    destruct Hxa as (Hx & Ha & Hcase).
    split; [|split].
    + destruct Hin as [-> | Hin]; [|right; now right].
      destruct Hcase as [-> | ->]; [now left | right; left].
    + eapply Qcle_trans; eauto.
    + intros y Hy. apply elem_of_cons in Hy as [-> | Hy]; [|now apply Hall].
      eapply Qcle_trans; eauto.
Qed.

Lemma foldl_Qc_min_spec (l : list Qc) (x : Qc) :
  let m := foldl Qc_min x l in
  (m = x \/ m ∈ l) /\ m ≤ x /\ forall y, y ∈ l -> m ≤ y.
Proof.
  revert x. induction l as [|a l IH]; intros x; simpl.
  - split; [now left|]. split; [apply Qcle_refl|]. intros y Hy. inversion Hy.
  - destruct (IH (Qc_min x a)) as (Hin & Hle & Hall).
    assert (Hxa : Qc_min x a ≤ x /\ Qc_min x a ≤ a
                  /\ (Qc_min x a = x \/ Qc_min x a = a)).
    { unfold Qc_min. destruct (Qc_leb x a) eqn:E.
      - apply Qc_leb_le in E. repeat split; auto using Qcle_refl.
      - apply Qc_leb_gt in E. repeat split; auto using Qcle_refl, Qclt_le_weak. }
    destruct Hxa as (Hx & Ha & Hcase).
    split; [|split].
    + destruct Hin as [-> | Hin]; [|right; now right].
      destruct Hcase as [-> | ->]; [now left | right; left].
    + eapply Qcle_trans; eauto.
    + intros y Hy. apply elem_of_cons in Hy as [-> | Hy]; [|now apply Hall].
      eapply Qcle_trans; eauto.
Qed.

(** [maximum] and [minimum] are the largest and the smallest value of
    the list. *)
Lemma maximum_spec (l : list Qc) (m : Qc) :
  maximum l = Some m -> m ∈ l /\ forall y, y ∈ l -> y ≤ m.
Proof.
  destruct l as [|x l]; [discriminate|]. simpl. intros [= <-].
  destruct (foldl_Qc_max_spec l x) as (Hin & Hle & Hall). split.
  - destruct Hin as [-> | Hin]; [left | now right].
  - intros y Hy. apply elem_of_cons in Hy as [-> | Hy]; auto.
Qed.

Lemma minimum_spec (l : list Qc) (m : Qc) :
  minimum l = Some m -> m ∈ l /\ forall y, y ∈ l -> m ≤ y.
Proof.
  destruct l as [|x l]; [discriminate|]. simpl. intros [= <-].
  destruct (foldl_Qc_min_spec l x) as (Hin & Hle & Hall). split.
  - destruct Hin as [-> | Hin]; [left | now right].
  - intros y Hy. apply elem_of_cons in Hy as [-> | Hy]; auto.
Qed.

(** [dropna] keeps exactly the values that are there, in order. *)
Lemma dropna_cons (x : option Qc) (s : list (option Qc)) :
  dropna (x :: s) = match x with Some q => q :: dropna s | None => dropna s end.
Proof. destruct x; reflexivity. Qed.

Lemma elem_of_dropna (q : Qc) (s : list (option Qc)) :
  q ∈ dropna s <-> Some q ∈ s.
Proof.
  unfold dropna. rewrite list_elem_of_omap. split.
  - intros (x & Hx & E). simpl in E. now subst x.
  - intros H. now exists (Some q).
Qed.


(** ** The summaries of [calculate_statistics] *)

Section Summaries.
Import Analyze.


End Summaries.



(** ** Which columns a run needs *)

Section RequiredColumns.
Import Analysis.

Lemma initial_sound : sound (State initial []).
Proof. split; [reflexivity|]. eexists. reflexivity. Qed.

Lemma analyze_unavailable (df : DataFrame) (path : string) (sd ed : date_arg)
    (extended : bool) :
  has_column "created_at" df = true ->
  comparable sd df -> comparable ed df ->
  len (in_range sd ed df) <> 0%nat ->
  pm25_col (in_range sd ed df) = None \/ pm10_col (in_range sd ed df) = None ->
  analyze_air_quality_data (Csv df) path sd ed extended
  = State (<["error" := VStr missing_columns]> initial)
          ["ERROR: " +:+ missing_columns].
Proof.
  intros Hc Hsd Hed Hlen Hu. rewrite analyze_run by assumption.
  now rewrite statistics_unavailable by assumption.
Qed.

Lemma analyze_sound (df : DataFrame) (path : string) (sd ed : date_arg)
    (extended : bool) (c25 c10 : string) :
  has_column "created_at" df = true ->
  comparable sd df -> comparable ed df ->
  len (in_range sd ed df) <> 0%nat ->
  pm25_col (in_range sd ed df) = Some c25 ->
  pm10_col (in_range sd ed df) = Some c10 ->
  times (in_range sd ed df) <> [] ->
  res (analyze_air_quality_data (Csv df) path sd ed extended) !! "error" = None.
Proof.
  intros Hc Hsd Hed Hlen H25 H10 Ht. rewrite analyze_run by assumption.
  destruct (statistics_sound _ extended c25 c10 H25 H10 Ht _ initial_sound)
    as [[He _] [[] Ho]].
  destruct (statistics _ _ _) as [s o]. simpl in *. subst o. exact He.
Qed.

Lemma analyze_all_NaT (df : DataFrame) (path : string) (sd ed : date_arg)
    (extended : bool) (c25 c10 : string) :
  has_column "created_at" df = true ->
  comparable sd df -> comparable ed df ->
  len (in_range sd ed df) <> 0%nat ->
  pm25_col (in_range sd ed df) = Some c25 ->
  pm10_col (in_range sd ed df) = Some c10 ->
  times (in_range sd ed df) = [] ->
  res (analyze_air_quality_data (Csv df) path sd ed extended) !! "error"
  = Some (VStr "Error analyzing data: NaTType does not support strftime").
Proof.
  intros Hc Hsd Hed Hlen H25 H10 Ht. rewrite analyze_run by assumption.
  pose proof (statistics_all_NaT _ extended c25 c10 (State initial []) H25 H10 Hlen Ht)
    as Ho.
  destruct (statistics _ _ _) as [s o]. simpl in Ho. subst o. cbn [res].
  apply lookup_insert_eq.
Qed.
End RequiredColumns.

(** ** [load_data]: the field mapping *)

Section FieldMapping.
Import Analyze.

Lemma has_column_assign (c target : string) (f : row -> field) (df : DataFrame) :
  has_column c (assign target f df) = has_column c df || bool_decide (c = target).
Proof.
  unfold assign, has_column at 1. simpl.
  destruct (has_column target df) eqn:Ht.
  - fold (has_column c df). case_bool_decide as Hc; subst.
    + rewrite Ht. reflexivity.
    + now rewrite orb_false_r.
  - unfold has_column. rewrite <- bool_decide_or.
    apply bool_decide_ext. rewrite elem_of_app, list_elem_of_singleton. tauto.
Qed.

Lemma rows_assign (target : string) (f : row -> field) (df : DataFrame) :
  rows (assign target f df)
  = map (fun r => Row (created_at r) (<[target := f r]> (fields r))) (rows df).
Proof. reflexivity. Qed.

Lemma first_present_ext (fs : list string) (df df' : DataFrame) :
  (forall c, c ∈ fs -> has_column c df' = has_column c df) ->
  first_present fs df' = first_present fs df.
Proof.
  induction fs as [|f fs IH]; intros H; simpl; [reflexivity|].
  rewrite H by left. rewrite IH; [reflexivity|].
  intros c Hc. apply H. now right.
Qed.

Lemma cell_insert_ne (r : row) (k c : string) (v : field) :
  c <> k -> cell (Row (created_at r) (<[k := v]> (fields r))) c = cell r c.
Proof. intros H. unfold cell. simpl. now rewrite lookup_insert_ne by auto. Qed.

Lemma cell_insert_eq (t : stamp) (m : gmap string field) (k : string) (v : field) :
  cell (Row t (<[k := v]> m)) k = v.
Proof. unfold cell. simpl. now rewrite lookup_insert_eq. Qed.

Lemma analyze_resolver_pm25 (df : DataFrame) :
  analyze_resolver "pm25" df = first_present ["field3"; "pm25"] df.
Proof. reflexivity. Qed.

Lemma analyze_resolver_pm10 (df : DataFrame) :
  analyze_resolver "pm10" df = first_present ["field4"; "pm10"] df.
Proof. reflexivity. Qed.

Lemma analyze_resolver_temperature (df : DataFrame) :
  analyze_resolver "temperature" df = first_present ["field2"; "temperature"] df.
Proof. reflexivity. Qed.

Lemma analyze_resolver_humidity (df : DataFrame) :
  analyze_resolver "humidity" df = first_present ["field1"; "humidity"] df.
Proof. reflexivity. Qed.

Lemma first_present_elem (fs : list string) (df : DataFrame) (c : string) :
  first_present fs df = Some c -> c ∈ fs /\ has_column c df = true.
Proof.
  induction fs as [|f fs IH]; simpl; [discriminate|].
  destruct (has_column f df) eqn:E.
  - intros [= <-]. split; [left | assumption].
  - intros H. destruct (IH H). split; [now right | assumption].
Qed.

(** One step of the mapping, on a frame whose rows are the rows of the
    file under [g] and whose columns other than the earlier targets are
    those of the file. *)
Lemma map_field_step (df df' : DataFrame) (g : row -> row) (target : string)
    (fs : list string) :
  rows df' = map g (rows df) ->
  (forall c, c ∈ fs -> has_column c df' = has_column c df) ->
  (forall c r, c ∈ fs -> cell (g r) c = cell r c) ->
  (forall r, created_at (g r) = created_at r) ->
  rows (map_field df' (target, fs))
  = map (fun r => Row (created_at r)
                      (<[target := match first_present fs df with
                                   | Some c => coerce (cell r c)
                                   | None => NumEmpty
                                   end]> (fields (g r)))) (rows df).
Proof.
  intros Hrows Hcols Hcell Hts. unfold map_field. cbn [fst snd].
  rewrite (first_present_ext fs df df' Hcols).
  destruct (first_present fs df) as [c|] eqn:E; rewrite rows_assign, Hrows, map_map;
    apply map_ext; intros r; rewrite Hts; [|reflexivity].
  destruct (first_present_elem _ _ _ E) as [Hc _]. now rewrite Hcell.
Qed.

Lemma has_column_map_field (c : string) (df : DataFrame) (e : string * list string) :
  c <> e.1 -> has_column c (map_field df e) = has_column c df.
Proof.
  intros Hc. unfold map_field.
  destruct (first_present _ df); rewrite has_column_assign;
    rewrite bool_decide_eq_false_2 by auto; apply orb_false_r.
Qed.

Lemma has_column_map_field_target (df : DataFrame) (e : string * list string) :
  has_column e.1 (map_field df e) = true.
Proof.
  unfold map_field.
  destruct (first_present _ df); rewrite has_column_assign;
    rewrite bool_decide_eq_true_2 by auto; apply orb_true_r.
Qed.

(** The mapping assigns the four target columns from the columns the
    resolver picks in the file as it was read. *)
Lemma rows_field_mapping (df : DataFrame) :
  rows (foldl map_field df FIELD_MAPPING) = map (loaded_row df) (rows df).
Proof.
  unfold FIELD_MAPPING. cbn [foldl].
  set (df1 := map_field df _).
  set (df2 := map_field df1 _).
  set (df3 := map_field df2 _).
  assert (R1 : rows df1 = map (fun r => Row (created_at r)
                 (<["pm25" := loaded_field df "pm25" r]> (fields r))) (rows df)).
  { unfold df1. rewrite (map_field_step df df (fun r => r)); auto.
    now rewrite map_id. }
  assert (R2 : rows df2 = map (fun r => Row (created_at r)
                 (<["pm10" := loaded_field df "pm10" r]>
                    (<["pm25" := loaded_field df "pm25" r]> (fields r)))) (rows df)).
  { unfold df2. rewrite (map_field_step df df1 _ _ _ R1); auto.
    - intros c Hc. unfold df1. apply has_column_map_field.
      intros E; subst; rewrite !elem_of_cons, elem_of_nil in Hc; intuition discriminate.
    - intros c r Hc. apply cell_insert_ne.
      intros E; subst; rewrite !elem_of_cons, elem_of_nil in Hc; intuition discriminate. }
  assert (R3 : rows df3 = map (fun r => Row (created_at r)
                 (<["temperature" := loaded_field df "temperature" r]>
                    (<["pm10" := loaded_field df "pm10" r]>
                       (<["pm25" := loaded_field df "pm25" r]> (fields r))))) (rows df)).
  { unfold df3. rewrite (map_field_step df df2 _ _ _ R2); auto.
    - intros c Hc. unfold df2, df1.
      rewrite !has_column_map_field; [reflexivity|(intros E; subst; rewrite !elem_of_cons, elem_of_nil in Hc; intuition discriminate)..].
    - intros c r Hc. unfold cell. simpl.
      rewrite !lookup_insert_ne; [reflexivity|(intros E; subst; rewrite !elem_of_cons, elem_of_nil in Hc; intuition discriminate)..]. }
  rewrite (map_field_step df df3 _ _ _ R3); auto.
  - intros c Hc. unfold df3, df2, df1.
    rewrite !has_column_map_field; [reflexivity|(intros E; subst; rewrite !elem_of_cons, elem_of_nil in Hc; intuition discriminate)..].
  - intros c r Hc. unfold cell. simpl.
    rewrite !lookup_insert_ne; [reflexivity|(intros E; subst; rewrite !elem_of_cons, elem_of_nil in Hc; intuition discriminate)..].
Qed.

Lemma has_column_field_mapping (df : DataFrame) (c : string) :
  c ∈ semantic_fields -> has_column c (foldl map_field df FIELD_MAPPING) = true.
Proof.
  intros Hc. unfold FIELD_MAPPING. cbn [foldl].
  destruct (semantic_fields_cases _ Hc) as [-> | [-> | [-> | ->]]].
  - rewrite !has_column_map_field by discriminate.
    apply (has_column_map_field_target df ("pm25", _)).
  - rewrite !has_column_map_field by discriminate.
    apply (has_column_map_field_target _ ("pm10", _)).
  - rewrite !has_column_map_field by discriminate.
    apply (has_column_map_field_target _ ("temperature", _)).
  - apply (has_column_map_field_target _ ("humidity", _)).
Qed.
End FieldMapping.

(** ** [load_data] and [analyze_data] *)

Section LoadData.
Import Analyze.

Lemma columns_timed (df : DataFrame) : columns (timed df) = columns df.
Proof. reflexivity. Qed.

Lemma has_column_timed (c : string) (df : DataFrame) :
  has_column c (timed df) = has_column c df.
Proof. reflexivity. Qed.

Lemma analyze_resolver_timed (target : string) (df : DataFrame) :
  analyze_resolver target (timed df) = analyze_resolver target df.
Proof.
  unfold analyze_resolver. apply first_present_ext. intros c _.
  apply has_column_timed.
Qed.

Lemma aware_insert_row (r : row) (l : list row) :
  existsb is_aware (insert_row r l) = is_aware r || existsb is_aware l.
Proof.
  induction l as [|r' l IH]; [reflexivity|]. cbn [insert_row].
  destruct (earlier r r'); [reflexivity|]. cbn [existsb]. rewrite IH.
  now destruct (is_aware r), (is_aware r').
Qed.

Lemma aware_sorted (l : list row) :
  existsb is_aware (foldr insert_row [] l) = existsb is_aware l.
Proof.
  induction l as [|r l IH]; [reflexivity|]. cbn [foldr existsb].
  now rewrite aware_insert_row, IH.
Qed.

Lemma aware_filter_keep (p : row -> bool) (l : list row) :
  (forall r, is_aware r = true -> p r = true) ->
  existsb is_aware (List.filter p l) = existsb is_aware l.
Proof.
  intros Hp. induction l as [|r l IH]; [reflexivity|]. cbn [List.filter existsb].
  destruct (p r) eqn:E; cbn [existsb]; rewrite IH; [reflexivity|].
  destruct (is_aware r) eqn:Ea; [|reflexivity].
  rewrite (Hp r Ea) in E. discriminate.
Qed.

(** The rows [load_data] drops for their time carry no offset: the
    mapped frame is aware when the file is. *)
Lemma aware_timed (df : DataFrame) : aware (timed df) = aware df.
Proof.
  unfold aware, timed, sort_values, select. cbn [rows]. rewrite aware_sorted.
  apply aware_filter_keep. intros r. unfold is_aware, time_of.
  destruct (created_at r); try discriminate. intros _.
  apply bool_decide_eq_true_2. cbn. eauto.
Qed.

Lemma aware_mapped (df : DataFrame) :
  aware (foldl map_field (timed df) FIELD_MAPPING) = aware df.
Proof.
  rewrite <- (aware_timed df). unfold aware. rewrite rows_field_mapping.
  induction (rows (timed df)) as [|r l IH]; [reflexivity|].
  cbn [map existsb]. now rewrite IH.
Qed.

Lemma analyze_filter_date_comparable (d : date_arg) (p : Z -> row -> bool)
    (df : DataFrame) :
  comparable d df -> filter_date d p df = inr (bounded d p df).
Proof.
  destruct d as [|t|]; cbn [comparable filter_date bounded]; [reflexivity| |tauto].
  intros H. unfold compare_dates. now rewrite H.
Qed.

Lemma analyze_filter_date_fails (d : date_arg) (p : Z -> row -> bool)
    (df : DataFrame) :
  ~ comparable d df -> exists e, filter_date d p df = inl e.
Proof.
  destruct d as [|t|]; cbn [comparable filter_date]; [tauto| |eauto].
  intros H. unfold compare_dates. destruct (aware df); [eauto|tauto].
Qed.

Lemma comparable_dec (d : date_arg) (df : DataFrame) :
  comparable d df \/ ~ comparable d df.
Proof.
  destruct d as [|t|]; cbn [comparable]; [auto| |auto].
  destruct (aware df); [right; discriminate | now left].
Qed.

Lemma comparable_aware (d : date_arg) (df df' : DataFrame) :
  aware df' = aware df -> comparable d df -> comparable d df'.
Proof. destruct d; cbn [comparable]; congruence. Qed.

Lemma load_body_ok (df : DataFrame) (path : string) (sd ed : date_arg) :
  has_column "created_at" df = true ->
  comparable sd df -> comparable ed df ->
  load_body (Csv df) path sd ed
  = inr (select (fun r => present "pm25" r && present "pm10" r)
                (in_range sd ed (foldl map_field (timed df) FIELD_MAPPING))).
Proof.
  intros Hc Hsd Hed. unfold load_body. cbn [read_csv mbind exn_bind].
  rewrite Hc. cbn [mbind exn_bind]. fold (timed df).
  set (M := foldl map_field (timed df) FIELD_MAPPING).
  assert (HM : aware M = aware df) by apply aware_mapped.
  rewrite (analyze_filter_date_comparable sd)
    by (apply (comparable_aware sd df); auto).
  cbn [mbind exn_bind].
  rewrite (analyze_filter_date_comparable ed); [reflexivity|].
  apply comparable_bounded. now apply (comparable_aware ed df).
Qed.

Lemma load_data_fails (df : DataFrame) (path : string) (sd ed : date_arg) :
  has_column "created_at" df = false \/ ~ comparable sd df \/ ~ comparable ed df ->
  load_data (Csv df) path sd ed = None.
Proof.
  intros H. unfold load_data, load_body. cbn [read_csv mbind exn_bind].
  destruct (has_column "created_at" df); cbn [mbind exn_bind]; [|reflexivity].
  fold (timed df). set (M := foldl map_field (timed df) FIELD_MAPPING).
  assert (HM : aware M = aware df) by apply aware_mapped.
  destruct H as [H | H]; [discriminate|].
  destruct (comparable_dec sd df) as [Hsd | Hsd].
  - destruct H as [H | H]; [contradiction|].
    rewrite (analyze_filter_date_comparable sd)
      by (apply (comparable_aware sd df); auto).
    cbn [mbind exn_bind].
    destruct (analyze_filter_date_fails ed on_or_before (bounded sd on_or_after M))
      as [e ->]; [|reflexivity].
    intros Hc. apply H. destruct ed; cbn [comparable] in *; auto.
    rewrite <- HM. destruct (aware M) eqn:E; [|reflexivity].
    destruct sd as [|t'|]; cbn [bounded comparable] in *; try congruence.
  - destruct (analyze_filter_date_fails sd on_or_after M) as [e ->]; [|reflexivity].
    intros Hc. apply Hsd. now apply (comparable_aware sd M).
Qed.

Lemma rows_in_range (sd ed : date_arg) (df : DataFrame) :
  exists p, rows (in_range sd ed df) = List.filter p (rows df).
Proof.
  unfold in_range, bounded. destruct sd, ed; simpl;
    try (exists (fun _ => true); induction (rows df); simpl; congruence);
    try (eexists; reflexivity).
  exists (fun r => on_or_after t r && on_or_before t0 r).
  induction (rows df) as [|r l IH]; simpl; [reflexivity|].
  destruct (on_or_after t r); simpl; [|exact IH].
  destruct (on_or_before t0 r); simpl; congruence.
Qed.

Lemma filter_none {A} (p : A -> bool) (l : list A) :
  Forall (fun x => p x = false) l -> List.filter p l = [].
Proof.
  induction 1 as [|x l Hx _ IH]; simpl; [reflexivity|]. now rewrite Hx.
Qed.

Lemma Forall_filter_keep {A} (P : A -> Prop) (p : A -> bool) (l : list A) :
  Forall P l -> Forall P (List.filter p l).
Proof.
  induction 1 as [|x l Hx _ IH]; simpl; [constructor|].
  destruct (p x); [constructor|]; assumption.
Qed.

(** Without a column for PM2.5, or without one for PM10, no row is left
    after loading. *)
Lemma load_data_unavailable (df : DataFrame) (path : string) (sd ed : date_arg)
    (loaded : DataFrame) :
  analyze_resolver "pm25" df = None \/ analyze_resolver "pm10" df = None ->
  load_data (Csv df) path sd ed = Some loaded ->
  len loaded = 0%nat.
Proof.
  intros Hu. unfold load_data.
  destruct (has_column "created_at" df) eqn:Hc.
  2:{ unfold load_body. cbn [read_csv mbind exn_bind]. rewrite Hc. discriminate. }
  destruct (comparable_dec sd df) as [Hsd|Hsd].
  2:{ fold (load_data (Csv df) path sd ed). rewrite load_data_fails by auto.
      discriminate. }
  destruct (comparable_dec ed df) as [Hed|Hed].
  2:{ fold (load_data (Csv df) path sd ed). rewrite load_data_fails by auto.
      discriminate. }
  rewrite load_body_ok by assumption.
  pose proof (rows_field_mapping (timed df)) as HM.
  set (M := foldl map_field (timed df) FIELD_MAPPING) in *.
  intros [= <-]. unfold len, select. cbn [rows].
  destruct (rows_in_range sd ed M) as [p ->].
  rewrite HM. rewrite filter_none; [reflexivity|].
  apply Forall_filter_keep. apply Forall_map, Forall_forall. intros r _.
  unfold present, loaded_row, cell. cbn [fields].
  destruct Hu as [Hu | Hu].
  - rewrite !lookup_insert_ne by discriminate. rewrite lookup_insert_eq.
    unfold loaded_field. rewrite analyze_resolver_timed, Hu. reflexivity.
  - apply andb_false_iff. right.
    rewrite !lookup_insert_ne by discriminate. rewrite lookup_insert_eq.
    unfold loaded_field. rewrite analyze_resolver_timed, Hu. reflexivity.
Qed.

Lemma analyze_data_no_data (c : charts) (csv : file) (path viz : string)
    (sd ed : date_arg) :
  (forall loaded, load_data csv path sd ed = Some loaded -> len loaded = 0%nat) ->
  analyze_data c csv path viz sd ed
  = <["error" := VStr "No data available for analysis"]> (initial viz).
Proof.
  intros H. unfold analyze_data.
  destruct (load_data csv path sd ed) as [loaded|]; [|reflexivity].
  now rewrite (H loaded eq_refl).
Qed.
End LoadData.

Lemma statistics_omits (c : string) (df : DataFrame) (stats : value) :
  c = "temperature" \/ c = "humidity" ->
  Analyze.calculate_statistics (Some df) = inr stats ->
  has_column c df = false \/ Analyze.all_isna (numeric df c) = true ->
  item c stats = None.
Proof.
  intros Hc Hs Hna. unfold Analyze.calculate_statistics in Hs.
  destruct (len df =? 0)%nat.
  { injection Hs as <-. destruct Hc as [-> | ->]; reflexivity. }
  destruct (Analyze.strftime (Z_minimum (times df))) as [e|start]; [discriminate|].
  destruct (Analyze.strftime (Z_maximum (times df))) as [e|end_]; [discriminate|].
  destruct (has_column "pm25" df); [|discriminate].
  destruct (has_column "pm10" df); [|discriminate].
  cbn [mbind exn_bind] in Hs. injection Hs as <-.
  assert (Hopt : Analyze.optional_summary df c = []).
  { unfold Analyze.optional_summary. destruct Hna as [-> | ->]; [reflexivity|].
    now rewrite andb_false_r. }
  destruct Hc as [-> | ->]; rewrite Hopt.
  - unfold Analyze.optional_summary.
    destruct (_ && _); reflexivity.
  - unfold Analyze.optional_summary.
    destruct (_ && _); reflexivity.
Qed.

(** C3, as stated, fails: a file with PM2.5 and without PM10 ends with
    the missing-columns error although only one of the two fields is
    unavailable. *)
Lemma missing_pm10_alone_is_fatal :
  ~ (holds "error" (VStr Analysis.missing_columns)
       (Analysis.analyze_air_quality_data (Csv pm25_only) "data.csv" NoDate NoDate false)
     <-> Analysis.pm25_col pm25_only = None /\ Analysis.pm10_col pm25_only = None).
Proof.
  intros [H _].
  assert (He : holds "error" (VStr Analysis.missing_columns)
                 (Analysis.analyze_air_quality_data (Csv pm25_only) "data.csv"
                    NoDate NoDate false)) by reflexivity.
  destruct (H He) as [H25 _]. discriminate.
Qed.

(** C3 (amended).  On a file that has rows in range, the dates asked for
    being dates that can be compared with those of the file, the analysis
    ends with the missing-columns error exactly when the PM2.5 field or the
    PM10 field is unavailable (one of the two is enough); with both found
    and a time in some row it ends without an error whatever columns
    there are for temperature and humidity, whose averages keep the
    placeholder 0 when they have no column.  [analyze_data] likewise
    reports that no data is available when either pollutant has no
    column, and [calculate_statistics] leaves out the temperature and
    humidity entries that have no value. *)
Theorem pollutant_columns_required (df : DataFrame) (path : string)
    (sd ed : date_arg) (extended : bool) :
  has_column "created_at" df = true ->
  comparable sd df -> comparable ed df ->
  len (in_range sd ed df) <> 0%nat ->
  let data := in_range sd ed df in
  let st := Analysis.analyze_air_quality_data (Csv df) path sd ed extended in
  (holds "error" (VStr Analysis.missing_columns) st
   <-> Analysis.pm25_col data = None \/ Analysis.pm10_col data = None)
  /\ (Analysis.pm25_col data <> None -> Analysis.pm10_col data <> None ->
      times data <> [] ->
      Analysis.res st !! "error" = None
      /\ (Analysis.temp_col data = None -> holds "average_temperature" (VInt 0) st)
      /\ (Analysis.humidity_col data = None -> holds "average_humidity" (VInt 0) st))
  /\ (forall c viz,
        analyze_resolver "pm25" df = None \/ analyze_resolver "pm10" df = None ->
        Analyze.analyze_data c (Csv df) path viz sd ed !! "error"
        = Some (VStr "No data available for analysis"))
  /\ (forall loaded stats m,
        m = "temperature" \/ m = "humidity" ->
        Analyze.calculate_statistics (Some loaded) = inr stats ->
        has_column m loaded = false \/ Analyze.all_isna (numeric loaded m) = true ->
        item m stats = None).
Proof.
  intros Hc Hsd Hed Hlen data st. subst st. fold data in Hlen.
  split; [|split; [|split]].
  - split.
    + intros He.
      destruct (Analysis.pm25_col data) as [c25|] eqn:H25; [|now left].
      destruct (Analysis.pm10_col data) as [c10|] eqn:H10; [|now right].
      exfalso. unfold holds in He.
      destruct (times data) as [|t ts] eqn:Ht.
      * rewrite (analyze_all_NaT df path sd ed extended c25 c10) in He;
          try assumption. discriminate.
      * rewrite (analyze_sound df path sd ed extended c25 c10) in He;
          try assumption; [discriminate|]. fold data. now rewrite Ht.
    + intros Hu. rewrite analyze_unavailable by assumption.
      unfold holds. cbn [Analysis.res]. apply lookup_insert_eq.
  - intros H25 H10 Ht.
    destruct (Analysis.pm25_col data) as [c25|] eqn:E25; [|contradiction].
    destruct (Analysis.pm10_col data) as [c10|] eqn:E10; [|contradiction].
    split; [now apply (analyze_sound df path sd ed extended c25 c10)|].
    split; intros Hnone.
    + apply analyze_holds; try assumption; [discriminate|].
      apply statistics_temperature_unavailable; [exact Hnone|].
      apply initial_holds_0. rewrite !elem_of_cons. tauto.
    + apply analyze_holds; try assumption; [discriminate|].
      apply statistics_humidity_unavailable; [exact Hnone|].
      apply initial_holds_0. rewrite !elem_of_cons. tauto.
  - intros c viz Hu. rewrite analyze_data_no_data.
    + apply lookup_insert_eq.
    + intros loaded. now apply load_data_unavailable.
  - intros loaded stats m Hm Hs Hna. now apply (statistics_omits m loaded).
Qed.

Lemma pollutant_columns_required_witness :
  holds "error" (VStr Analysis.missing_columns)
    (Analysis.analyze_air_quality_data (Csv pm25_only) "data.csv" NoDate NoDate false)
  /\ Analysis.res (Analysis.analyze_air_quality_data (Csv two_rows) "data.csv"
                     NoDate NoDate false) !! "error" = None.
Proof.
  assert (Hsd : forall df, comparable NoDate df) by (intros df; exact I).
  split.
  - assert (Hlen : len (in_range NoDate NoDate pm25_only) <> 0%nat) by discriminate.
    destruct (pollutant_columns_required pm25_only "data.csv" NoDate NoDate false
                eq_refl (Hsd _) (Hsd _) Hlen) as ((_ & Hfatal) & _).
    apply Hfatal. right. reflexivity.
  - assert (Hlen : len (in_range NoDate NoDate two_rows) <> 0%nat) by discriminate.
    destruct (pollutant_columns_required two_rows "data.csv" NoDate NoDate false
                eq_refl (Hsd _) (Hsd _) Hlen) as (_ & Hfine & _).
    apply Hfine; discriminate.
Defined.

(** ** Failures are reported in the result *)

(** C7, as stated, fails: when no [created_at] field is a date and no
    date range is asked for, the statistics and the record count are
    stored before [strftime] raises, and the result carries the error
    next to them. *)
Lemma error_after_statistics_keeps_them :
  let st := Analysis.analyze_air_quality_data (Csv unparsed_times) "data.csv"
              NoDate NoDate false in
  ~ (is_Some (Analysis.res st !! "error") -> holds "record_count" (VInt 0) st).
Proof.
  intros st H.
  assert (He : is_Some (Analysis.res st !! "error")) by (vm_compute; eauto).
  specialize (H He). vm_compute in H. discriminate.
Qed.

Example error_after_statistics :
  let st := Analysis.analyze_air_quality_data (Csv unparsed_times) "data.csv"
              NoDate NoDate false in
  holds "error" (VStr "Error analyzing data: NaTType does not support strftime") st
  /\ holds "record_count" (VInt 2) st
  /\ holds "average_pm25" (VNum (dec 20 1)) st.
Proof.
  intros st. split; [reflexivity|]. split; [reflexivity|].
  vm_compute. do 2 f_equal. now apply Qc_is_canon.
Qed.

(** C7 (amended).  Neither entry point lets an exception out.
    [analyze_air_quality_data] returns the initial result (every number
    0, the record count 0) with an [error] entry for a path without a
    file, a file with nothing to parse, a file without lines, a date
    range without rows and a date that cannot be compared with dates that
    carry a UTC offset; whatever is raised in its body ends up in the
    [error] entry of the result as it stood.  [analyze_data] returns its
    initial result with an [error] entry when nothing could be loaded,
    and stores what the statistics or the chart raised in the [error]
    entry, [success] staying false. *)
Theorem failures_are_reported :
  (forall path sd ed extended,
      Analysis.analyze_air_quality_data Absent path sd ed extended
      = Analysis.State
          (<["error" := VStr ("File not found: " +:+ path)]> Analysis.initial) [])
  /\ (forall path sd ed extended,
        Analysis.analyze_air_quality_data NoColumns path sd ed extended
        = Analysis.State
            (<["error" := VStr "Error analyzing data: No columns to parse from file"]>
               Analysis.initial) [])
  /\ (forall df path sd ed extended,
        len df = 0%nat ->
        Analysis.analyze_air_quality_data (Csv df) path sd ed extended
        = Analysis.State
            (<["error" := VStr "No data found in CSV file"]> Analysis.initial) [])
  /\ (forall df path sd ed extended,
        has_column "created_at" df = true ->
        comparable sd df -> comparable ed df ->
        len df <> 0%nat -> len (in_range sd ed df) = 0%nat ->
        Analysis.analyze_air_quality_data (Csv df) path sd ed extended
        = Analysis.State
            (<["error" := VStr "No data found for the specified date range"]>
               Analysis.initial) [])
  /\ (forall df path sd ed extended,
        has_column "created_at" df = true ->
        len df <> 0%nat -> incomparable sd ed df ->
        Analysis.analyze_air_quality_data (Csv df) path sd ed extended
        = Analysis.State
            (<["error" := VStr ("Error analyzing data: " +:+ str invalid_comparison)]>
               Analysis.initial) [])
  /\ (forall csv path sd ed extended s e,
        csv <> Absent ->
        Analysis.body csv path sd ed extended (Analysis.State Analysis.initial [])
        = (s, Analysis.Raised e) ->
        Analysis.analyze_air_quality_data csv path sd ed extended
        = Analysis.State
            (<["error" := VStr ("Error analyzing data: " +:+ str e)]> (Analysis.res s))
            (Analysis.warnings s))
  /\ (forall c csv path viz sd ed,
        (forall loaded, Analyze.load_data csv path sd ed = Some loaded ->
                        len loaded = 0%nat) ->
        Analyze.analyze_data c csv path viz sd ed
        = <["error" := VStr "No data available for analysis"]> (Analyze.initial viz))
  /\ (forall path sd ed,
        Analyze.load_data Absent path sd ed = None
        /\ Analyze.load_data NoColumns path sd ed = None)
  /\ (forall c csv path viz sd ed loaded e,
        Analyze.load_data csv path sd ed = Some loaded ->
        len loaded <> 0%nat ->
        Analyze.calculate_statistics (Some loaded) = inl e
        \/ (exists stats, Analyze.calculate_statistics (Some loaded) = inr stats
                          /\ Analyze.draw c viz loaded = inl e) ->
        let result := Analyze.analyze_data c csv path viz sd ed in
        result !! "error" = Some (VStr (str e))
        /\ result !! "success" = Some (VBool false)).
Proof.
  split; [reflexivity|].
  split; [reflexivity|].
  split.
  { intros df path sd ed extended H0. unfold Analysis.analyze_air_quality_data,
      Analysis.body. rewrite run_bind, read_and_filter_no_lines by assumption.
    reflexivity. }
  split.
  { intros df path sd ed extended Hc Hsd Hed Hdf Hlen.
    unfold Analysis.analyze_air_quality_data, Analysis.body.
    rewrite run_bind, read_and_filter_out_of_range by assumption. reflexivity. }
  split.
  { intros df path sd ed extended Hc Hdf Hinc.
    unfold Analysis.analyze_air_quality_data, Analysis.body.
    rewrite run_bind, read_and_filter_incomparable by assumption. reflexivity. }
  split.
  { intros csv path sd ed extended s e Hcsv Hbody.
    unfold Analysis.analyze_air_quality_data. rewrite Hbody.
    destruct csv; [contradiction|reflexivity..]. }
  split; [intros; now apply analyze_data_no_data|].
  split; [intros; split; reflexivity|].
  intros c csv path viz sd ed loaded e Hload Hlen Hraised result. subst result.
  unfold Analyze.analyze_data. rewrite Hload.
  destruct (Nat.eqb_spec (len loaded) 0) as [|_]; [contradiction|].
  destruct Hraised as [-> | (stats & -> & ->)].
  - split; [apply lookup_insert_eq|]. reflexivity.
  - split; [apply lookup_insert_eq|]. reflexivity.
Qed.

Lemma failures_are_reported_witness :
  Analysis.analyze_air_quality_data (Csv two_rows) "data.csv"
    (Date 1735689600) NoDate false
  = Analysis.State
      (<["error" := VStr "No data found for the specified date range"]>
         Analysis.initial) []
  /\ Analysis.analyze_air_quality_data (Csv utc_stamps) "data.csv"
       (Date 1704067200) NoDate false
     = Analysis.State
         (<["error" := VStr ("Error analyzing data: " +:+ str invalid_comparison)]>
            Analysis.initial) [].
Proof.
  destruct failures_are_reported as (_ & _ & _ & Hrange & Haware & _).
  split.
  - apply Hrange; [reflexivity | reflexivity | exact I | discriminate | reflexivity].
  - apply Haware; [reflexivity | discriminate |].
    split; [reflexivity | left; now exists 1704067200%Z].
Defined.

(** ** Relabelling a legacy file *)

Ltac names :=
  repeat match goal with
  | |- context [semantic_name (String ?a ?s)] =>
      let v := eval vm_compute in (semantic_name (String a s)) in
      change (semantic_name (String a s)) with v
  | H : context [semantic_name (String ?a ?s)] |- _ =>
      let v := eval vm_compute in (semantic_name (String a s)) in
      change (semantic_name (String a s)) with v in H
  end.

Section Relabel.

Lemma lookup_rename_key_new (old new : string) (m : gmap string field) :
  rename_key old new m !! new = m !! old.
Proof.
  unfold rename_key. destruct (m !! old) eqn:E.
  - apply lookup_insert_eq.
  - apply lookup_delete_eq.
Qed.

Lemma lookup_rename_key_other (old new k : string) (m : gmap string field) :
  k <> old -> k <> new -> rename_key old new m !! k = m !! k.
Proof.
  intros H1 H2. unfold rename_key. destruct (m !! old) eqn:E.
  - rewrite lookup_insert_ne by auto. now apply lookup_delete_ne.
  - now apply lookup_delete_ne.
Qed.

Lemma legacy_fields_cases (c : string) :
  c ∈ legacy_fields ->
  c = "field3" \/ c = "field4" \/ c = "field2" \/ c = "field1".
Proof. unfold legacy_fields. rewrite !elem_of_cons, elem_of_nil. tauto. Qed.

(** A relabelled row reads under the semantic name what the row reads
    under the legacy code. *)
Lemma cell_relabel_row (r : row) (c : string) :
  c ∈ legacy_fields -> cell (relabel_row r) (semantic_name c) = cell r c.
Proof.
  intros Hc. unfold cell, relabel_row. cbn [fields].
  destruct (legacy_fields_cases _ Hc) as [-> | [-> | [-> | ->]]]; names.
  - do 3 (rewrite lookup_rename_key_other by discriminate).
    now rewrite lookup_rename_key_new.
  - do 2 (rewrite lookup_rename_key_other by discriminate).
    rewrite lookup_rename_key_new.
    now rewrite lookup_rename_key_other by discriminate.
  - rewrite lookup_rename_key_other by discriminate.
    rewrite lookup_rename_key_new.
    now do 2 (rewrite lookup_rename_key_other by discriminate).
  - rewrite lookup_rename_key_new.
    now do 3 (rewrite lookup_rename_key_other by discriminate).
Qed.

Lemma time_of_relabel_row (r : row) : time_of (relabel_row r) = time_of r.
Proof. reflexivity. Qed.

Lemma semantic_name_created_at (c : string) :
  semantic_name c = "created_at" <-> c = "created_at".
Proof.
  unfold semantic_name. repeat case_decide; subst; split; intros; try discriminate;
    auto.
Qed.

Lemma has_column_relabel_created_at (df : DataFrame) :
  has_column "created_at" (relabel df) = has_column "created_at" df.
Proof.
  unfold has_column, relabel. cbn [columns]. apply bool_decide_ext.
  rewrite list_elem_of_fmap. split.
  - intros (c & E & Hc). symmetry in E.
    apply (proj1 (semantic_name_created_at c)) in E. now subst c.
  - intros H. exists "created_at". split; [reflexivity | assumption].
Qed.

Lemma has_column_relabel_legacy (df : DataFrame) (c : string) :
  c ∈ legacy_fields -> has_column c (relabel df) = false.
Proof.
  intros Hc. unfold has_column, relabel. cbn [columns].
  apply bool_decide_eq_false_2. rewrite list_elem_of_fmap. intros (c' & E & _).
  unfold semantic_name in E.
  destruct (legacy_fields_cases _ Hc) as [-> | [-> | [-> | ->]]];
    repeat case_decide; subst; try discriminate; congruence.
Qed.

Lemma has_column_relabel_semantic (df : DataFrame) (c : string) :
  legacy_only df -> c ∈ legacy_fields ->
  has_column (semantic_name c) (relabel df) = has_column c df.
Proof.
  intros Hl Hc. unfold has_column at 1, relabel. cbn [columns].
  unfold has_column. apply bool_decide_ext. rewrite list_elem_of_fmap. split.
  - intros (c' & E & Hc').
    assert (Hs : semantic_name c ∈ semantic_fields).
    { unfold semantic_fields.
      destruct (legacy_fields_cases _ Hc) as [-> | [-> | [-> | ->]]]; names;
        rewrite !elem_of_cons; tauto. }
    assert (c' <> semantic_name c).
    { intros ->. specialize (Hl _ Hs). unfold has_column in Hl.
      apply bool_decide_eq_false_1 in Hl. contradiction. }
    assert (c' = c); [|now subst].
    unfold semantic_name in E, H.
    destruct (legacy_fields_cases _ Hc) as [-> | [-> | [-> | ->]]];
      names; repeat case_decide; subst; try discriminate; congruence.
  - intros H. now exists c.
Qed.

Lemma len_relabel (df : DataFrame) : len (relabel df) = len df.
Proof. unfold len, relabel. cbn [rows]. apply length_fmap. Qed.

Lemma select_relabel (p : row -> bool) (df : DataFrame) :
  (forall r, p (relabel_row r) = p r) ->
  select p (relabel df) = relabel (select p df).
Proof.
  intros Hp. unfold select, relabel. cbn [rows columns]. f_equal.
  induction (rows df) as [|r l IH]; [reflexivity|].
  cbn [fmap list_fmap List.filter]. rewrite Hp. destruct (p r); cbn; now rewrite IH.
Qed.

Lemma legacy_only_select (p : row -> bool) (df : DataFrame) :
  legacy_only df -> legacy_only (select p df).
Proof. intros H c Hc. exact (H c Hc). Qed.

Lemma numeric_relabel (df : DataFrame) (c : string) :
  c ∈ legacy_fields -> numeric (relabel df) (semantic_name c) = numeric df c.
Proof.
  intros Hc. unfold numeric, relabel. cbn [rows].
  change (relabel_row <$> rows df) with (map relabel_row (rows df)).
  rewrite map_map. apply map_ext. intros r. now rewrite cell_relabel_row.
Qed.

Lemma times_relabel (df : DataFrame) : times (relabel df) = times df.
Proof.
  unfold times, relabel. cbn [rows]. induction (rows df) as [|r l IH]; [reflexivity|].
  cbn. rewrite IH. reflexivity.
Qed.

Lemma in_range_relabel (sd ed : date_arg) (df : DataFrame) :
  in_range sd ed (relabel df) = relabel (in_range sd ed df).
Proof.
  unfold in_range, bounded. destruct sd, ed; try reflexivity;
    rewrite ?select_relabel; try reflexivity; intros r; reflexivity.
Qed.

Lemma legacy_only_in_range (sd ed : date_arg) (df : DataFrame) :
  legacy_only df -> legacy_only (in_range sd ed df).
Proof.
  intros H. unfold in_range, bounded. destruct sd, ed; auto using legacy_only_select.
Qed.
End Relabel.

(** ** The Statistics Engine on a relabelled file *)

Section RelabelAnalysis.
Import Analysis.

Lemma legacy_only_false (df : DataFrame) (c : string) :
  legacy_only df -> c ∈ semantic_fields -> has_column c df = false.
Proof. intros H. apply H. Qed.

Ltac in_list :=
  unfold semantic_fields, legacy_fields; rewrite !elem_of_cons; intuition auto.

Lemma resolved_legacy (df : DataFrame) :
  legacy_only df ->
  legacy_column (pm25_col df) /\ legacy_column (pm10_col df)
  /\ legacy_column (temp_col df) /\ legacy_column (humidity_col df).
Proof.
  intros Hl. unfold pm25_col, pm10_col, temp_col, humidity_col.
  rewrite (legacy_only_false df "pm25"), (legacy_only_false df "pm10"),
    (legacy_only_false df "temperature"), (legacy_only_false df "humidity")
    by (assumption || in_list).
  cbv beta iota.
  repeat split; intros c;
    (destruct (has_column _ df); [intros [= <-]; in_list | discriminate]).
Qed.

Lemma resolved_relabel (df : DataFrame) :
  legacy_only df ->
  pm25_col (relabel df) = semantic_name <$> pm25_col df
  /\ pm10_col (relabel df) = semantic_name <$> pm10_col df
  /\ temp_col (relabel df) = semantic_name <$> temp_col df
  /\ humidity_col (relabel df) = semantic_name <$> humidity_col df.
Proof.
  intros Hl. unfold pm25_col, pm10_col, temp_col, humidity_col.
  rewrite (legacy_only_false df "pm25"), (legacy_only_false df "pm10"),
    (legacy_only_false df "temperature"), (legacy_only_false df "humidity")
    by (assumption || in_list).
  cbv beta iota.
  rewrite (has_column_relabel_legacy df "field3"),
    (has_column_relabel_legacy df "field4"), (has_column_relabel_legacy df "field2"),
    (has_column_relabel_legacy df "field1") by in_list.
  rewrite <- (has_column_relabel_semantic df "field3") by (assumption || in_list).
  rewrite <- (has_column_relabel_semantic df "field4") by (assumption || in_list).
  rewrite <- (has_column_relabel_semantic df "field2") by (assumption || in_list).
  rewrite <- (has_column_relabel_semantic df "field1") by (assumption || in_list).
  names. repeat split; destruct (has_column _ (relabel df)); reflexivity.
Qed.

Lemma pollutant_block_relabel (df : DataFrame) (col : option string)
    (name average max_ min_ : string) :
  legacy_column col ->
  pollutant_block (relabel df) (semantic_name <$> col) name average max_ min_
  = pollutant_block df col name average max_ min_.
Proof.
  intros Hc. destruct col as [c|]; [|reflexivity]. cbn [fmap option_fmap option_map].
  unfold pollutant_block. now rewrite numeric_relabel by auto.
Qed.

Lemma climate_block_relabel (df : DataFrame) (col : option string)
    (name average : string) :
  legacy_column col ->
  climate_block (relabel df) (semantic_name <$> col) name average
  = climate_block df col name average.
Proof.
  intros Hc. destruct col as [c|]; [|reflexivity]. cbn [fmap option_fmap option_map].
  unfold climate_block. now rewrite numeric_relabel by auto.
Qed.

Lemma resolved_present (df : DataFrame) :
  present_column df (pm25_col df) /\ present_column df (pm10_col df)
  /\ present_column df (temp_col df) /\ present_column df (humidity_col df).
Proof.
  unfold pm25_col, pm10_col, temp_col, humidity_col, present_column.
  repeat split; intros c H;
    repeat match type of H with
    | context [has_column ?x df] =>
        destruct (has_column x df) eqn:?; cbv beta iota in H;
        [injection H as <-; assumption|]
    end; discriminate.
Qed.

Lemma getitem_relabel (df : DataFrame) (col : option string) :
  legacy_only df -> legacy_column col -> present_column df col ->
  getitem (relabel df) (semantic_name <$> col) = getitem df col.
Proof.
  intros Hl Hc Hp. destruct col as [c|]; [|reflexivity].
  cbn [fmap option_fmap option_map].
  unfold getitem. rewrite has_column_relabel_semantic, numeric_relabel by auto.
  now rewrite (Hp c eq_refl).
Qed.

Lemma pairs_relabel (df : DataFrame) (a b : string) :
  a ∈ legacy_fields -> b ∈ legacy_fields ->
  pairs (relabel df) (semantic_name a) (semantic_name b) = pairs df a b.
Proof.
  intros Ha Hb. unfold pairs, relabel. cbn [rows].
  induction (rows df) as [|r l IH]; [reflexivity|].
  cbn [fmap list_fmap omap list_omap]. rewrite !cell_relabel_row by assumption.
  now rewrite <- IH.
Qed.

Lemma corr_of_relabel (df : DataFrame) (a b : option string) :
  legacy_only df -> legacy_column a -> legacy_column b ->
  present_column df a -> present_column df b ->
  corr_of (relabel df) (semantic_name <$> a) (semantic_name <$> b) = corr_of df a b.
Proof.
  intros Hl Ha Hb Hpa Hpb. destruct a as [a|], b as [b|]; try reflexivity.
  cbn [fmap option_fmap option_map]. unfold corr_of, corr.
  rewrite !has_column_relabel_semantic, pairs_relabel by auto.
  now rewrite (Hpa a eq_refl), (Hpb b eq_refl).
Qed.

Lemma calculate_correlations_relabel (df : DataFrame) (c1 c2 c3 c4 : option string) :
  legacy_only df ->
  legacy_column c1 -> legacy_column c2 -> legacy_column c3 -> legacy_column c4 ->
  present_column df c1 -> present_column df c2 ->
  present_column df c3 -> present_column df c4 ->
  calculate_correlations (relabel df) (semantic_name <$> c1) (semantic_name <$> c2)
                         (semantic_name <$> c3) (semantic_name <$> c4)
  = calculate_correlations df c1 c2 c3 c4.
Proof.
  intros. unfold calculate_correlations. now rewrite !corr_of_relabel by assumption.
Qed.

Lemma assess_data_quality_relabel (df : DataFrame) (c1 c2 c3 c4 : option string) :
  legacy_only df ->
  legacy_column c1 -> legacy_column c2 -> legacy_column c3 -> legacy_column c4 ->
  present_column df c1 -> present_column df c2 ->
  present_column df c3 -> present_column df c4 ->
  assess_data_quality (relabel df) (semantic_name <$> c1) (semantic_name <$> c2)
                      (semantic_name <$> c3) (semantic_name <$> c4)
  = assess_data_quality df c1 c2 c3 c4.
Proof.
  intros. unfold assess_data_quality.
  now rewrite !getitem_relabel, len_relabel by assumption.
Qed.

Lemma no_NaT_relabel (df : DataFrame) : no_NaT (relabel df) = no_NaT df.
Proof.
  unfold no_NaT, relabel. cbn [rows].
  induction (rows df) as [|r l IH]; [reflexivity|]. cbn. now rewrite IH.
Qed.

Lemma group_keys_relabel (key : Z -> Z) (df : DataFrame) :
  group_keys key (relabel df) = group_keys key df.
Proof. unfold group_keys. now rewrite times_relabel. Qed.

Lemma group_mean_relabel (key : Z -> Z) (df : DataFrame) (c : string) (k : Z) :
  c ∈ legacy_fields ->
  group_mean key (relabel df) (semantic_name c) k = group_mean key df c k.
Proof.
  intros Hc. unfold group_mean.
  rewrite select_relabel by (intros r; reflexivity).
  now rewrite numeric_relabel.
Qed.

Lemma group_means_relabel (key : Z -> Z) (df : DataFrame) (c : string) (ks : list Z) :
  c ∈ legacy_fields ->
  (fun k => VFloat (group_mean key (relabel df) (semantic_name c) k)) <$> ks
  = (fun k => VFloat (group_mean key df c k)) <$> ks.
Proof.
  intros Hc. apply list_fmap_ext. intros i k _. now rewrite group_mean_relabel.
Qed.

Lemma calculate_hourly_patterns_relabel (df : DataFrame) (a b : string) :
  a ∈ legacy_fields -> b ∈ legacy_fields ->
  calculate_hourly_patterns (relabel df) (semantic_name a) (semantic_name b)
  = calculate_hourly_patterns df a b.
Proof.
  intros Ha Hb. unfold calculate_hourly_patterns, key_value.
  now rewrite group_keys_relabel, no_NaT_relabel, !group_means_relabel.
Qed.

Lemma calculate_daily_patterns_relabel (df : DataFrame) (a b : string) :
  a ∈ legacy_fields -> b ∈ legacy_fields ->
  calculate_daily_patterns (relabel df) (semantic_name a) (semantic_name b)
  = calculate_daily_patterns df a b.
Proof.
  intros Ha Hb. unfold calculate_daily_patterns.
  now rewrite group_keys_relabel, no_NaT_relabel, !group_means_relabel.
Qed.

Lemma extended_analysis_relabel (df : DataFrame) (c25 c10 : string)
    (c3 c4 : option string) :
  legacy_only df ->
  c25 ∈ legacy_fields -> c10 ∈ legacy_fields ->
  legacy_column c3 -> legacy_column c4 ->
  has_column c25 df = true -> has_column c10 df = true ->
  present_column df c3 -> present_column df c4 ->
  extended_analysis (relabel df) (Some (semantic_name c25)) (Some (semantic_name c10))
                    (semantic_name <$> c3) (semantic_name <$> c4)
  = extended_analysis df (Some c25) (Some c10) c3 c4.
Proof.
  intros Hl H25 H10 H3 H4 P25 P10 P3 P4. unfold extended_analysis.
  cbn [from_option Datatypes.id].
  rewrite calculate_hourly_patterns_relabel, calculate_daily_patterns_relabel
    by assumption.
  assert (L25 : legacy_column (Some c25)) by (intros c [= <-]; assumption).
  assert (L10 : legacy_column (Some c10)) by (intros c [= <-]; assumption).
  assert (Q25 : present_column df (Some c25)) by (intros c [= <-]; assumption).
  assert (Q10 : present_column df (Some c10)) by (intros c [= <-]; assumption).
  pose proof (calculate_correlations_relabel df (Some c25) (Some c10) c3 c4
                Hl L25 L10 H3 H4 Q25 Q10 P3 P4) as E1.
  pose proof (assess_data_quality_relabel df (Some c25) (Some c10) c3 c4
                Hl L25 L10 H3 H4 Q25 Q10 P3 P4) as E2.
  cbn [fmap option_fmap option_map] in E1, E2. now rewrite E1, E2.
Qed.

(** The statistics of a relabelled legacy file are those of the file. *)
Lemma statistics_relabel (df : DataFrame) (extended : bool) :
  legacy_only df ->
  statistics (relabel df) extended = statistics df extended.
Proof.
  intros Hl. unfold statistics.
  destruct (resolved_relabel df Hl) as (-> & -> & -> & ->).
  destruct (resolved_legacy df Hl) as (L25 & L10 & L3 & L4).
  destruct (resolved_present df) as (P25 & P10 & P3 & P4).
  rewrite !pollutant_block_relabel, !climate_block_relabel by assumption.
  rewrite len_relabel, times_relabel.
  destruct (pm25_col df) as [c25|]; [|reflexivity].
  destruct (pm10_col df) as [c10|]; [|reflexivity].
  cbn [fmap option_fmap option_map].
  rewrite extended_analysis_relabel; auto.
Qed.
End RelabelAnalysis.

Section RelabelRun.
Import Analysis.

Lemma filter_date_cases (d : date_arg) (p : Z -> row -> bool) (df : DataFrame)
    (s : state) :
  filter_date d p df s
  = match d with
    | BadDate => (s, Raised (ValueError "Unknown datetime string format"))
    | Date _ =>
        if aware df then (s, Raised invalid_comparison)
        else (s, Normal (bounded d p df))
    | NoDate => (s, Normal (bounded d p df))
    end.
Proof.
  destruct d; cbn [filter_date bounded]; try reflexivity.
  unfold compare_dates. now destruct (aware df).
Qed.

Lemma read_and_filter_cases (df : DataFrame) (path : string) (sd ed : date_arg)
    (s : state) :
  read_and_filter (Csv df) path sd ed s
  = if (len df =? 0)%nat then
      (State (<["error" := VStr "No data found in CSV file"]> (res s)) (warnings s),
       Returned)
    else if negb (has_column "created_at" df)
    then (s, Raised (KeyError (quoted "created_at")))
    else
      let after (d : date_arg) (k : state * outcome DataFrame) :=
        match d with
        | BadDate => (s, Raised (ValueError "Unknown datetime string format"))
        | Date _ => if aware df then (s, Raised invalid_comparison) else k
        | NoDate => k
        end in
      after sd (after ed
        (if (len (in_range sd ed df) =? 0)%nat then
           (State (<["error" := VStr "No data found for the specified date range"]>
                     (res s)) (warnings s),
            Returned)
         else (s, Normal (in_range sd ed df)))).
Proof.
  unfold read_and_filter. run.
  destruct (len df =? 0)%nat; [now run|].
  destruct (has_column "created_at" df); run; [|reflexivity]. cbv zeta.
  rewrite (filter_date_cases sd).
  destruct sd as [|t|]; [| |reflexivity].
  - run. rewrite (filter_date_cases ed). cbn [bounded].
    destruct ed as [|t|]; [| |reflexivity].
    + run. unfold in_range, bounded.
      destruct (_ =? 0)%nat; now run.
    + destruct (aware df); [reflexivity|]. run. unfold in_range, bounded.
      destruct (_ =? 0)%nat; now run.
  - destruct (aware df) eqn:Ea; [reflexivity|]. run.
    rewrite (filter_date_cases ed). cbn [bounded].
    destruct ed as [|t'|]; [| |reflexivity].
    + run. unfold in_range, bounded. destruct (_ =? 0)%nat; now run.
    + rewrite (aware_select _ df Ea). run. unfold in_range, bounded.
      destruct (_ =? 0)%nat; now run.
Qed.

Lemma aware_relabel (df : DataFrame) : aware (relabel df) = aware df.
Proof.
  unfold aware, relabel. cbn [rows].
  induction (rows df) as [|r l IH]; [reflexivity|].
  cbn [fmap list_fmap existsb]. now rewrite IH.
Qed.

Lemma body_relabel (df : DataFrame) (path : string) (sd ed : date_arg)
    (extended : bool) (s : state) :
  legacy_only df ->
  body (Csv (relabel df)) path sd ed extended s = body (Csv df) path sd ed extended s.
Proof.
  intros Hl. unfold body. rewrite !run_bind, !read_and_filter_cases.
  rewrite len_relabel, has_column_relabel_created_at, in_range_relabel, len_relabel,
    aware_relabel.
  destruct (len df =? 0)%nat; [reflexivity|].
  destruct (has_column "created_at" df); [|reflexivity]. cbn [negb]. cbv zeta.
  destruct sd, ed; try reflexivity; destruct (aware df); try reflexivity;
    (destruct (len (in_range _ _ df) =? 0)%nat; [reflexivity|];
     now rewrite statistics_relabel by now apply legacy_only_in_range).
Qed.

(** The whole result for a relabelled legacy file is the result for the
    file. *)
Lemma analyze_relabel (df : DataFrame) (path : string) (sd ed : date_arg)
    (extended : bool) :
  legacy_only df ->
  analyze_air_quality_data (Csv (relabel df)) path sd ed extended
  = analyze_air_quality_data (Csv df) path sd ed extended.
Proof.
  intros Hl. unfold analyze_air_quality_data. now rewrite body_relabel.
Qed.
End RelabelRun.

(** ** [load_data] on a relabelled file *)

Section RelabelLoad.
Import Analyze.

Ltac in_list :=
  unfold semantic_fields, legacy_fields; rewrite !elem_of_cons; intuition auto.

Lemma insert_row_relabel (r : row) (l : list row) :
  insert_row (relabel_row r) (relabel_row <$> l) = relabel_row <$> insert_row r l.
Proof.
  induction l as [|r' l IH]; [reflexivity|]. cbn [fmap list_fmap insert_row].
  change (earlier (relabel_row r) (relabel_row r')) with (earlier r r').
  destruct (earlier r r'); [reflexivity|]. cbn [fmap list_fmap] in *. now rewrite IH.
Qed.

Lemma timed_relabel (df : DataFrame) : timed (relabel df) = relabel (timed df).
Proof.
  unfold timed. rewrite select_relabel by (intros r; reflexivity).
  set (kept := select _ df).
  unfold sort_values, relabel. cbn [rows columns]. f_equal.
  induction (rows kept) as [|r l IH]; [reflexivity|].
  cbn [fmap list_fmap foldr]. cbn [fmap list_fmap] in IH. rewrite IH.
  apply insert_row_relabel.
Qed.

Lemma legacy_only_timed (df : DataFrame) : legacy_only df -> legacy_only (timed df).
Proof. intros H c Hc. exact (H c Hc). Qed.

(** On a legacy file the resolver of [load_data] picks the legacy code,
    and on the relabelled file the semantic name. *)
Lemma analyze_resolver_legacy (df : DataFrame) (target : string) :
  legacy_only df -> target ∈ semantic_fields ->
  analyze_resolver target df
  = (if has_column (legacy_code target) df then Some (legacy_code target) else None)
  /\ analyze_resolver target (relabel df)
     = (if has_column (legacy_code target) df then Some target else None).
Proof.
  intros Hl Ht.
  rewrite !(analyze_resolver_legacy_first _ target Ht).
  rewrite (Hl target Ht).
  assert (Hleg : legacy_code target ∈ legacy_fields).
  { destruct (semantic_fields_cases _ Ht) as [-> | [-> | [-> | ->]]];
      vm_compute legacy_code; in_list. }
  rewrite (has_column_relabel_legacy df _ Hleg).
  assert (Hname : semantic_name (legacy_code target) = target).
  { destruct (semantic_fields_cases _ Ht) as [-> | [-> | [-> | ->]]]; reflexivity. }
  rewrite <- (has_column_relabel_semantic df _ Hl Hleg), Hname.
  split; destruct (has_column target (relabel df)); reflexivity.
Qed.

Lemma loaded_field_relabel (df : DataFrame) (target : string) (r : row) :
  legacy_only df -> target ∈ semantic_fields ->
  loaded_field (relabel df) target (relabel_row r) = loaded_field df target r.
Proof.
  intros Hl Ht. unfold loaded_field.
  destruct (analyze_resolver_legacy df target Hl Ht) as [-> ->].
  destruct (has_column (legacy_code target) df); [|reflexivity].
  assert (Hleg : legacy_code target ∈ legacy_fields).
  { destruct (semantic_fields_cases _ Ht) as [-> | [-> | [-> | ->]]];
      vm_compute legacy_code; in_list. }
  assert (Hname : semantic_name (legacy_code target) = target).
  { destruct (semantic_fields_cases _ Ht) as [-> | [-> | [-> | ->]]]; reflexivity. }
  rewrite <- Hname at 1. now rewrite cell_relabel_row.
Qed.

Lemma cell_loaded_row (df : DataFrame) (r : row) (target : string) :
  target ∈ semantic_fields ->
  cell (loaded_row df r) target = loaded_field df target r.
Proof.
  intros Ht. unfold cell, loaded_row. cbn [fields].
  destruct (semantic_fields_cases _ Ht) as [-> | [-> | [-> | ->]]];
    rewrite ?lookup_insert_eq;
    repeat (rewrite lookup_insert_ne by discriminate; rewrite ?lookup_insert_eq);
    reflexivity.
Qed.

Lemma loaded_rows_same (df : DataFrame) (r : row) :
  legacy_only df ->
  same_readings (loaded_row (relabel df) (relabel_row r)) (loaded_row df r).
Proof.
  intros Hl. split; [reflexivity|]. intros c Hc.
  rewrite !cell_loaded_row by assumption. now apply loaded_field_relabel.
Qed.
End RelabelLoad.

(** ** Frames that read alike *)

Section SameFrames.
Import Analyze.

Ltac in_list :=
  unfold semantic_fields, legacy_fields; rewrite !elem_of_cons; intuition auto.

Lemma same_frames_len (df df' : DataFrame) : same_frames df df' -> len df = len df'.
Proof. intros [H _]. unfold len. now apply Forall2_length in H. Qed.

Lemma same_frames_times (df df' : DataFrame) :
  same_frames df df' -> times df = times df'.
Proof.
  intros [H _]. unfold times. induction H as [|r r' l l' [Ht _] _ IH]; [reflexivity|].
  cbn [omap list_omap].
  assert (time_of r = time_of r') as -> by (unfold time_of; now rewrite Ht).
  now rewrite IH.
Qed.

Lemma same_frames_numeric (df df' : DataFrame) (c : string) :
  same_frames df df' -> c ∈ semantic_fields -> numeric df c = numeric df' c.
Proof.
  intros [H _] Hc. unfold numeric.
  induction H as [|r r' l l' [_ Hr] _ IH]; [reflexivity|].
  cbn [map]. now rewrite (Hr c Hc), IH.
Qed.

Lemma same_frames_select (p : row -> bool) (df df' : DataFrame) :
  (forall r r', same_readings r r' -> p r = p r') ->
  same_frames df df' -> same_frames (select p df) (select p df').
Proof.
  intros Hp [H Hc]. split; [|exact Hc]. unfold select. cbn [rows].
  induction H as [|r r' l l' Hr _ IH]; [constructor|].
  cbn [List.filter]. rewrite (Hp r r' Hr). destruct (p r'); [constructor|]; assumption.
Qed.

Lemma same_frames_in_range (sd ed : date_arg) (df df' : DataFrame) :
  same_frames df df' -> same_frames (in_range sd ed df) (in_range sd ed df').
Proof.
  intros H. unfold in_range, bounded.
  assert (Ha : forall t r r', same_readings r r' -> on_or_after t r = on_or_after t r').
  { intros t r r' [Ht _]. unfold on_or_after, time_of. now rewrite Ht. }
  assert (Hb : forall t r r', same_readings r r' -> on_or_before t r = on_or_before t r').
  { intros t r r' [Ht _]. unfold on_or_before, time_of. now rewrite Ht. }
  destruct sd, ed; auto using same_frames_select.
Qed.

Lemma same_frames_present (df df' : DataFrame) :
  same_frames df df' ->
  same_frames (select (fun r => present "pm25" r && present "pm10" r) df)
              (select (fun r => present "pm25" r && present "pm10" r) df').
Proof.
  apply same_frames_select. intros r r' [_ Hr]. unfold present.
  rewrite (Hr "pm25"), (Hr "pm10") by in_list. reflexivity.
Qed.

(** The statistics read a frame through its times and its four target
    columns only. *)
Lemma calculate_statistics_same (df df' : DataFrame) :
  same_frames df df' ->
  calculate_statistics (Some df) = calculate_statistics (Some df').
Proof.
  intros H. unfold calculate_statistics, optional_summary.
  rewrite (same_frames_len _ _ H), (same_frames_times _ _ H).
  destruct H as [Hrows Hcols].
  rewrite (Hcols "pm25"), (Hcols "pm10"), (Hcols "temperature"), (Hcols "humidity")
    by in_list.
  rewrite (same_frames_numeric df df' "pm25"), (same_frames_numeric df df' "pm10"),
    (same_frames_numeric df df' "temperature"),
    (same_frames_numeric df df' "humidity") by (in_list || now split).
  reflexivity.
Qed.

(** What [load_data] gives for a relabelled legacy file reads like what
    it gives for the file. *)
Lemma load_data_relabel (df : DataFrame) (path : string) (sd ed : date_arg) :
  legacy_only df ->
  match load_data (Csv (relabel df)) path sd ed, load_data (Csv df) path sd ed with
  | Some loaded, Some loaded' => same_frames loaded loaded'
  | None, None => True
  | _, _ => False
  end.
Proof.
  intros Hl.
  assert (Hcmp : forall d, comparable d (relabel df) <-> comparable d df).
  { intros d. destruct d; cbn [comparable]; rewrite ?aware_relabel; tauto. }
  destruct (has_column "created_at" df) eqn:Hc.
  2:{ rewrite !load_data_fails; auto. left.
      now rewrite has_column_relabel_created_at. }
  destruct (comparable_dec sd df) as [Hsd|Hsd].
  2:{ rewrite !load_data_fails; auto. right. left. now rewrite Hcmp. }
  destruct (comparable_dec ed df) as [Hed|Hed].
  2:{ rewrite !load_data_fails; auto. right. right. now rewrite Hcmp. }
  unfold load_data. rewrite !load_body_ok; try assumption; try (now apply Hcmp).
  2:{ now rewrite has_column_relabel_created_at. }
  apply same_frames_present, same_frames_in_range. split.
  - rewrite !rows_field_mapping, timed_relabel. unfold relabel at 2. cbn [rows].
    pose proof (legacy_only_timed df Hl) as Hlt.
    induction (rows (timed df)) as [|r l IH]; [constructor|].
    cbn [fmap list_fmap map]. constructor; [|exact IH].
    now apply loaded_rows_same.
  - intros c Hc'. now rewrite !has_column_field_mapping.
Qed.
End SameFrames.

(** C6.  For a file that names its columns by the legacy codes only, the
    result of the analysis, and the statistics computed from what
    [load_data] gives, are the same as for the file relabelled with the
    semantic names. *)
Theorem relabelling_keeps_the_statistics (df : DataFrame) (path : string)
    (sd ed : date_arg) (extended : bool) :
  legacy_only df ->
  Analysis.analyze_air_quality_data (Csv (relabel df)) path sd ed extended
  = Analysis.analyze_air_quality_data (Csv df) path sd ed extended
  /\ Analyze.calculate_statistics (Analyze.load_data (Csv (relabel df)) path sd ed)
     = Analyze.calculate_statistics (Analyze.load_data (Csv df) path sd ed).
Proof.
  intros Hl. split; [now apply analyze_relabel|].
  pose proof (load_data_relabel df path sd ed Hl) as H.
  destruct (Analyze.load_data (Csv (relabel df)) path sd ed) as [loaded|],
           (Analyze.load_data (Csv df) path sd ed) as [loaded'|];
    try contradiction; [|reflexivity].
  now apply calculate_statistics_same.
Qed.

Lemma legacy_file_legacy_only : legacy_only legacy_file.
Proof.
  intros c Hc.
  destruct (semantic_fields_cases _ Hc) as [-> | [-> | [-> | ->]]]; reflexivity.
Qed.

Lemma relabelling_keeps_the_statistics_witness :
  holds "average_pm25" (VNum (dec 10 1))
    (Analysis.analyze_air_quality_data (Csv (relabel legacy_file)) "data.csv"
       NoDate NoDate false)
  /\ holds "average_pm25" (VNum (dec 10 1))
       (Analysis.analyze_air_quality_data (Csv legacy_file) "data.csv"
          NoDate NoDate false).
Proof.
  destruct (relabelling_keeps_the_statistics legacy_file "data.csv" NoDate NoDate false
              legacy_file_legacy_only) as [-> _].
  assert (H : holds "average_pm25" (VNum (dec 10 1))
                (Analysis.analyze_air_quality_data (Csv legacy_file) "data.csv"
                   NoDate NoDate false)).
  { vm_compute. do 2 f_equal. now apply Qc_is_canon. }
  split; exact H.
Defined.

Example relabelled_columns :
  columns (relabel legacy_file)
  = ["created_at"; "humidity"; "temperature"; "pm25"; "pm10"].
Proof. reflexivity. Qed.

(** ** The Streaming Aggregator: one chunk *)

Section Chunk.
Import CorrelationLarge.

Lemma total_app (l1 l2 : list Qc) : total (l1 ++ l2) = total l1 + total l2.
Proof.
  induction l1 as [|x l1 IH]; simpl.
  - now rewrite Qcplus_0_l.
  - rewrite IH. apply Qcplus_assoc.
Qed.

Lemma add_nil (cols : list string) (s : sums) : add (Frame cols []) s = s.
Proof.
  destruct s. unfold add, column_sum, len. cbn.
  rewrite !Qcplus_0_r, Nat.add_0_r. reflexivity.
Qed.

Lemma add_app (cols : list string) (l1 l2 : list row) (s : sums) :
  add (Frame cols (l1 ++ l2)) s = add (Frame cols l2) (add (Frame cols l1) s).
Proof.
  unfold add, column_sum, len. cbn [rows pm25_temp_products pm25_hum_products
    pm25_sum pm10_sum temp_sum hum_sum pm25_squared_sum temp_squared_sum
    hum_squared_sum count].
  rewrite !map_app, !total_app, length_app, !Qcplus_assoc, Nat.add_assoc.
  reflexivity.
Qed.

Lemma add_columns (cols cols' : list string) (l : list row) (s : sums) :
  add (Frame cols l) s = add (Frame cols' l) s.
Proof. reflexivity. Qed.

Lemma between_app (start end_ : option Z) (l1 l2 : list row) :
  between start end_ (l1 ++ l2) = between start end_ l1 ++ between start end_ l2.
Proof. unfold between. destruct start, end_; try reflexivity. apply filter_app. Qed.

Lemma filterable_app (start end_ : option Z) (l1 l2 : list row) :
  filterable start end_ (l1 ++ l2)
  <-> filterable start end_ l1 /\ filterable start end_ l2.
Proof.
  unfold filterable. destruct start, end_; try tauto.
  rewrite existsb_app, orb_false_iff. tauto.
Qed.

(** The date filter of a chunk that can be filtered keeps the header and
    the lines between the bounds. *)
Lemma filter_by_date_filterable (start end_ : option Z) (cols : list string)
    (l : list row) :
  filterable start end_ l ->
  filter_by_date start end_ (Frame cols l) = inr (Frame cols (between start end_ l)).
Proof.
  unfold filterable, filter_by_date, between, compare_dates, aware.
  destruct start, end_; try reflexivity. cbn [rows]. now intros ->.
Qed.

(** With the two bounds and dates that carry an offset it raises. *)
Lemma filter_by_date_aware (a b : Z) (chunk : DataFrame) :
  aware chunk = true ->
  filter_by_date (Some a) (Some b) chunk = inl invalid_comparison.
Proof. unfold filter_by_date, compare_dates. now intros ->. Qed.

(** Which fields are mapped depends on the header only. *)
Lemma map_fields_unfold (cols : list string) (l : list row) :
  map_fields (Frame cols l)
  = let chunk :=
      if pollutants_mapped (Frame cols [])
      then assign "pm10" (fun r => coerce (cell r "field4"))
             (assign "pm25" (fun r => coerce (cell r "field3")) (Frame cols l))
      else Frame cols l in
    if climate_mapped (Frame cols [])
    then assign "temperature" (fun r => coerce (cell r "field2"))
           (assign "humidity" (fun r => coerce (cell r "field1")) chunk)
    else chunk.
Proof.
  unfold map_fields.
  change (pollutants_mapped (Frame cols l)) with (pollutants_mapped (Frame cols [])).
  destruct (pollutants_mapped (Frame cols [])); cbv zeta; [|reflexivity].
  unfold climate_mapped at 1. rewrite !has_column_assign.
  rewrite !bool_decide_eq_false_2 by discriminate. rewrite !orb_false_r.
  reflexivity.
Qed.

Lemma rows_map_fields_app (cols : list string) (l1 l2 : list row) :
  rows (map_fields (Frame cols (l1 ++ l2)))
  = rows (map_fields (Frame cols l1)) ++ rows (map_fields (Frame cols l2)).
Proof.
  rewrite !map_fields_unfold. cbv zeta.
  destruct (pollutants_mapped (Frame cols [])), (climate_mapped (Frame cols []));
    rewrite ?rows_assign; cbn [rows]; rewrite ?map_app; reflexivity.
Qed.

Lemma has_column_map_fields (cols : list string) (l l' : list row) (c : string) :
  has_column c (map_fields (Frame cols l)) = has_column c (map_fields (Frame cols l')).
Proof.
  rewrite !map_fields_unfold. cbv zeta.
  destruct (pollutants_mapped (Frame cols [])), (climate_mapped (Frame cols []));
    rewrite ?has_column_assign; reflexivity.
Qed.

Lemma aggregated_app (cols : list string) (start end_ : option Z) (l1 l2 : list row) :
  aggregated cols start end_ (l1 ++ l2)
  = aggregated cols start end_ l1 ++ aggregated cols start end_ l2.
Proof.
  unfold aggregated. rewrite between_app, rows_map_fields_app. apply filter_app.
Qed.

Lemma aggregated_nil (cols : list string) (start end_ : option Z) (l : list row) :
  between start end_ l = [] -> aggregated cols start end_ l = [].
Proof.
  intros E. unfold aggregated. rewrite E, map_fields_unfold. cbv zeta.
  destruct (pollutants_mapped _), (climate_mapped _); reflexivity.
Qed.

Lemma clean_no_text_stamp (l : list row) : clean l -> existsb is_text l = false.
Proof.
  induction 1 as [|r l [Hr _] _ IH]; [reflexivity|]. cbn [existsb]. rewrite IH.
  unfold is_text. destruct (created_at r); try reflexivity. contradiction.
Qed.

Lemma clean_holds_no_text (cols : list string) (l : list row) (c : string) :
  clean l -> c ∈ semantic_fields -> holds_text (Frame cols l) c = false.
Proof.
  intros H Hc. unfold holds_text. cbn [rows].
  induction H as [|r l [_ Hr] _ IH]; [reflexivity|]. cbn [existsb]. rewrite IH.
  specialize (Hr c Hc). destruct (cell r c); try reflexivity. contradiction.
Qed.

Lemma clean_reads_no_strings (cols : list string) (l : list row) :
  clean l -> reads_strings (Frame cols l) = false.
Proof.
  intros H. unfold reads_strings.
  rewrite !(clean_holds_no_text cols l) by
    (assumption || (unfold semantic_fields; rewrite !elem_of_cons; intuition auto)).
  now rewrite !andb_false_r.
Qed.

Lemma clean_app (l1 l2 : list row) : clean (l1 ++ l2) <-> clean l1 /\ clean l2.
Proof. apply Forall_app. Qed.

Lemma missing_map_fields (cols : list string) (l : list row) (cs : list string) :
  missing (map_fields (Frame cols l)) cs = missing (map_fields (Frame cols [])) cs.
Proof.
  unfold missing. apply List.filter_ext. intros c.
  now rewrite (has_column_map_fields cols l [] c).
Qed.

Lemma require_all_map_fields (cols : list string) (l : list row) :
  require_all (map_fields (Frame cols l)) semantic_fields = required cols.
Proof. unfold required, require_all. now rewrite missing_map_fields. Qed.

Lemma len_0 (df : DataFrame) : (len df =? 0)%nat = true <-> rows df = [].
Proof.
  unfold len. destruct (rows df); cbn; split; intros; congruence.
Qed.

(** One chunk of clean rows that can be filtered: the header is checked,
    and unless the date filter leaves nothing, the four columns are
    required and the rows that have all four values are added to the
    sums. *)
Lemma process_clean (cols : list string) (start end_ : option Z) (l : list row)
    (s : sums) :
  clean l -> filterable start end_ l ->
  process start end_ (Frame cols l) s
  = (require (Frame cols []) "created_at";;
     match between start end_ l with
     | [] => inr s
     | _ => required cols;; inr (add (Frame cols (aggregated cols start end_ l)) s)
     end).
Proof.
  intros Hc Hf. unfold process.
  change (require (Frame cols l) "created_at") with (require (Frame cols []) "created_at").
  destruct (require (Frame cols []) "created_at") as [e|[]]; [reflexivity|].
  cbn [mbind exn_bind rows]. rewrite (clean_no_text_stamp l Hc). cbn [mbind exn_bind].
  rewrite (filter_by_date_filterable start end_ cols l Hf). cbn [mbind exn_bind].
  destruct (len (Frame cols (between start end_ l)) =? 0)%nat eqn:E.
  { apply len_0 in E. cbn [rows] in E. now rewrite E. }
  transitivity (required cols;;
                inr (add (Frame cols (aggregated cols start end_ l)) s) : exn + sums);
    [|destruct (between start end_ l); [discriminate E | reflexivity]].
  change (require_all (map_fields (Frame cols (between start end_ l)))
            ["pm25"; "pm10"; "temperature"; "humidity"])
    with (require_all (map_fields (Frame cols (between start end_ l))) semantic_fields).
  rewrite require_all_map_fields.
  destruct (required cols) as [e|[]]; [reflexivity|].
  cbn [mbind exn_bind]. rewrite (clean_reads_no_strings cols l Hc).
  clear E.
  destruct (len (select complete _) =? 0)%nat eqn:E'.
  - apply len_0 in E'. unfold select in E'. cbn [rows] in E'.
    fold (aggregated cols start end_ l) in E'. rewrite E'. now rewrite add_nil.
  - reflexivity.
Qed.

(** A chunk whose dates carry an offset, with both bounds given. *)
Lemma process_aware (cols : list string) (a b : Z) (l : list row) (s : sums) :
  clean l -> has_column "created_at" (Frame cols l) = true ->
  aware (Frame cols l) = true ->
  process (Some a) (Some b) (Frame cols l) s = inl invalid_comparison.
Proof.
  intros Hc Hcr Ha. unfold process, require. rewrite Hcr.
  cbn [mbind exn_bind rows]. rewrite (clean_no_text_stamp l Hc). cbn [mbind exn_bind].
  now rewrite filter_by_date_aware.
Qed.
End Chunk.

(** ** The Streaming Aggregator: the loop over the chunks *)

Section Chunks.
Import CorrelationLarge.

Lemma exn_bind_inr {A} (x : exn + A) : x ≫= inr = x.
Proof. destruct x; reflexivity. Qed.

(** Two chunks one after the other do what the two together do. *)
Lemma process_app (cols : list string) (start end_ : option Z) (l1 l2 : list row)
    (s : sums) :
  clean (l1 ++ l2) -> filterable start end_ (l1 ++ l2) ->
  process start end_ (Frame cols (l1 ++ l2)) s
  = process start end_ (Frame cols l1) s ≫= process start end_ (Frame cols l2).
Proof.
  intros Hc Hf. destruct (proj1 (clean_app l1 l2) Hc) as [H1 H2].
  destruct (proj1 (filterable_app start end_ l1 l2) Hf) as [F1 F2].
  rewrite (process_clean cols start end_ (l1 ++ l2) s Hc Hf).
  rewrite (process_clean cols start end_ l1 s H1 F1).
  destruct (require (Frame cols []) "created_at") as [e|[]] eqn:Er; [reflexivity|].
  cbn [mbind exn_bind].
  rewrite between_app, aggregated_app.
  destruct (between start end_ l1) as [|r1 k1] eqn:E1.
  - (* nothing of the first chunk is in range *)
    cbn [app mbind exn_bind]. rewrite (process_clean cols start end_ l2 s H2 F2), Er.
    cbn [mbind exn_bind].
    now rewrite (aggregated_nil cols start end_ l1 E1).
  - cbn [app]. destruct (required cols) as [e|[]] eqn:Erq; [reflexivity|].
    cbn [mbind exn_bind]. rewrite (process_clean cols start end_ l2 _ H2 F2), Er, Erq.
    cbn [mbind exn_bind]. rewrite add_app.
    destruct (between start end_ l2) as [|r2 k2] eqn:E2.
    + rewrite (aggregated_nil cols start end_ l2 E2). now rewrite add_nil.
    + reflexivity.
Qed.

(** The loop over any division of clean rows into chunks does what one
    chunk of all the rows does. *)
Lemma loop_concat (cols : list string) (start end_ : option Z) (ls : list (list row))
    (s : sums) :
  ls <> [] -> clean (concat ls) -> filterable start end_ (concat ls) ->
  loop start end_ (Frame cols <$> ls) s
  = process start end_ (Frame cols (concat ls)) s.
Proof.
  revert s. induction ls as [|l ls IH]; intros s Hne Hc Hf; [contradiction|].
  cbn [fmap list_fmap loop concat].
  destruct ls as [|l' ls].
  - cbn [fmap list_fmap loop concat]. rewrite app_nil_r.
    destruct (process start end_ (Frame cols l) s); reflexivity.
  - rewrite process_app by assumption.
    cbn [concat] in Hc, Hf. apply clean_app in Hc as [_ Hc'].
    apply filterable_app in Hf as [_ Hf'].
    destruct (process start end_ (Frame cols l) s) as [e|s']; [reflexivity|].
    cbn [mbind exn_bind]. apply IH; [discriminate | assumption | assumption].
Qed.

Lemma chunks_aux_concat {A} (fuel n : nat) (l : list A) :
  (0 < n)%nat -> (length l <= fuel)%nat -> concat (chunks_aux fuel n l) = l.
Proof.
  intros Hn. revert l. induction fuel as [|fuel IH]; intros l Hl.
  - destruct l; [reflexivity | simpl in Hl; lia].
  - destruct l as [|x l]; [reflexivity|]. cbn [chunks_aux concat].
    rewrite IH; [apply take_drop|].
    rewrite length_drop. simpl in *. lia.
Qed.

Lemma chunks_concat {A} (n : nat) (l : list A) :
  (0 < n)%nat -> concat (chunks n l) = l.
Proof. intros Hn. now apply chunks_aux_concat. Qed.

Lemma chunks_nonempty {A} (n : nat) (l : list A) : l <> [] -> chunks n l <> [].
Proof. destruct l; [contradiction|]. discriminate. Qed.

(** Reading a file of clean rows in chunks of any size leaves the sums
    that one chunk of the whole file leaves. *)
Lemma loop_chunks (n : nat) (df : DataFrame) (path : string) (start end_ : option Z) :
  (0 < n)%nat -> clean (rows df) -> filterable start end_ (rows df) ->
  read_csv_chunks path n (Csv df) ≫= (fun cs => loop start end_ cs zero)
  = process start end_ df zero.
Proof.
  intros Hn Hc Hf. unfold read_csv_chunks. cbn [read_csv mbind exn_bind].
  destruct df as [cols l]. cbn [rows columns] in *.
  destruct l as [|r k] eqn:El.
  - cbn [mbind exn_bind loop].
    now destruct (process start end_ (Frame cols []) zero).
  - rewrite <- El in *. cbn [mbind exn_bind].
    rewrite loop_concat.
    + now rewrite chunks_concat.
    + apply chunks_nonempty. now rewrite El.
    + now rewrite chunks_concat.
    + now rewrite chunks_concat.
Qed.
End Chunks.

(** ** The date filter of the Streaming Aggregator *)

Lemma create_correlation_clean (n : nat) (df : DataFrame) (path : string)
    (sd ed : date_arg) (start end_ : option Z) :
  (0 < n)%nat -> clean (rows df) -> filterable start end_ (rows df) ->
  CorrelationLarge.parse_date sd = inr start ->
  CorrelationLarge.parse_date ed = inr end_ ->
  CorrelationLarge.create_correlation_chunked n (Csv df) path sd ed
  = CorrelationLarge.summarise <$> CorrelationLarge.process start end_ df CorrelationLarge.zero.
Proof.
  intros Hn Hc Hf Hs He. unfold CorrelationLarge.create_correlation_chunked.
  rewrite Hs, He. cbn [mbind exn_bind].
  pose proof (loop_chunks n df path start end_ Hn Hc Hf) as H.
  destruct (CorrelationLarge.read_csv_chunks path n (Csv df)) as [e|cs] eqn:E.
  - unfold CorrelationLarge.read_csv_chunks in E. cbn in E. destruct (rows df); discriminate.
  - cbn [mbind exn_bind] in H |- *. rewrite H.
    destruct (CorrelationLarge.process start end_ df CorrelationLarge.zero); reflexivity.
Qed.

Lemma loop_one_bound (t : Z) (cs : list DataFrame) (s : CorrelationLarge.sums) :
  CorrelationLarge.loop (Some t) None cs s = CorrelationLarge.loop None None cs s
  /\ CorrelationLarge.loop None (Some t) cs s = CorrelationLarge.loop None None cs s.
Proof.
  revert s. induction cs as [|chunk cs IH]; intros s; [split; reflexivity|].
  cbn [CorrelationLarge.loop].
  change (CorrelationLarge.process (Some t) None chunk s)
    with (CorrelationLarge.process None None chunk s).
  change (CorrelationLarge.process None (Some t) chunk s)
    with (CorrelationLarge.process None None chunk s).
  destruct (CorrelationLarge.process None None chunk s) as [e|s'];
    [split; reflexivity|]. cbn [mbind exn_bind]. apply IH.
Qed.

(** C10.  The date filter of the Streaming Aggregator is applied to a
    chunk only when a start and an end are both given: with one bound
    alone the chunk is processed, and the whole file aggregated, as with
    no bound; with both, the filter keeps the rows between them, or
    raises when the dates of the chunk carry a UTC offset; and with one
    bound, for a file of clean rows that has the columns, every row that
    holds the four values enters the sums, whatever its time. *)
Theorem date_filter_needs_both_bounds :
  (forall t chunk s,
      CorrelationLarge.process (Some t) None chunk s
      = CorrelationLarge.process None None chunk s
      /\ CorrelationLarge.process None (Some t) chunk s
         = CorrelationLarge.process None None chunk s)
  /\ (forall n csv path t,
        CorrelationLarge.create_correlation_chunked n csv path (Date t) NoDate
        = CorrelationLarge.create_correlation_chunked n csv path NoDate NoDate
        /\ CorrelationLarge.create_correlation_chunked n csv path NoDate (Date t)
           = CorrelationLarge.create_correlation_chunked n csv path NoDate NoDate)
  /\ (forall a b chunk,
        CorrelationLarge.filter_by_date (Some a) (Some b) chunk
        = if aware chunk then inl invalid_comparison
          else inr (Frame (columns chunk)
                      (List.filter (fun r => on_or_after a r && on_or_before b r)
                         (rows chunk))))
  /\ (forall n df path sd ed,
        (0 < n)%nat -> clean (rows df) -> rows df <> [] ->
        has_column "created_at" df = true ->
        required (columns df) = inr () ->
        (sd = NoDate /\ (exists t, ed = Date t)) \/ ((exists t, sd = Date t) /\ ed = NoDate) ->
        CorrelationLarge.create_correlation_chunked n (Csv df) path sd ed
        = inr (CorrelationLarge.summarise
                 (CorrelationLarge.add
                    (Frame (columns df)
                       (List.filter CorrelationLarge.complete
                          (rows (CorrelationLarge.map_fields df))))
                    CorrelationLarge.zero))).
Proof.
  split; [intros; split; reflexivity|].
  split.
  { intros n csv path t. unfold CorrelationLarge.create_correlation_chunked.
    cbn [CorrelationLarge.parse_date mbind exn_bind].
    destruct (CorrelationLarge.read_csv_chunks path n csv) as [e|cs];
      [split; reflexivity|]. cbn [mbind exn_bind].
    destruct (loop_one_bound t cs CorrelationLarge.zero) as [-> ->].
    split; reflexivity. }
  split.
  { intros a b chunk. unfold CorrelationLarge.filter_by_date, compare_dates.
    destruct (aware chunk); reflexivity. }
  intros n [cols l] path sd ed Hn Hc Hne Hcr Hreq Hone. cbn [rows columns] in *.
  assert (Hrun : CorrelationLarge.create_correlation_chunked n (Csv (Frame cols l)) path sd ed
                 = CorrelationLarge.summarise
                     <$> CorrelationLarge.process None None (Frame cols l)
                           CorrelationLarge.zero).
  { destruct Hone as [[-> [t ->]] | [[t ->] ->]].
    - now rewrite (create_correlation_clean n _ path NoDate (Date t) None (Some t)).
    - now rewrite (create_correlation_clean n _ path (Date t) NoDate (Some t) None). }
  rewrite Hrun, process_clean by (assumption || exact I).
  unfold CorrelationLarge.require.
  change (has_column "created_at" (Frame cols [])) with (has_column "created_at" (Frame cols l)).
  rewrite Hcr. cbn [mbind exn_bind between].
  destruct l as [|r l]; [contradiction|]. rewrite Hreq. reflexivity.
Qed.

Lemma legacy_file_clean : clean (rows legacy_file).
Proof.
  unfold clean. repeat constructor; try discriminate;
    intros c Hc; destruct (semantic_fields_cases _ Hc) as [-> | [-> | [-> | ->]]];
    discriminate.
Qed.

Lemma date_filter_needs_both_bounds_witness :
  exists s,
    CorrelationLarge.create_correlation_chunked 1 (Csv legacy_file) "data.csv"
      (Date 1735689600) NoDate
    = inr (CorrelationLarge.summarise s)
    /\ CorrelationLarge.count s = 2%nat.
Proof.
  destruct date_filter_needs_both_bounds as (_ & _ & _ & H).
  eexists. split.
  - apply H.
    + lia.
    + exact legacy_file_clean.
    + discriminate.
    + reflexivity.
    + reflexivity.
    + right. split; [now exists 1735689600%Z | reflexivity].
  - reflexivity.
Defined.
(** ** The rows that count as data points *)

Section Counted.
Import CorrelationLarge.

Lemma clean_between (start end_ : option Z) (l : list row) :
  clean l -> clean (between start end_ l).
Proof.
  intros H. unfold between. destruct start, end_; try exact H.
  now apply Forall_filter_keep.
Qed.

Lemma notna_numeric (r : row) (c : string) :
  cell r c <> NumText -> notna c r = bool_decide (is_Some (to_numeric (cell r c))).
Proof.
  unfold notna. destruct (cell r c); intros H; cbn [to_numeric].
  - symmetry. apply bool_decide_eq_true_2. eauto.
  - symmetry. apply bool_decide_eq_false_2. now intros [q Hq].
  - contradiction.
Qed.

Lemma notna_coerce (t : stamp) (m : gmap string field) (c : string) (f : field) :
  notna c (Row t (<[c := coerce f]> m)) = bool_decide (is_Some (to_numeric f)).
Proof.
  unfold notna. rewrite cell_insert_eq. destruct f; cbn [coerce to_numeric].
  - symmetry. apply bool_decide_eq_true_2. eauto.
  - symmetry. apply bool_decide_eq_false_2. now intros [q Hq].
  - symmetry. apply bool_decide_eq_false_2. now intros [q Hq].
Qed.

Lemma notna_insert_ne (t : stamp) (m : gmap string field) (k c : string)
    (v : field) :
  c <> k -> notna c (Row t (<[k := v]> m)) = notna c (Row t m).
Proof. intros H. unfold notna, cell. cbn [fields]. now rewrite lookup_insert_ne by auto. Qed.

Lemma cell_insert_other (t : stamp) (m : gmap string field) (k c : string)
    (v : field) :
  c <> k -> cell (Row t (<[k := v]> m)) c = cell (Row t m) c.
Proof. intros H. unfold cell. cbn [fields]. now rewrite lookup_insert_ne by auto. Qed.

Lemma length_filter_map {A B} (p : B -> bool) (q : A -> bool) (f : A -> B)
    (l : list A) :
  Forall (fun x => p (f x) = q x) l ->
  length (List.filter p (map f l)) = length (List.filter q l).
Proof.
  induction 1 as [|x l Hx _ IH]; [reflexivity|]. cbn [map List.filter].
  rewrite Hx. destruct (q x); cbn [length]; now rewrite IH.
Qed.

(** The rows that reach the sums are as many as the rows that count. *)
Lemma aggregated_counted (cols : list string) (start end_ : option Z) (l : list row) :
  clean l ->
  length (aggregated cols start end_ l) = length (counted cols start end_ l).
Proof.
  intros Hc. apply (clean_between start end_) in Hc.
  unfold aggregated, counted. set (k := between start end_ l) in *.
  rewrite map_fields_unfold. cbv zeta.
  unfold holds_four, reading, legacy_pair, semantic_fields, pollutants_mapped,
    climate_mapped, complete.
  cbn [forallb].
  repeat match goal with
         | |- context [decide ?P] =>
             destruct (decide P) as [[?|?]|?]; try discriminate; try tauto
         end.
  change (legacy_code "pm25") with "field3".
  change (legacy_code "pm10") with "field4".
  change (legacy_code "temperature") with "field2".
  change (legacy_code "humidity") with "field1".
  destruct (has_column "field3" (Frame cols []) && has_column "field4" (Frame cols []))
    eqn:E1;
    destruct (has_column "field1" (Frame cols []) && has_column "field2" (Frame cols []))
      eqn:E2;
    rewrite ?rows_assign; cbn [rows]; rewrite ?map_map;
    first [apply length_filter_map
          | rewrite <- (map_id k) at 1; apply length_filter_map];
    (eapply Forall_impl; [|exact Hc]); cbv beta; intros [t m] [_ Hr];
    cbn [created_at fields];
    rewrite ?andb_true_r, <- ?andb_assoc;
    repeat first
      [ rewrite notna_coerce
      | rewrite notna_insert_ne by discriminate
      | rewrite cell_insert_other by discriminate ];
    rewrite ?notna_numeric
      by (apply Hr; unfold semantic_fields; rewrite !elem_of_cons; tauto);
    reflexivity.
Qed.

(** After the field mapping a chunk has the fields that are found. *)
Lemma has_column_mapped (cols : list string) (c : string) :
  c ∈ semantic_fields ->
  has_column c (map_fields (Frame cols [])) = found cols c.
Proof.
  intros Hc. rewrite map_fields_unfold. cbv zeta.
  unfold found, legacy_pair, pollutants_mapped, climate_mapped.
  destruct (semantic_fields_cases _ Hc) as [-> | [-> | [-> | ->]]];
    repeat match goal with
           | |- context [decide ?P] =>
               destruct (decide P) as [[?|?]|?]; try discriminate; try tauto
           end;
    destruct (has_column "field3" (Frame cols [])),
             (has_column "field4" (Frame cols [])),
             (has_column "field1" (Frame cols [])),
             (has_column "field2" (Frame cols []));
    cbn [andb orb]; rewrite ?has_column_assign;
    rewrite ?(bool_decide_eq_true_2 (_ = _)) by reflexivity;
    rewrite ?(bool_decide_eq_false_2 (_ = _)) by discriminate;
    rewrite ?orb_true_r, ?orb_false_r; reflexivity.
Qed.

(** The fields [dropna] misses are those that are not found. *)
Lemma required_lacking (cols : list string) :
  required cols
  = match lacking cols with [] => inr () | absent => inl (KeyError (listed absent)) end.
Proof.
  unfold required, require_all, missing, lacking, semantic_fields.
  assert (H : forall c, c ∈ semantic_fields ->
            negb (has_column c (map_fields (Frame cols []))) = negb (found cols c))
    by (intros c Hc; now rewrite has_column_mapped).
  cbn [List.filter].
  rewrite (H "pm25"), (H "pm10"), (H "temperature"), (H "humidity")
    by (unfold semantic_fields; rewrite !elem_of_cons; tauto).
  reflexivity.
Qed.
End Counted.

(** ** Rationals as reals *)

Section Reals.
Local Open Scope R_scope.

Lemma Qc2R_Q2Qc (q : Q) : Qc2R (Q2Qc q) = Q2R q.
Proof. unfold Qc2R. cbn [this Q2Qc]. apply Qeq_eqR, Qred_correct. Qed.

Lemma Qc2R_plus (a b : Qc) : Qc2R (a + b) = Qc2R a + Qc2R b.
Proof. unfold Qcplus. rewrite Qc2R_Q2Qc. apply Q2R_plus. Qed.

Lemma Qc2R_mult (a b : Qc) : Qc2R (a * b) = Qc2R a * Qc2R b.
Proof. unfold Qcmult. rewrite Qc2R_Q2Qc. apply Q2R_mult. Qed.

Lemma Qc2R_opp (a : Qc) : Qc2R (- a) = - Qc2R a.
Proof. unfold Qcopp. rewrite Qc2R_Q2Qc. apply Q2R_opp. Qed.

Lemma Qc2R_minus (a b : Qc) : Qc2R (a - b) = Qc2R a - Qc2R b.
Proof. unfold Qcminus. rewrite Qc2R_plus, Qc2R_opp. reflexivity. Qed.

Lemma Qc2R_0 : Qc2R 0 = 0.
Proof. unfold Qc2R. change (this 0) with 0%Q. apply RMicromega.Q2R_0. Qed.

Lemma Qc2R_inj (a b : Qc) : Qc2R a = Qc2R b -> a = b.
Proof. intros H. apply Qc_is_canon. now apply eqR_Qeq. Qed.

Lemma Qc2R_le (a b : Qc) : (a <= b)%Qc <-> Qc2R a <= Qc2R b.
Proof. split; [apply Qle_Rle | apply Rle_Qle]. Qed.

Lemma Qc2R_lt (a b : Qc) : (a < b)%Qc <-> Qc2R a < Qc2R b.
Proof. split; [apply Qlt_Rlt | apply Rlt_Qlt]. Qed.

Lemma Qc2R_of_nat (n : nat) : Qc2R (Qc_of_nat n) = INR n.
Proof.
  unfold Qc_of_nat, Qc_of_Z, Qc2R. cbn [this]. unfold Q2R, inject_Z.
  cbn [Qnum Qden]. rewrite INR_IZR_INZ. lra.
Qed.
End Reals.

(** ** Counts as numbers, sums of squares *)

Section Pearson.

Lemma Qc_of_nat_S (n : nat) : Qc_of_nat (S n) = Qc_of_nat n + 1.
Proof.
  apply Qc2R_inj. rewrite Qc2R_plus, !Qc2R_of_nat, S_INR.
  replace (Qc2R 1) with 1%R; [reflexivity|].
  unfold Qc2R. change (this 1) with 1%Q. symmetry. apply RMicromega.Q2R_1.
Qed.

Lemma Qc_of_nat_0 : Qc_of_nat 0 = 0.
Proof. now apply Qc_is_canon. Qed.

Lemma Qc_of_nat_nonzero (n : nat) : n <> 0%nat -> Qc_of_nat n <> 0.
Proof.
  intros Hn H. apply (f_equal Qc2R) in H. rewrite Qc2R_of_nat, Qc2R_0 in H.
  apply Hn. now apply INR_eq.
Qed.

Lemma total_squares_nonneg (l : list Qc) (f : Qc -> Qc) :
  0 ≤ total (map (fun x => f x * f x) l).
Proof.
  apply Qc2R_le. rewrite Qc2R_0. induction l as [|x l IH]; cbn [map total foldr].
  - rewrite Qc2R_0. lra.
  - fold (total (map (fun x => f x * f x) l)).
    rewrite Qc2R_plus, Qc2R_mult. nra.
Qed.

Lemma ssd_nonneg (m : Qc) (l : list Qc) : 0 ≤ ssd m l.
Proof. unfold ssd. apply (total_squares_nonneg l (fun x => x - m)). Qed.

Lemma mean_cons (x : Qc) (l : list Qc) :
  mean (x :: l) = Some (total (x :: l) / Qc_of_nat (length (x :: l))).
Proof. reflexivity. Qed.
End Pearson.

(** ** A series without variance *)

Section ZeroVariance.

(** A standard deviation of 0 means that the squared deviations from the
    mean add up to 0. *)
Lemma std_zero (l : list Qc) :
  std l = Some 0%R -> exists m, mean l = Some m /\ ssd m l = 0.
Proof.
  unfold std, variance. destruct (mean l) as [m|] eqn:Hm; [|discriminate].
  destruct (Nat.leb_spec 2 (length l)) as [Hlen|]; [|discriminate].
  cbn [fmap option_fmap option_map]. intros [= Hs]. exists m. split; [reflexivity|].
  set (k := Qc_of_nat (length l - 1)) in *.
  assert (Hk : (0 < Qc2R k)%R).
  { unfold k. rewrite Qc2R_of_nat. apply lt_0_INR. lia. }
  assert (Hk' : k <> 0).
  { intros E. rewrite E, Qc2R_0 in Hk. lra. }
  assert (Ev : (Qc2R (ssd m l / k) * Qc2R k)%R = Qc2R (ssd m l)).
  { rewrite <- Qc2R_mult. f_equal. field. exact Hk'. }
  pose proof (ssd_nonneg m l) as Hnn. apply Qc2R_le in Hnn. rewrite Qc2R_0 in Hnn.
  assert (Hv : (0 <= Qc2R (ssd m l / k))%R).
  { destruct (Rle_lt_dec 0 (Qc2R (ssd m l / k))) as [|Hneg]; [assumption|]. nra. }
  apply sqrt_eq_0 in Hs; [|exact Hv]. rewrite Hs, Rmult_0_l in Ev.
  apply Qc2R_inj. now rewrite Qc2R_0.
Qed.

Lemma pearson_zero_variance (ps : list (Qc * Qc)) :
  std ps.*1 = Some 0%R \/ std ps.*2 = Some 0%R -> pearson ps = None.
Proof.
  intros H. unfold pearson.
  destruct H as [H|H]; destruct (std_zero _ H) as (m & Hm & Hz).
  - rewrite Hm. destruct (mean ps.*2) as [my|]; [|reflexivity].
    rewrite Hz, Qcmult_0_l. now destruct (decide (0 = 0)).
  - rewrite Hm. destruct (mean ps.*1) as [mx|]; [|reflexivity].
    rewrite Hz, Qcmult_0_r. now destruct (decide (0 = 0)).
Qed.

Lemma corr_of_present (df : DataFrame) (a b : string) :
  has_column a df = true -> has_column b df = true ->
  Analysis.corr_of df (Some a) (Some b) = inr (corr df a b).
Proof. intros Ha Hb. unfold Analysis.corr_of. now rewrite Ha, Hb. Qed.

(** With its columns there, [calculate_correlations] gives the five
    coefficients, each rounded. *)
Lemma calculate_correlations_present (df : DataFrame) (p25 p10 t h : string) :
  has_column p25 df = true -> has_column p10 df = true ->
  has_column t df = true -> has_column h df = true ->
  Analysis.calculate_correlations df (Some p25) (Some p10) (Some t) (Some h)
  = inr (VDict [("pm25_temp", Analysis.round3 (corr df p25 t));
                ("pm25_humidity", Analysis.round3 (corr df p25 h));
                ("pm10_temp", Analysis.round3 (corr df p10 t));
                ("pm10_humidity", Analysis.round3 (corr df p10 h));
                ("pm25_pm10", Analysis.round3 (corr df p25 p10))]).
Proof.
  intros H25 H10 Ht Hh. unfold Analysis.calculate_correlations.
  now rewrite !corr_of_present by assumption.
Qed.

Lemma item_first (k : string) (v : value) (d : list (string * value)) :
  item k (VDict ((k, v) :: d)) = Some v.
Proof. unfold item. cbn [List.find fst]. now rewrite bool_decide_eq_true_2. Qed.
End ZeroVariance.

(** C4.  Where one of two series has a standard deviation of 0,
    Pearson's coefficient as the Statistics Engine computes it is
    undefined and is reported as NaN, not as 0: for a file whose PM2.5
    readings are all 5, [calculate_correlations] reports NaN for PM2.5
    against temperature. *)
Theorem zero_variance_correlation (ps : list (Qc * Qc)) :
  ps <> [] ->
  std ps.*1 = Some 0%R \/ std ps.*2 = Some 0%R ->
  pearson ps = None
  /\ Analysis.round3 (pearson ps) = VNaN
  /\ (item "pm25_temp"
        <$> Analysis.calculate_correlations constant_pm25 (Some "pm25") (Some "pm10")
              (Some "temperature") (Some "humidity"))
     = inr (Some VNaN).
Proof.
  intros Hne Hz. pose proof (pearson_zero_variance ps Hz) as Hp.
  split; [|split].
  - exact Hp.
  - now rewrite Hp.
  - rewrite calculate_correlations_present by reflexivity.
    cbn [fmap exn_fmap]. rewrite item_first.
    assert (E : corr constant_pm25 "pm25" "temperature" = None)
      by (vm_compute; reflexivity).
    now rewrite E.
Qed.

Lemma constant_pairs_std :
  std (pairs constant_pm25 "pm25" "temperature").*1 = Some 0%R.
Proof.
  unfold std.
  assert (E : variance (pairs constant_pm25 "pm25" "temperature").*1 = Some 0).
  { vm_compute. f_equal. now apply Qc_is_canon. }
  rewrite E. cbn [fmap option_fmap option_map]. now rewrite Qc2R_0, sqrt_0.
Qed.

Lemma zero_variance_correlation_witness :
  corr constant_pm25 "pm25" "temperature" = None
  /\ Analysis.round3 (corr constant_pm25 "pm25" "temperature") = VNaN.
Proof.
  assert (Hne : pairs constant_pm25 "pm25" "temperature" <> [])
    by (vm_compute; discriminate).
  destruct (zero_variance_correlation (pairs constant_pm25 "pm25" "temperature")
              Hne (or_introl constant_pairs_std)) as (Hp & Hr & _).
  split; [exact Hp | exact Hr].
Defined.

(** ** Rounding a real number *)

Section Rounding.
Local Open Scope R_scope.



End Rounding.

(** ** Listwise and pairwise deletion *)

Section Deletion.
Import CorrelationLarge.

Lemma chunk_size_positive : (0 < chunk_size)%nat.
Proof. unfold chunk_size. lia. Qed.

Lemma pm10_gap_clean : clean (rows pm10_gap).
Proof.
  unfold clean. repeat constructor; try discriminate;
    intros c Hc; destruct (semantic_fields_cases _ Hc) as [-> | [-> | [-> | ->]]];
    discriminate.
Qed.

End Deletion.

Section DeletionEngine.


End DeletionEngine.
(** ** The rows the Streaming Aggregator takes in, and the chunk size *)

Section StreamedRows.
Import CorrelationLarge.

Lemma item_second (k k' : string) (v v' : value) (d : list (string * value)) :
  k' <> k -> item k (VDict ((k', v') :: (k, v) :: d)) = Some v.
Proof.
  intros H. unfold item. cbn [List.find fst].
  rewrite bool_decide_eq_false_2 by assumption.
  now rewrite bool_decide_eq_true_2.
Qed.


End StreamedRows.




(** ** The data-quality assessment *)

Section DataQuality.
Import Analysis.

Lemma variance_nonneg (l : list Qc) (v : Qc) :
  variance l = Some v -> (0 <= Qc2R v)%R.
Proof.
  unfold variance. destruct (mean l) as [m|]; [|discriminate].
  destruct (Nat.leb_spec 2 (length l)) as [Hlen|]; [|discriminate].
  intros [= <-]. set (k := Qc_of_nat (length l - 1)).
  assert (Hk : (0 < Qc2R k)%R).
  { unfold k. rewrite Qc2R_of_nat. apply lt_0_INR. lia. }
  assert (Hk' : k <> 0).
  { intros E. rewrite E, Qc2R_0 in Hk. lra. }
  assert (Ev : (Qc2R (ssd m l / k) * Qc2R k)%R = Qc2R (ssd m l)).
  { rewrite <- Qc2R_mult. f_equal. field. exact Hk'. }
  pose proof (ssd_nonneg m l) as Hnn. apply Qc2R_le in Hnn. rewrite Qc2R_0 in Hnn.
  destruct (Rle_lt_dec 0 (Qc2R (ssd m l / k))) as [|Hneg]; [assumption|]. nra.
Qed.

Lemma Qc2R_dec (a : Z) : Qc2R (dec a 1) = IZR a.
Proof. unfold dec. rewrite Qc2R_Q2Qc. unfold Q2R. cbn [Qnum Qden]. lra. Qed.

(** The comparison on the squares is the comparison of the distance from
    the mean with three standard deviations. *)
Lemma beyond_3_std_beyond (m v x : Qc) :
  (0 <= Qc2R v)%R ->
  beyond_3_std m v x = true <-> beyond m (sqrt (Qc2R v)) x.
Proof.
  intros Hv. unfold beyond_3_std, beyond. rewrite Qc_ltb_lt, Qc2R_lt.
  rewrite !Qc2R_mult, Qc2R_dec, Qc2R_minus.
  set (d := (Qc2R x - Qc2R m)%R). set (s := sqrt (Qc2R v)).
  assert (Hs : (0 <= s)%R) by apply sqrt_pos.
  assert (Es : (s * s = Qc2R v)%R) by (apply sqrt_sqrt; exact Hv).
  rewrite <- Es. pose proof (Rabs_pos d) as Ha.
  assert (Ed : (d * d = Rabs d * Rabs d)%R).
  { unfold Rabs. destruct (Rcase_abs d); lra. }
  rewrite Ed. split; intros H; nra.
Qed.

Lemma filter_count {A} (p : A -> bool) (P : A -> Prop) `{!forall x, Decision (P x)}
    (l : list A) :
  (forall x, p x = true <-> P x) -> length (List.filter p l) = length (filter P l).
Proof.
  intros Hp. induction l as [|x l IH]; [reflexivity|].
  cbn [List.filter]. rewrite filter_cons.
  destruct (decide (P x)) as [Hx|Hx].
  - apply Hp in Hx. rewrite Hx. cbn [length]. now rewrite IH.
  - destruct (p x) eqn:E; [apply Hp in E; contradiction | exact IH].
Qed.

Lemma filter_count_le {A} (P Q : A -> Prop) `{!forall x, Decision (P x)}
    `{!forall x, Decision (Q x)} (l : list A) :
  (forall x, P x -> Q x) -> (length (filter P l) <= length (filter Q l))%nat.
Proof.
  intros Hpq. induction l as [|x l IH]; [reflexivity|].
  rewrite !filter_cons.
  destruct (decide (P x)) as [Hx|Hx].
  - destruct (decide (Q x)) as [_|Hq]; [cbn [length]; lia | now apply Hpq in Hx].
  - destruct (decide (Q x)); cbn [length]; lia.
Qed.

(** The rows that count as outliers of a column. *)
Lemma outlier_rows_count (s : list (option Qc)) :
  outlier_count (dropna s) (outlier_rows s).
Proof.
  unfold outlier_count, outlier_rows, std.
  destruct (mean (dropna s)) as [m|]; [|reflexivity].
  destruct (variance (dropna s)) as [v|] eqn:Hv; [|reflexivity].
  cbn [fmap option_fmap option_map].
  pose proof (variance_nonneg (dropna s) v Hv) as Hnn.
  rewrite (filter_count (beyond_3_std m v) (beyond m (sqrt (Qc2R v))))
    by (intros x; now apply beyond_3_std_beyond).
  split; [reflexivity|]. apply filter_count_le.
  intros x. unfold beyond, reaches. lra.
Qed.

(** Rounding to an integer moves a number by a half at most. *)
Lemma round_half_even_near (y : Qc) :
  (Qc2R y - 1 / 2 <= IZR (round_half_even y) <= Qc2R y + 1 / 2)%R.
Proof.
  assert (Hlo : (IZR (Qfloor (this y)) <= Qc2R y)%R).
  { unfold Qc2R. replace (IZR (Qfloor (this y))) with (Q2R (inject_Z (Qfloor (this y))))
      by (unfold Q2R, inject_Z; cbn [Qnum Qden]; lra).
    apply Qle_Rle, Qfloor_le. }
  assert (Hhi : (Qc2R y < IZR (Qfloor (this y)) + 1)%R).
  { unfold Qc2R. rewrite <- plus_IZR.
    replace (IZR (Qfloor (this y) + 1))
      with (Q2R (inject_Z (Qfloor (this y) + 1)))
      by (unfold Q2R, inject_Z; cbn [Qnum Qden]; lra).
    apply Qlt_Rlt, Qlt_floor. }
  assert (Er : Qc2R (y - Qc_of_Z (Qfloor (this y)))
               = (Qc2R y - IZR (Qfloor (this y)))%R).
  { rewrite Qc2R_minus. f_equal. unfold Qc2R.
    change (this (Qc_of_Z ?z)) with (inject_Z z).
    unfold Q2R, inject_Z. cbn [Qnum Qden]. lra. }
  assert (Eh : Qc2R (dec 1 2) = (1 / 2)%R).
  { unfold dec. rewrite Qc2R_Q2Qc. unfold Q2R. cbn [Qnum Qden]. lra. }
  unfold round_half_even. cbv zeta.
  destruct (Qc_ltb _ (dec 1 2)) eqn:E1.
  { apply Qc_ltb_lt, Qc2R_lt in E1. rewrite Er, Eh in E1. lra. }
  destruct (Qc_ltb (dec 1 2) _) eqn:E2.
  { apply Qc_ltb_lt, Qc2R_lt in E2. rewrite Er, Eh in E2. rewrite plus_IZR. lra. }
  assert (N1 : ~ (Qc2R y - IZR (Qfloor (this y)) < 1 / 2)%R).
  { intros H. rewrite <- Er, <- Eh in H. apply Qc2R_lt, Qc_ltb_lt in H. congruence. }
  assert (N2 : ~ (1 / 2 < Qc2R y - IZR (Qfloor (this y)))%R).
  { intros H. rewrite <- Er, <- Eh in H. apply Qc2R_lt, Qc_ltb_lt in H. congruence. }
  destruct (Z.even _); rewrite ?plus_IZR; lra.
Qed.

Lemma pow10_2 : pow10 2 = dec 100 1.
Proof. now apply Qc_is_canon. Qed.

(** [round(x, 2)] is [x] to 2 decimal places. *)
Lemma round_to_2_decimals (x : Qc) : to_2_decimals (round x 2) x.
Proof.
  unfold to_2_decimals, round. rewrite pow10_2.
  set (z := round_half_even (x * dec 100 1)).
  split; [now exists z|].
  pose proof (round_half_even_near (x * dec 100 1)) as Hz. fold z in Hz.
  rewrite Qc2R_mult, Qc2R_dec in Hz.
  assert (Hk : dec 100 1 <> 0).
  { intros E. apply (f_equal Qc2R) in E. rewrite Qc2R_dec, Qc2R_0 in E. lra. }
  assert (E : (Qc2R (Qc_of_Z z / dec 100 1) * 100 = IZR z)%R).
  { rewrite <- (Qc2R_dec 100), <- Qc2R_mult.
    replace (Qc_of_Z z / dec 100 1 * dec 100 1) with (Qc_of_Z z) by (field; exact Hk).
    unfold Qc2R. change (this (Qc_of_Z z)) with (inject_Z z).
    unfold Q2R, inject_Z. cbn [Qnum Qden]. lra. }
  assert (Eh : Qc2R (dec 1 200) = (1 / 200)%R).
  { unfold dec. rewrite Qc2R_Q2Qc. unfold Q2R. cbn [Qnum Qden]. lra. }
  split; apply Qc2R_le; rewrite ?Qc2R_minus, ?Qc2R_plus, Eh; lra.
Qed.

Lemma item_third (k k1 k2 : string) (v v1 v2 : value) (d : list (string * value)) :
  k1 <> k -> k2 <> k ->
  item k (VDict ((k1, v1) :: (k2, v2) :: (k, v) :: d)) = Some v.
Proof.
  intros H1 H2. unfold item. cbn [List.find fst].
  rewrite !bool_decide_eq_false_2 by assumption.
  now rewrite bool_decide_eq_true_2.
Qed.
End DataQuality.

(** C9 (amended).  On a dataset of at least one row that has the four
    metric columns, the data-quality assessment reports for each of the
    four metrics the completeness (non-missing count / total row count) x
    100, and for PM2.5 and PM10 only an outlier measure that is a
    percentage of all the rows: (number of values with |value - mean| >
    3 * stddev / total row count) x 100, where a value exactly three
    standard deviations from the mean may count or not, and no value
    counts when the standard deviation is undefined.  Each figure is
    given to 2 decimal places.  On a dataset without rows the assessment
    fails. *)
Theorem data_quality_percentages (df : DataFrame) (c25 c10 ct ch : string) :
  has_column c25 df = true -> has_column c10 df = true ->
  has_column ct df = true -> has_column ch df = true ->
  let n := len df in
  let present c := length (present_values df c) in
  (n = 0%nat ->
   Analysis.assess_data_quality df (Some c25) (Some c10) (Some ct) (Some ch)
   = inl ZeroDivisionError)
  /\ ((0 < n)%nat ->
      exists q f25 f10 ft fh o25 o10 k25 k10,
        Analysis.assess_data_quality df (Some c25) (Some c10) (Some ct) (Some ch)
        = inr q
        /\ item "completeness" q
           = Some (VDict [("pm25", VNum f25); ("pm10", VNum f10);
                          ("temperature", VNum ft); ("humidity", VNum fh)])
        /\ to_2_decimals f25 (percent_of_rows (present c25) n)
        /\ to_2_decimals f10 (percent_of_rows (present c10) n)
        /\ to_2_decimals ft (percent_of_rows (present ct) n)
        /\ to_2_decimals fh (percent_of_rows (present ch) n)
        /\ item "outliers" q = Some (VDict [("pm25", VNum o25); ("pm10", VNum o10)])
        /\ to_2_decimals o25 (percent_of_rows k25 n)
        /\ outlier_count (present_values df c25) k25
        /\ to_2_decimals o10 (percent_of_rows k10 n)
        /\ outlier_count (present_values df c10) k10
        /\ item "record_count" q = Some (VInt (Z.of_nat n))).
Proof.
  intros H25 H10 Ht Hh n present.
  unfold Analysis.assess_data_quality, Analysis.getitem.
  rewrite H25, H10, Ht, Hh. cbn [mbind exn_bind]. fold n.
  split.
  - intros ->. reflexivity.
  - intros Hn. destruct (Nat.eqb_spec n 0) as [Hz|_]; [lia|].
    eexists _, _, _, _, _, _, _. exists (Analysis.outlier_rows (numeric df c25)),
      (Analysis.outlier_rows (numeric df c10)).
    split; [reflexivity|].
    split; [apply item_first|].
    unfold present. rewrite <- !dropna_numeric.
    do 4 (split; [apply round_to_2_decimals|]).
    split; [apply item_second; discriminate|].
    split; [apply round_to_2_decimals|].
    split; [apply outlier_rows_count|].
    split; [apply round_to_2_decimals|].
    split; [apply outlier_rows_count|].
    apply item_third; discriminate.
Qed.

Section DataQualityExamples.
Import Analysis.

Lemma one_spike_pm25_outliers :
  round (percent_of_rows (outlier_rows (numeric one_spike "pm25")) (len one_spike)) 2
  = dec 833 100.
Proof. apply Qc_is_canon. reflexivity. Qed.

Lemma one_spike_pm10_outliers :
  round (percent_of_rows (outlier_rows (numeric one_spike "pm10")) (len one_spike)) 2
  = dec 0 1.
Proof. apply Qc_is_canon. reflexivity. Qed.

Lemma one_spike_fraction :
  round (outlier_fraction (numeric one_spike "pm25")) 2 = dec 9 100.
Proof. apply Qc_is_canon. reflexivity. Qed.
End DataQualityExamples.

(** C9, as stated, fails: of twelve lines, eleven have a PM2.5 value
    and one of those values is an outlier.  The fraction of values is
    1/11, 0.09 to 2 decimal places; the assessment reports 8.33, the
    percentage the one outlier is of the twelve lines. *)
Lemma outlier_measure_is_a_percentage_of_rows :
  exists q v,
    Analysis.assess_data_quality one_spike
      (Some "pm25") (Some "pm10") (Some "temperature") (Some "humidity") = inr q
    /\ item "outliers" q = Some (VDict [("pm25", VNum v); ("pm10", VNum (dec 0 1))])
    /\ v = dec 833 100
    /\ round (outlier_fraction (numeric one_spike "pm25")) 2 = dec 9 100
    /\ v <> round (outlier_fraction (numeric one_spike "pm25")) 2.
Proof.
  eexists. exists (dec 833 100). split; [reflexivity|].
  split.
  { rewrite item_second by discriminate.
    change (Analysis.outliers ?s ?n) with (percent_of_rows (Analysis.outlier_rows s) n).
    now rewrite one_spike_pm25_outliers, one_spike_pm10_outliers. }
  split; [reflexivity|]. split; [exact one_spike_fraction|].
  rewrite one_spike_fraction. intros E. apply (f_equal this) in E. discriminate E.
Qed.

Lemma data_quality_percentages_witness :
  exists q f o k,
    Analysis.assess_data_quality one_spike
      (Some "pm25") (Some "pm10") (Some "temperature") (Some "humidity") = inr q
    /\ (item "completeness" q ≫= item "pm25") = Some (VNum f)
    /\ to_2_decimals f (percent_of_rows 11 12)
    /\ (item "outliers" q ≫= item "pm25") = Some (VNum o)
    /\ to_2_decimals o (percent_of_rows k 12)
    /\ outlier_count (present_values one_spike "pm25") k
    /\ item "record_count" q = Some (VInt 12).
Proof.
  destruct (data_quality_percentages one_spike "pm25" "pm10" "temperature" "humidity"
              eq_refl eq_refl eq_refl eq_refl) as (_ & H).
  destruct H as (q & f25 & f10 & ft & fh & o25 & o10 & k25 & k10 & Hq & Hc & F25
                 & _ & _ & _ & Ho & O25 & K25 & _ & _ & Hn); [vm_compute; lia|].
  exists q, f25, o25, k25. split; [exact Hq|].
  rewrite Hc, Ho. cbn [mbind option_bind]. rewrite !item_first.
  split; [reflexivity|]. split; [exact F25|]. split; [reflexivity|].
  split; [exact O25|]. split; [exact K25 | exact Hn].
Defined.

(** * Further properties of the code *)

(** ** The mean lies between the minimum and the maximum *)

Section MeanBounds.

Lemma total_bounds (l : list Qc) (lo hi : Qc) :
  (forall y, y ∈ l -> lo ≤ y) -> (forall y, y ∈ l -> y ≤ hi) ->
  (Qc2R lo * INR (length l) <= Qc2R (total l) <= Qc2R hi * INR (length l))%R.
Proof.
  induction l as [|x l IH]; intros Hlo Hhi.
  - cbn. rewrite Qc2R_0. lra.
  - cbn [total foldr]. fold (total l). rewrite Qc2R_plus.
    change (length (x :: l)) with (S (length l)). rewrite S_INR.
    assert (Hx : (Qc2R lo <= Qc2R x <= Qc2R hi)%R).
    { split; apply Qc2R_le; [apply Hlo | apply Hhi]; left. }
    destruct IH as [IH1 IH2].
    { intros y Hy. apply Hlo. now right. }
    { intros y Hy. apply Hhi. now right. }
    lra.
Qed.

Lemma mean_between (l : list Qc) (m lo hi : Qc) :
  mean l = Some m ->
  (forall y, y ∈ l -> lo ≤ y) -> (forall y, y ∈ l -> y ≤ hi) ->
  lo ≤ m /\ m ≤ hi.
Proof.
  intros Hm Hlo Hhi. destruct l as [|x l]; [discriminate|].
  injection Hm as <-. set (v := x :: l) in *.
  assert (Hn : (0 < INR (length v))%R) by (apply lt_0_INR; cbn; lia).
  assert (Hk : Qc_of_nat (length v) <> 0) by (apply Qc_of_nat_nonzero; discriminate).
  assert (E : (Qc2R (total v / Qc_of_nat (length v)) * INR (length v))%R
              = Qc2R (total v)).
  { rewrite <- Qc2R_of_nat, <- Qc2R_mult. f_equal. field. exact Hk. }
  destruct (total_bounds v lo hi Hlo Hhi) as [H1 H2].
  set (M := Qc2R (total v / Qc_of_nat (length v))) in *.
  split; apply Qc2R_le; fold M.
  - destruct (Rle_lt_dec (Qc2R lo) M) as [|Hlt]; [assumption|].
    pose proof (Rmult_lt_compat_r _ _ _ Hn Hlt). lra.
  - destruct (Rle_lt_dec M (Qc2R hi)) as [|Hlt]; [assumption|].
    pose proof (Rmult_lt_compat_r _ _ _ Hn Hlt). lra.
Qed.

Lemma minimum_mean_maximum (l : list Qc) :
  l <> [] ->
  exists lo m hi, minimum l = Some lo /\ mean l = Some m /\ maximum l = Some hi
                  /\ lo ≤ m /\ m ≤ hi.
Proof.
  intros Hl. destruct l as [|x l]; [contradiction|].
  destruct (minimum (x :: l)) as [lo|] eqn:Elo; [|discriminate].
  destruct (maximum (x :: l)) as [hi|] eqn:Ehi; [|discriminate].
  destruct (mean (x :: l)) as [m|] eqn:Em; [|discriminate].
  exists lo, m, hi. repeat split; try reflexivity;
    apply (mean_between (x :: l) m lo hi Em);
    first [apply (minimum_spec _ _ Elo) | apply (maximum_spec _ _ Ehi)].
Qed.
End MeanBounds.

(** ** The extended analysis leaves the basic result alone *)

Section ExtendedAgrees.
Import Analysis.

Lemma agree_refl (s : state) : agree s s.
Proof. intros k _. reflexivity. Qed.

Lemma alike_refl {A} (x : state * outcome A) : alike x x.
Proof. split; [reflexivity | apply agree_refl]. Qed.

Lemma alike_bind {A B} (m : M A) (k1 k2 : A -> M B) (s : state) :
  (forall a s', alike (k1 a s') (k2 a s')) -> alike ((m ≫= k1) s) ((m ≫= k2) s).
Proof.
  intros Hk. rewrite !run_bind. destruct (m s) as [s' [a| |e]]; auto using alike_refl.
Qed.

Lemma agree_store (k : string) (v : value) (s s' : state) :
  k ∈ extended_keys -> agree s s' ->
  agree (State (<[k := v]> (res s)) (warnings s)) s'.
Proof.
  intros Hk Hr k' Hk'. cbn [res].
  rewrite lookup_insert_ne; [now apply Hr|]. intros ->. contradiction.
Qed.

(** The extended block goes on, whatever it raises, and changes its
    five entries only. *)
Lemma extended_analysis_alike (df : DataFrame) (c1 c2 c3 c4 : option string)
    (s : state) :
  alike (try_pass (extended_analysis df c1 c2 c3 c4) s) (s, Normal ()).
Proof.
  assert (Hin : forall k, k ∈ extended_keys \/ k ∉ extended_keys).
  { intros k. destruct (decide (k ∈ extended_keys)); auto. }
  unfold try_pass, extended_analysis. run.
  destruct (calculate_correlations df c1 c2 c3 c4); run;
    [split; [reflexivity|]; cbn [fst];
     repeat (apply agree_store; [unfold extended_keys; rewrite !elem_of_cons; tauto|]);
     apply agree_refl|].
  destruct (calculate_daily_patterns df _ _); run;
    [split; [reflexivity|]; cbn [fst];
     repeat (apply agree_store; [unfold extended_keys; rewrite !elem_of_cons; tauto|]);
     apply agree_refl|].
  destruct (assess_data_quality df c1 c2 c3 c4); run;
    (split; [reflexivity|]; cbn [fst];
     repeat (apply agree_store; [unfold extended_keys; rewrite !elem_of_cons; tauto|]);
     apply agree_refl).
Qed.

Lemma statistics_alike (df : DataFrame) (s : state) :
  alike (statistics df true s) (statistics df false s).
Proof.
  unfold statistics.
  destruct (_ || _); [apply alike_refl|].
  repeat (apply alike_bind; intros ? ?).
  apply extended_analysis_alike.
Qed.

Lemma body_alike (csv : file) (path : string) (sd ed : date_arg) (s : state) :
  alike (body csv path sd ed true s) (body csv path sd ed false s).
Proof. unfold body. apply alike_bind. intros df s'. apply statistics_alike. Qed.

Lemma handler_agree (x y : state * outcome unit) :
  alike x y ->
  agree match x with
        | (s, Raised e) =>
            State (<["error" := VStr ("Error analyzing data: " +:+ str e)]> (res s))
                  (warnings s)
        | (s, _) => s
        end
        match y with
        | (s, Raised e) =>
            State (<["error" := VStr ("Error analyzing data: " +:+ str e)]> (res s))
                  (warnings s)
        | (s, _) => s
        end.
Proof.
  destruct x as [s1 o1], y as [s2 o2]. intros [Ho Hr]. cbn [fst snd] in *.
  subst o2. destruct o1 as [u| |e]; [exact Hr | exact Hr |].
  intros k Hk. cbn [res].
  destruct (decide (k = "error")) as [-> | Hne].
  - now rewrite !lookup_insert_eq.
  - rewrite !lookup_insert_ne by auto. now apply Hr.
Qed.
End ExtendedAgrees.

(** X2.  Asking for the extended analysis changes nothing in the result
    outside its five entries: every other entry, the [error] entry
    included, is what it is without it, whatever the extended analysis
    raised. *)
Theorem extended_analysis_leaves_the_rest (csv : file) (path : string)
    (sd ed : date_arg) :
  agree (Analysis.analyze_air_quality_data_extended csv path sd ed)
        (Analysis.analyze_air_quality_data csv path sd ed false).
Proof.
  unfold Analysis.analyze_air_quality_data_extended, Analysis.analyze_air_quality_data.
  destruct csv as [| |df]; [apply agree_refl | |];
    apply handler_agree, body_alike.
Qed.

(** ** What the extended analysis stores *)

Section ExtendedEntries.
Import Analysis.

Lemma bind_then {A} (m : M A) (k1 k2 : A -> M unit) (T : M unit) (s : state) :
  (forall a s', k1 a s' = match k2 a s' with
                          | (s1, Normal _) => T s1
                          | r => r
                          end) ->
  (m ≫= k1) s = match (m ≫= k2) s with
                | (s1, Normal _) => T s1
                | r => r
                end.
Proof.
  intros Hk. rewrite !run_bind. destruct (m s) as [s' [a| |e]]; auto.
Qed.

(** The run with the extended analysis is the run without it, followed,
    when that one reached its end, by the extended block. *)
Lemma statistics_extended_run (df : DataFrame) (s : state) :
  statistics df true s
  = match statistics df false s with
    | (s1, Normal _) =>
        try_pass (extended_analysis df (pm25_col df) (pm10_col df)
                                    (temp_col df) (humidity_col df)) s1
    | r => r
    end.
Proof.
  unfold statistics. destruct (_ || _); [reflexivity|].
  repeat (apply bind_then; intros ? ?). reflexivity.
Qed.

Lemma keeps_store_absent (k k' : string) (v : value) :
  k <> k' -> keeps (absent k) (store k' v).
Proof.
  intros Hk s Hs. unfold absent, store in *. cbn [fst res].
  now rewrite lookup_insert_ne by auto.
Qed.

Lemma keeps_warn_absent (k w : string) : keeps (absent k) (warn w).
Proof. intros s Hs. exact Hs. Qed.

Lemma keeps_store_in_absent (k k1 k2 : string) (v : value) :
  k <> k1 -> keeps (absent k) (store_in k1 k2 v).
Proof.
  intros Hk s Hs. unfold store_in. destruct (res s !! k1) as [[] |]; try exact Hs.
  now apply keeps_store_absent.
Qed.

Lemma statistics_absent (k : string) (df : DataFrame) :
  k ∈ extended_keys -> keeps (absent k) (statistics df false).
Proof.
  intros Hk. unfold statistics.
  repeat first
    [ apply keeps_bind; [|intros ?]
    | apply keeps_ret | apply keeps_raise | apply keeps_return
    | apply keeps_warn_absent
    | apply keeps_store_absent
    | apply keeps_store_in_absent
    | match goal with |- keeps _ (if ?b then _ else _) => destruct b end
    | match goal with |- keeps _ (match ?x with _ => _ end) => destruct x end
    | progress unfold pollutant_block, climate_block, strftime ].
  all: try (intros ->; unfold extended_keys in Hk;
    rewrite !elem_of_cons, elem_of_nil in Hk; intuition discriminate).
Qed.

Lemma initial_absent (k : string) :
  k ∈ extended_keys -> absent k (State initial []).
Proof.
  unfold extended_keys. rewrite !elem_of_cons, elem_of_nil.
  intros [-> | [-> | [-> | [-> | [-> | []]]]]]; reflexivity.
Qed.

Lemma resolved_column (df : DataFrame) (c : string) :
  pm25_col df = Some c \/ pm10_col df = Some c
  \/ temp_col df = Some c \/ humidity_col df = Some c ->
  has_column c df = true.
Proof.
  unfold pm25_col, pm10_col, temp_col, humidity_col.
  intros [H | [H | [H | H]]];
    repeat match type of H with
           | (if ?b then _ else _) = _ => destruct b eqn:?
           end; congruence.
Qed.

(** With the pollutant columns found and a time in some row, the result
    of the extended run is what the extended block leaves of the state
    the statistics ended in, in which none of its entries is there
    yet. *)
Lemma analyze_extended_run (df : DataFrame) (path : string) (sd ed : date_arg)
    (c25 c10 : string) :
  has_column "created_at" df = true ->
  comparable sd df -> comparable ed df ->
  len (in_range sd ed df) <> 0%nat ->
  pm25_col (in_range sd ed df) = Some c25 ->
  pm10_col (in_range sd ed df) = Some c10 ->
  times (in_range sd ed df) <> [] ->
  let data := in_range sd ed df in
  exists s1,
    sound s1 /\ (forall k, k ∈ extended_keys -> absent k s1)
    /\ analyze_air_quality_data (Csv df) path sd ed true
       = (try_pass (extended_analysis data (Some c25) (Some c10)
                      (temp_col data) (humidity_col data)) s1).1.
Proof.
  intros Hc Hsd Hed Hlen H25 H10 Ht data.
  rewrite analyze_run by assumption. fold data.
  rewrite statistics_extended_run.
  destruct (statistics_sound data false c25 c10 H25 H10 Ht _ initial_sound)
    as [Hs [[] Ho]].
  pose proof (fun k Hk => statistics_absent k data Hk (State initial []) (initial_absent k Hk)) as Ha.
  destruct (statistics data false _) as [s1 o]. cbn [fst snd] in *. subst o.
  exists s1. split; [exact Hs|]. split; [exact Ha|].
  fold data in H25, H10. rewrite H25, H10.
  destruct (extended_analysis_sound data (Some c25) (Some c10)
              (temp_col data) (humidity_col data) s1 Hs) as [_ [[] Ho]].
  destruct (try_pass _ s1) as [s2 o]. cbn [fst snd] in *. now subst o.
Qed.
End ExtendedEntries.

Section ExtendedCases.
Import Analysis.

Lemma extended_analysis_result (df : DataFrame) (c1 c2 c3 c4 : option string)
    (s : state) :
  res (try_pass (extended_analysis df c1 c2 c3 c4) s).1
  = let hourly := <["hourly_patterns" :=
                     calculate_hourly_patterns df (default "" c1) (default "" c2)]>
                    (res s) in
    match calculate_correlations df c1 c2 c3 c4 with
    | inl _ => hourly
    | inr correlations =>
        let r := <["correlations" := correlations]> hourly in
        match calculate_daily_patterns df (default "" c1) (default "" c2) with
        | inl _ => r
        | inr daily =>
            let r := <["daily_patterns" := daily]> r in
            match assess_data_quality df c1 c2 c3 c4 with
            | inl _ => r
            | inr quality =>
                <["analysis_version" := VInt 2]> (<["data_quality" := quality]> r)
            end
        end
    end.
Proof.
  unfold try_pass, extended_analysis. run.
  destruct (calculate_correlations df c1 c2 c3 c4); run; [reflexivity|].
  destruct (calculate_daily_patterns df _ _); run; [reflexivity|].
  destruct (assess_data_quality df c1 c2 c3 c4); run; reflexivity.
Qed.

Lemma group_keys_nonempty (key : Z -> Z) (df : DataFrame) :
  times df <> [] -> group_keys key df <> [].
Proof.
  intros Ht E. unfold group_keys in E.
  destruct (times df) as [|t l]; [contradiction|].
  assert (Hin : key t ∈ remove_dups (map key (t :: l))).
  { apply elem_of_remove_dups. left. }
  rewrite <- (merge_sort_Permutation Z.le) in Hin. rewrite E in Hin. inversion Hin.
Qed.

Lemma calculate_daily_patterns_NaT (df : DataFrame) (a b : string) :
  times df <> [] ->
  if no_NaT df
  then exists daily, calculate_daily_patterns df a b = inr daily
  else exists e, calculate_daily_patterns df a b = inl e.
Proof.
  intros Ht. unfold calculate_daily_patterns. destruct (no_NaT df); [eauto|].
  pose proof (group_keys_nonempty dayofweek df Ht) as Hk.
  destruct (group_keys dayofweek df); [contradiction | eauto].
Qed.

Lemma calculate_correlations_unavailable (df : DataFrame) (c1 c2 c3 c4 : option string) :
  c3 = None \/ c4 = None ->
  exists e, calculate_correlations df c1 c2 c3 c4 = inl e.
Proof.
  intros H. unfold calculate_correlations.
  destruct (corr_of df c1 c3) as [e|r1] eqn:E1; [eauto|]. cbn [mbind exn_bind].
  destruct H as [-> | ->].
  - unfold corr_of in E1. destruct c1; discriminate.
  - assert (E2 : exists e, corr_of df c1 None = inl e)
      by (unfold corr_of; destruct c1; eauto).
    destruct E2 as [e ->]. eauto.
Qed.

Lemma assess_data_quality_present (df : DataFrame) (p25 p10 t h : string) :
  has_column p25 df = true -> has_column p10 df = true ->
  has_column t df = true -> has_column h df = true ->
  len df <> 0%nat ->
  exists quality,
    assess_data_quality df (Some p25) (Some p10) (Some t) (Some h) = inr quality.
Proof.
  intros H1 H2 H3 H4 Hlen. unfold assess_data_quality, getitem.
  rewrite H1, H2, H3, H4. cbn [mbind exn_bind].
  destruct (Nat.eqb_spec (len df) 0) as [|_]; [contradiction | eauto].
Qed.
End ExtendedCases.

(** X3.  On a file with rows in range, the pollutant columns and a time in
    some row, the dates asked for being dates that can be compared with
    those of the file, the extended analysis stores the hourly patterns whatever
    comes after, and its failures are reported nowhere in the result.
    Without a column for temperature or for humidity nothing else of it
    is stored.  With both, the correlations are stored; the daily
    patterns, the data quality and the version marker 2 are stored when
    every row in range has a time, and none of the three when some row has
    not. *)
Theorem extended_analysis_entries (df : DataFrame) (path : string)
    (sd ed : date_arg) (c25 c10 : string) :
  has_column "created_at" df = true ->
  comparable sd df -> comparable ed df ->
  len (in_range sd ed df) <> 0%nat ->
  Analysis.pm25_col (in_range sd ed df) = Some c25 ->
  Analysis.pm10_col (in_range sd ed df) = Some c10 ->
  times (in_range sd ed df) <> [] ->
  let data := in_range sd ed df in
  let st := Analysis.analyze_air_quality_data_extended (Csv df) path sd ed in
  absent "error" st
  /\ holds "hourly_patterns" (Analysis.calculate_hourly_patterns data c25 c10) st
  /\ (Analysis.temp_col data = None \/ Analysis.humidity_col data = None ->
      absent "correlations" st /\ absent "daily_patterns" st
      /\ absent "data_quality" st /\ absent "analysis_version" st)
  /\ (forall ct ch,
        Analysis.temp_col data = Some ct -> Analysis.humidity_col data = Some ch ->
        (exists correlations,
            Analysis.calculate_correlations data (Some c25) (Some c10) (Some ct) (Some ch)
            = inr correlations
            /\ holds "correlations" correlations st)
        /\ (Analysis.no_NaT data = true ->
            (exists daily,
                Analysis.calculate_daily_patterns data c25 c10 = inr daily
                /\ holds "daily_patterns" daily st)
            /\ (exists quality,
                   Analysis.assess_data_quality data (Some c25) (Some c10)
                     (Some ct) (Some ch) = inr quality
                   /\ holds "data_quality" quality st)
            /\ holds "analysis_version" (VInt 2) st)
        /\ (Analysis.no_NaT data = false ->
            absent "daily_patterns" st /\ absent "data_quality" st
            /\ absent "analysis_version" st)).
Proof.
  intros Hc Hsd Hed Hlen H25 H10 Ht data st.
  destruct (analyze_extended_run df path sd ed c25 c10 Hc Hsd Hed Hlen H25 H10 Ht)
    as (s1 & Hs & Ha & Hrun).
  fold data in Hrun, H25, H10, Hlen, Ht.
  assert (Hres : Analysis.res st = _)
    by (subst st; unfold Analysis.analyze_air_quality_data_extended;
        rewrite Hrun; apply extended_analysis_result).
  cbn [default from_option Datatypes.id] in Hres.
  assert (Hab : forall k, k ∈ extended_keys -> Analysis.res s1 !! k = None)
    by exact Ha.
  assert (A1 := Hab "correlations"). assert (A2 := Hab "daily_patterns").
  assert (A3 := Hab "data_quality"). assert (A4 := Hab "analysis_version").
  unfold extended_keys in A1, A2, A3, A4.
  rewrite !elem_of_cons in A1, A2, A3, A4.
  specialize (A1 ltac:(tauto)). specialize (A2 ltac:(tauto)).
  specialize (A3 ltac:(tauto)). specialize (A4 ltac:(tauto)).
  unfold absent, holds. rewrite Hres. clear Hres Hrun Hab Ha.
  split; [|split; [|split]].
  - destruct Hs as [He _].
    destruct (Analysis.calculate_correlations _ _ _ _ _); cbn zeta;
      [now rewrite lookup_insert_ne by discriminate|].
    destruct (Analysis.calculate_daily_patterns _ _ _);
      [now rewrite !lookup_insert_ne by discriminate|].
    destruct (Analysis.assess_data_quality _ _ _ _ _);
      now rewrite !lookup_insert_ne by discriminate.
  - destruct (Analysis.calculate_correlations _ _ _ _ _); cbn zeta;
      [now rewrite lookup_insert_eq|].
    destruct (Analysis.calculate_daily_patterns _ _ _);
      [rewrite !lookup_insert_ne by discriminate; now rewrite lookup_insert_eq|].
    destruct (Analysis.assess_data_quality _ _ _ _ _);
      rewrite !lookup_insert_ne by discriminate; now rewrite lookup_insert_eq.
  - intros Hu.
    destruct (calculate_correlations_unavailable data (Some c25) (Some c10)
                (Analysis.temp_col data) (Analysis.humidity_col data) Hu) as [e ->].
    cbn zeta. rewrite !lookup_insert_ne by discriminate. auto.
  - intros ct ch Hct Hch. rewrite Hct, Hch.
    assert (P25 : has_column c25 data = true) by (apply resolved_column; auto).
    assert (P10 : has_column c10 data = true) by (apply resolved_column; auto).
    assert (Pt : has_column ct data = true) by (apply resolved_column; auto).
    assert (Ph : has_column ch data = true) by (apply resolved_column; auto).
    rewrite (calculate_correlations_present data c25 c10 ct ch P25 P10 Pt Ph).
    cbn zeta.
    pose proof (calculate_daily_patterns_NaT data c25 c10 Ht) as Hd.
    destruct (assess_data_quality_present data c25 c10 ct ch P25 P10 Pt Ph Hlen)
      as [quality Hq].
    split; [|split].
    + eexists. split; [reflexivity|].
      destruct (Analysis.calculate_daily_patterns _ _ _);
        [now rewrite lookup_insert_eq|].
      rewrite Hq. rewrite !lookup_insert_ne by discriminate.
      now rewrite lookup_insert_eq.
    + intros Hn. rewrite Hn in Hd. destruct Hd as [daily Hd]. rewrite Hd, Hq. cbn zeta.
      split; [|split].
      * exists daily. split; [reflexivity|].
        rewrite !lookup_insert_ne by discriminate. now rewrite lookup_insert_eq.
      * exists quality. split; [reflexivity|].
        rewrite !lookup_insert_ne by discriminate. now rewrite lookup_insert_eq.
      * now rewrite lookup_insert_eq.
    + intros Hn. rewrite Hn in Hd. destruct Hd as [e Hd]. rewrite Hd. cbn zeta.
      rewrite !lookup_insert_ne by discriminate. auto.
Qed.

Lemma extended_analysis_entries_witness :
  holds "analysis_version" (VInt 2)
    (Analysis.analyze_air_quality_data_extended (Csv constant_pm25) "data.csv"
       NoDate NoDate).
Proof.
  destruct (extended_analysis_entries constant_pm25 "data.csv" NoDate NoDate
              "pm25" "pm10") as (_ & _ & _ & H).
  - reflexivity.
  - exact I.
  - exact I.
  - discriminate.
  - reflexivity.
  - reflexivity.
  - vm_compute. discriminate.
  - destruct (H "temperature" "humidity" eq_refl eq_refl) as (_ & Hn & _).
    destruct Hn as (_ & _ & Hv); [reflexivity | exact Hv].
Defined.

(** ** The hourly and the daily patterns *)

Section Patterns.
Import Analysis.

Lemma Forall_le_lt (x : Z) (l : list Z) :
  Forall (Z.le x) l -> x ∉ l -> Forall (Z.lt x) l.
Proof.
  induction 1 as [|y l Hy Hl IH]; intros Hx; constructor.
  - assert (x <> y) by (intros ->; apply Hx; left). lia.
  - apply IH. intros Hin. apply Hx. now right.
Qed.

Lemma StronglySorted_le_lt (l : list Z) :
  StronglySorted Z.le l -> NoDup l -> StronglySorted Z.lt l.
Proof.
  induction 1 as [|x l Hl IH Hx]; intros Hnd; constructor.
  - apply IH. now inversion Hnd.
  - apply Forall_le_lt; [exact Hx | now inversion Hnd].
Qed.

Lemma group_keys_sorted (key : Z -> Z) (df : DataFrame) :
  StronglySorted Z.lt (group_keys key df).
Proof.
  unfold group_keys. apply StronglySorted_le_lt.
  - apply StronglySorted_merge_sort; apply _.
  - rewrite merge_sort_Permutation. apply NoDup_remove_dups.
Qed.

Lemma elem_of_group_keys (key : Z -> Z) (df : DataFrame) (k : Z) :
  k ∈ group_keys key df <-> exists r, r ∈ rows df /\ key <$> time_of r = Some k.
Proof.
  unfold group_keys. rewrite merge_sort_Permutation, elem_of_remove_dups.
  change (map key (times df)) with (key <$> times df).
  rewrite list_elem_of_fmap. unfold times. split.
  - intros (t & -> & Ht). apply list_elem_of_omap in Ht as (r & Hr & Et).
    exists r. split; [exact Hr|]. now rewrite Et.
  - intros (r & Hr & E). destruct (time_of r) as [t|] eqn:Et; [|discriminate].
    injection E as <-. exists t. split; [reflexivity|].
    apply list_elem_of_omap. eauto.
Qed.

Lemma Forall_both {A} (P Q R : A -> Prop) (l : list A) :
  (forall y, P y -> Q y -> R y) -> Forall P l -> Forall Q l -> Forall R l.
Proof.
  intros H HP. induction HP as [|y l Hy HP IH]; intros HQ; constructor;
    inversion HQ; subst; auto.
Qed.

(** A strictly ascending list of integers from [lo] up to, not
    including, [hi] has at most [hi - lo] elements. *)
Lemma ascending_length (l : list Z) (lo hi : Z) :
  StronglySorted Z.lt l -> Forall (fun k => lo ≤ k < hi)%Z l ->
  (Z.of_nat (length l) ≤ Z.max 0 (hi - lo))%Z.
Proof.
  intros Hs. revert lo. induction Hs as [|x l Hl IH Hx]; intros lo Hb.
  - cbn. lia.
  - inversion Hb as [|? ? Hx' Hb']; subst.
    assert (Hb2 : Forall (fun k => x + 1 ≤ k < hi)%Z l).
    { apply (Forall_both (Z.lt x) (fun k => lo ≤ k < hi)%Z); [|exact Hx|exact Hb'].
      intros y. cbn. lia. }
    specialize (IH (x + 1)%Z Hb2). cbn [length]. lia.
Qed.

Lemma hour_range (t : Z) : (0 ≤ hour t < 24)%Z.
Proof. unfold hour. apply Z.mod_pos_bound. lia. Qed.

Lemma dayofweek_range (t : Z) : (0 ≤ dayofweek t < 7)%Z.
Proof. unfold dayofweek. apply Z.mod_pos_bound. lia. Qed.

Lemma group_keys_range (key : Z -> Z) (df : DataFrame) (lo hi : Z) :
  (forall t, lo ≤ key t < hi)%Z ->
  Forall (fun k => lo ≤ k < hi)%Z (group_keys key df).
Proof.
  intros Hk. apply Forall_lookup_2. intros i k Hi.
  apply list_elem_of_lookup_2 in Hi.
  apply elem_of_group_keys in Hi as (r & _ & E).
  destruct (time_of r) as [t|]; [|discriminate]. injection E as <-. apply Hk.
Qed.
End Patterns.

(** X4.  The hourly patterns list each hour of the day in which some row
    falls, once and in ascending order (so at most 24 hours), and for each
    of them one PM2.5 and one PM10 average. *)
Theorem hourly_patterns_hours (df : DataFrame) (pm25_col pm10_col : string) :
  exists hours pm25 pm10,
    Analysis.calculate_hourly_patterns df pm25_col pm10_col
    = VDict [("hours", VList (Analysis.key_value df <$> hours));
             ("pm25", VList pm25); ("pm10", VList pm10)]
    /\ StronglySorted Z.lt hours
    /\ Forall (fun h => 0 ≤ h < 24)%Z hours
    /\ (forall h, h ∈ hours <-> exists r, r ∈ rows df /\ hour <$> time_of r = Some h)
    /\ (length hours ≤ 24)%nat
    /\ length pm25 = length hours /\ length pm10 = length hours
    /\ (forall i h, hours !! i = Some h ->
          pm25 !! i = Some (VFloat (group_mean hour df pm25_col h))
          /\ pm10 !! i = Some (VFloat (group_mean hour df pm10_col h))).
Proof.
  eexists _, _, _. split; [reflexivity|].
  pose proof (group_keys_sorted hour df) as Hs.
  pose proof (group_keys_range hour df 0 24 hour_range) as Hr.
  split; [exact Hs|]. split; [exact Hr|].
  split; [apply elem_of_group_keys|].
  split; [pose proof (ascending_length _ 0 24 Hs Hr); lia|].
  rewrite !length_fmap. split; [reflexivity|]. split; [reflexivity|].
  intros i h Hi. rewrite !list_lookup_fmap, Hi. split; reflexivity.
Qed.

Section DailyPatterns.
Import Analysis.

(** The elements of a list at strictly ascending positions form a
    sublist of it. *)
Lemma positive_pred (js : list nat) (n : nat) :
  StronglySorted lt js -> Forall (fun i => 0 < i < S n)%nat js ->
  StronglySorted lt (Nat.pred <$> js)
  /\ Forall (fun i => i < n)%nat (Nat.pred <$> js)
  /\ js = S <$> (Nat.pred <$> js).
Proof.
  induction 1 as [|i js Hs IH Hi]; intros Hb; [repeat constructor|].
  inversion Hb as [|? ? Hi0 Hb']; subst.
  destruct (IH Hb') as (IH1 & IH2 & IH3). cbn [fmap list_fmap].
  split; [|split].
  - constructor; [exact IH1|]. apply Forall_fmap.
    apply (Forall_both (lt i) (fun k => 0 < k < S n)%nat); [|exact Hi|exact Hb'].
    intros y. cbn. lia.
  - constructor; [lia | exact IH2].
  - f_equal; [lia | exact IH3].
Qed.

Lemma lookups_sublist {A} (d0 : A) (l : list A) (js : list nat) :
  StronglySorted lt js -> Forall (fun i => i < length l)%nat js ->
  sublist ((fun i => default d0 (l !! i)) <$> js) l.
Proof.
  revert js. induction l as [|x l IH]; intros js Hs Hb.
  - destruct js as [|i js]; [constructor|]. inversion Hb; subst. cbn in *. lia.
  - destruct js as [|i js]; [apply sublist_nil_l|].
    inversion Hs as [|? ? Hs' Hi]; subst. inversion Hb as [|? ? Hi0 Hb']; subst.
    cbn [length] in *.
    assert (Hpos : Forall (fun k => 0 < k < S (length l))%nat js).
    { apply (Forall_both (lt i) (fun k => k < S (length l))%nat);
        [|exact Hi|exact Hb']. intros y. cbn. lia. }
    destruct (positive_pred js (length l) Hs' Hpos) as (P1 & P2 & P3).
    destruct i as [|i].
    + cbn [fmap list_fmap lookup list_lookup default from_option Datatypes.id].
      rewrite P3, <- list_fmap_compose. apply sublist_skip.
      apply (IH _ P1 P2).
    + assert (Hall : Forall (fun k => 0 < k < S (length l))%nat (S i :: js))
        by (constructor; [lia | exact Hpos]).
      destruct (positive_pred (S i :: js) (length l) Hs Hall) as (Q1 & Q2 & Q3).
      rewrite Q3, <- list_fmap_compose. apply sublist_cons.
      apply (IH _ Q1 Q2).
Qed.

Lemma to_nat_sorted (ds : list Z) (n : Z) :
  StronglySorted Z.lt ds -> Forall (fun d => 0 ≤ d < n)%Z ds ->
  StronglySorted lt (Z.to_nat <$> ds)
  /\ Forall (fun i => i < Z.to_nat n)%nat (Z.to_nat <$> ds).
Proof.
  induction 1 as [|d ds Hs IH Hd]; intros Hb; [repeat constructor|].
  inversion Hb as [|? ? Hd0 Hb']; subst. destruct (IH Hb') as [IH1 IH2].
  cbn [fmap list_fmap]. split; constructor; auto; [|lia].
  apply Forall_fmap.
  apply (Forall_both (Z.lt d) (fun k => 0 ≤ k < n)%Z); [|exact Hd|exact Hb'].
  intros y. cbn. lia.
Qed.
End DailyPatterns.

(** X5.  When every row has a time, the daily patterns name the days of the
    week in which some row falls, once each and in the order of the week,
    with one PM2.5 and one PM10 average for each.  When some row has no
    time and some row has one, the function raises a type error. *)
Theorem daily_patterns_days (df : DataFrame) (pm25_col pm10_col : string) :
  (Analysis.no_NaT df = true ->
   exists ds pm25 pm10,
     Analysis.calculate_daily_patterns df pm25_col pm10_col
     = inr (VDict [("days",
                    VList ((fun d => VStr (default "" (Analysis.days !! Z.to_nat d)))
                             <$> ds));
                   ("pm25", VList pm25); ("pm10", VList pm10)])
     /\ sublist ((fun d => default "" (Analysis.days !! Z.to_nat d)) <$> ds)
                Analysis.days
     /\ (forall d, d ∈ ds
                   <-> exists r, r ∈ rows df /\ dayofweek <$> time_of r = Some d)
     /\ length pm25 = length ds /\ length pm10 = length ds
     /\ (forall i d, ds !! i = Some d ->
           pm25 !! i = Some (VFloat (group_mean dayofweek df pm25_col d))
           /\ pm10 !! i = Some (VFloat (group_mean dayofweek df pm10_col d))))
  /\ (Analysis.no_NaT df = false -> times df <> [] ->
      Analysis.calculate_daily_patterns df pm25_col pm10_col
      = inl (TypeError "list indices must be integers or slices, not float")).
Proof.
  unfold Analysis.calculate_daily_patterns. split.
  - intros ->. eexists _, _, _. split; [reflexivity|].
    pose proof (group_keys_sorted dayofweek df) as Hs.
    pose proof (group_keys_range dayofweek df 0 7 dayofweek_range) as Hr.
    destruct (to_nat_sorted _ 7 Hs Hr) as [Hs' Hr'].
    split.
    { assert (E : (fun d => default "" (Analysis.days !! Z.to_nat d))
                    <$> group_keys dayofweek df
                  = (fun i => default "" (Analysis.days !! i))
                      <$> (Z.to_nat <$> group_keys dayofweek df))
        by (rewrite <- list_fmap_compose; reflexivity).
      rewrite E. now apply lookups_sublist. }
    split; [apply elem_of_group_keys|].
    rewrite !length_fmap. split; [reflexivity|]. split; [reflexivity|].
    intros i h Hi. rewrite !list_lookup_fmap, Hi. split; reflexivity.
  - intros -> Ht. pose proof (group_keys_nonempty dayofweek df Ht) as Hk.
    destruct (group_keys dayofweek df); [contradiction | reflexivity].
Qed.

Lemma daily_patterns_days_witness :
  exists daily,
    Analysis.calculate_daily_patterns two_rows "pm25" "pm10" = inr daily.
Proof.
  destruct (daily_patterns_days two_rows "pm25" "pm10") as [H _].
  destruct (H eq_refl) as (ds & pm25 & pm10 & E & _). eauto.
Defined.

(** ** The percentages of the data-quality assessment *)

Section Percentages.
Import Analysis.

Lemma Qc_of_Z_le (a : Z) (y : Qc) : Qc_of_Z a ≤ y <-> (inject_Z a <= this y)%Q.
Proof. reflexivity. Qed.

Lemma Qc_le_of_Z (b : Z) (y : Qc) : y ≤ Qc_of_Z b <-> (this y <= inject_Z b)%Q.
Proof. reflexivity. Qed.

Lemma round_half_even_floor (y : Qc) :
  round_half_even y = Qfloor (this y) \/ round_half_even y = (Qfloor (this y) + 1)%Z.
Proof.
  unfold round_half_even.
  destruct (Qc_ltb _ _); [now left|].
  destruct (Qc_ltb _ _); [now right|].
  destruct (Z.even _); [now left | now right].
Qed.

(** Rounding to an integer stays within integer bounds. *)
Lemma round_half_even_bounds (a b : Z) (y : Qc) :
  Qc_of_Z a ≤ y -> y ≤ Qc_of_Z b ->
  (a ≤ round_half_even y ≤ b)%Z.
Proof.
  intros Ha Hb.
  assert (Hfa : (a ≤ Qfloor (this y))%Z).
  { rewrite <- (Qfloor_Z a). apply Qfloor_resp_le. now apply Qc_of_Z_le. }
  assert (Hfb : (Qfloor (this y) ≤ b)%Z).
  { rewrite <- (Qfloor_Z b). apply Qfloor_resp_le. now apply Qc_le_of_Z. }
  destruct (round_half_even_floor y) as [-> | E]; [lia|].
  destruct (Z.eq_dec (Qfloor (this y)) b) as [Eb|]; [|lia].
  assert (Ey : y = Qc_of_Z b).
  { apply Qcle_antisym; [exact Hb|]. apply Qc_of_Z_le. rewrite <- Eb.
    apply Qfloor_le. }
  exfalso. revert E. unfold round_half_even. rewrite Ey.
  change (this (Qc_of_Z b)) with (inject_Z b). rewrite Qfloor_Z.
  replace (Qc_of_Z b - Qc_of_Z b) with (Q2Qc 0) by ring.
  assert (Hr : Qc_ltb (Q2Qc 0) (dec 1 2) = true) by (vm_compute; reflexivity).
  rewrite Hr. lia.
Qed.

Lemma Qc2R_of_Z (z : Z) : Qc2R (Qc_of_Z z) = IZR z.
Proof.
  unfold Qc2R. change (this (Qc_of_Z z)) with (inject_Z z).
  unfold Q2R, inject_Z. cbn [Qnum Qden]. lra.
Qed.

Lemma Rdiv_bounds (p n k h : R) :
  (0 < n)%R -> (p * n = k)%R -> (0 <= k)%R -> (k <= h * n)%R ->
  (0 <= p <= h)%R.
Proof.
  intros Hn E Hk Hh. split.
  - destruct (Rle_lt_dec 0 p) as [|Hlt]; [assumption|].
    pose proof (Rmult_lt_compat_r _ _ _ Hn Hlt). lra.
  - destruct (Rle_lt_dec p h) as [|Hlt]; [assumption|].
    pose proof (Rmult_lt_compat_r _ _ _ Hn Hlt). lra.
Qed.

(** Rounding a percentage to 2 decimals gives a percentage. *)
Lemma round_percentage (x : Qc) :
  0 ≤ x -> x ≤ dec 100 1 -> 0 ≤ round x 2 /\ round x 2 ≤ dec 100 1.
Proof.
  intros H0 H100. unfold round. set (z := round_half_even (x * pow10 2)).
  assert (Hz : (0 ≤ z ≤ 10000)%Z).
  { apply Qc2R_le in H0, H100. rewrite Qc2R_0 in H0. rewrite Qc2R_dec in H100.
    apply round_half_even_bounds; apply Qc2R_le; unfold pow10;
      rewrite Qc2R_mult, !Qc2R_of_Z; change (10 ^ Z.of_nat 2)%Z with 100%Z; lra. }
  assert (Hk : pow10 2 <> 0).
  { intros E. apply (f_equal Qc2R) in E. unfold pow10 in E.
    rewrite Qc2R_of_Z, Qc2R_0 in E. change (10 ^ Z.of_nat 2)%Z with 100%Z in E. lra. }
  assert (E : (Qc2R (Qc_of_Z z / pow10 2) * 100 = IZR z)%R).
  { rewrite <- (Qc2R_of_Z z). change 100%R with (IZR (10 ^ Z.of_nat 2)).
    rewrite <- (Qc2R_of_Z (10 ^ Z.of_nat 2)), <- Qc2R_mult. f_equal.
    fold (pow10 2). field. exact Hk. }
  destruct Hz as [Hz0 Hz1]. apply IZR_le in Hz0, Hz1.
  destruct (Rdiv_bounds _ 100 (IZR z) 100 ltac:(lra) E Hz0 ltac:(lra)) as [B0 B1].
  split; apply Qc2R_le; rewrite ?Qc2R_0, ?Qc2R_dec; assumption.
Qed.

(** [k] rows out of [n], as a percentage. *)
Lemma percent_of_rows_bounds (k n : nat) :
  (k <= n)%nat -> n <> 0%nat ->
  0 ≤ percent_of_rows k n /\ percent_of_rows k n ≤ dec 100 1.
Proof.
  intros Hkn Hn. unfold percent_of_rows.
  assert (Hn' : Qc_of_nat n <> 0) by now apply Qc_of_nat_nonzero.
  assert (E : (Qc2R (Qc_of_nat k / Qc_of_nat n * dec 100 1) * INR n
               = INR k * 100)%R).
  { rewrite <- (Qc2R_of_nat n), <- (Qc2R_of_nat k), <- (Qc2R_dec 100),
      <- !Qc2R_mult. f_equal. field. exact Hn'. }
  assert (H0 : (0 < INR n)%R) by (apply lt_0_INR; lia).
  assert (H1 : (0 <= INR k)%R) by apply pos_INR.
  assert (H2 : (INR k <= INR n)%R) by now apply le_INR.
  destruct (Rdiv_bounds _ (INR n) (INR k * 100) 100 H0 E ltac:(lra) ltac:(lra))
    as [B0 B1].
  split; apply Qc2R_le; rewrite ?Qc2R_0, ?Qc2R_dec; assumption.
Qed.

Lemma length_dropna (s : list (option Qc)) : (length (dropna s) <= length s)%nat.
Proof.
  induction s as [|[q|] s IH]; cbn; [lia | | ];
    change (omap Datatypes.id s) with (dropna s); lia.
Qed.

Lemma outlier_rows_le (s : list (option Qc)) :
  (outlier_rows s <= length (dropna s))%nat.
Proof.
  unfold outlier_rows. destruct (mean _); [|lia]. destruct (variance _); [|lia].
  apply List.filter_length_le.
Qed.

Lemma rounded_percentage (k n : nat) :
  (k <= n)%nat -> n <> 0%nat -> percentage (VNum (round (percent_of_rows k n) 2)).
Proof.
  intros Hkn Hn. eexists. split; [reflexivity|].
  destruct (percent_of_rows_bounds k n Hkn Hn). now apply round_percentage.
Qed.
End Percentages.

(** X6.  Whenever the data-quality assessment gives a result, each of its
    completeness figures and each of its outlier figures is a number from
    0 to 100. *)
Theorem data_quality_within_bounds (df : DataFrame)
    (pm25_col pm10_col temp_col humidity_col : option string) (quality : value) :
  Analysis.assess_data_quality df pm25_col pm10_col temp_col humidity_col
  = inr quality ->
  exists completeness outliers,
    item "completeness" quality = Some (VDict completeness)
    /\ item "outliers" quality = Some (VDict outliers)
    /\ completeness.*1 = ["pm25"; "pm10"; "temperature"; "humidity"]
    /\ outliers.*1 = ["pm25"; "pm10"]
    /\ Forall percentage completeness.*2
    /\ Forall percentage outliers.*2.
Proof.
  unfold Analysis.assess_data_quality, Analysis.getitem.
  destruct pm25_col as [c25|]; [|discriminate].
  destruct (has_column c25 df); [|discriminate].
  destruct pm10_col as [c10|]; [|discriminate].
  destruct (has_column c10 df); [|discriminate].
  destruct temp_col as [ct|]; [|discriminate].
  destruct (has_column ct df); [|discriminate].
  destruct humidity_col as [ch|]; [|discriminate].
  destruct (has_column ch df); [|discriminate].
  cbn [mbind exn_bind].
  destruct (Nat.eqb_spec (len df) 0) as [|Hlen]; [discriminate|].
  intros [= <-]. eexists _, _.
  split; [reflexivity|]. split; [reflexivity|].
  split; [reflexivity|]. split; [reflexivity|].
  assert (Hnum : forall c, length (numeric df c) = len df)
    by (intros c; unfold numeric; now rewrite length_map).
  split; repeat constructor; apply rounded_percentage; try exact Hlen;
    match goal with
    | |- (length (dropna (numeric _ ?c)) <= _)%nat =>
        rewrite <- (Hnum c); apply length_dropna
    | |- (Analysis.outlier_rows (numeric _ ?c) <= _)%nat =>
        rewrite <- (Hnum c);
        etransitivity; [apply outlier_rows_le | apply length_dropna]
    end.
Qed.

Lemma data_quality_within_bounds_witness :
  exists quality completeness,
    Analysis.assess_data_quality one_spike
      (Some "pm25") (Some "pm10") (Some "temperature") (Some "humidity") = inr quality
    /\ item "completeness" quality = Some (VDict completeness)
    /\ Forall percentage completeness.*2.
Proof.
  eexists.
  destruct (data_quality_within_bounds one_spike
              (Some "pm25") (Some "pm10") (Some "temperature") (Some "humidity") _
              eq_refl) as (c & o & Hc & _ & _ & _ & Hp & _).
  exists c. split; [reflexivity|]. split; [exact Hc | exact Hp].
Defined.

(** ** What [load_data] returns *)

Section Loaded.
Import Analyze.

Lemma filter_Forall {A} (p : A -> bool) (l : list A) :
  Forall (fun x => p x = true) (List.filter p l).
Proof.
  induction l as [|x l IH]; cbn [List.filter]; [constructor|].
  destruct (p x) eqn:E; [constructor|]; assumption.
Qed.

Lemma filter_Forall_keep {A} (P : A -> Prop) (p : A -> bool) (l : list A) :
  Forall P l -> Forall P (List.filter p l).
Proof.
  induction 1 as [|x l Hx _ IH]; cbn [List.filter]; [constructor|].
  destruct (p x); [constructor|]; assumption.
Qed.

Lemma filter_StronglySorted {A} (R : A -> A -> Prop) (p : A -> bool) (l : list A) :
  StronglySorted R l -> StronglySorted R (List.filter p l).
Proof.
  induction 1 as [|x l Hl IH Hx]; cbn [List.filter]; [constructor|].
  destruct (p x); [|exact IH]. constructor; [exact IH|].
  now apply filter_Forall_keep.
Qed.

Lemma filter_length {A} (p : A -> bool) (l : list A) :
  (length (List.filter p l) <= length l)%nat.
Proof. apply List.filter_length_le. Qed.

Lemma insert_row_Forall (P : row -> Prop) (r : row) (l : list row) :
  P r -> Forall P l -> Forall P (insert_row r l).
Proof.
  intros Hr. induction 1 as [|x l Hx Hl IH]; cbn [insert_row].
  - repeat constructor. exact Hr.
  - destruct (earlier r x); repeat constructor; auto.
Qed.

Lemma sort_Forall (P : row -> Prop) (l : list row) :
  Forall P l -> Forall P (foldr insert_row [] l).
Proof.
  induction 1 as [|x l Hx Hl IH]; cbn [foldr]; [constructor|].
  now apply insert_row_Forall.
Qed.

Lemma insert_row_length (r : row) (l : list row) :
  length (insert_row r l) = S (length l).
Proof.
  induction l as [|x l IH]; cbn [insert_row]; [reflexivity|].
  destruct (earlier r x); cbn [length]; [reflexivity | now rewrite IH].
Qed.

Lemma sort_length (l : list row) : length (foldr insert_row [] l) = length l.
Proof.
  induction l as [|x l IH]; cbn [foldr]; [reflexivity|].
  rewrite insert_row_length. cbn [length]. now rewrite IH.
Qed.

(** Insertion keeps a list of rows that have a time in the order of the
    times. *)
Lemma insert_row_sorted (r : row) (l : list row) :
  is_Some (time_of r) -> Forall (fun x => is_Some (time_of x)) l ->
  StronglySorted not_after l -> StronglySorted not_after (insert_row r l).
Proof.
  intros [t Ht] Hall Hs. induction Hs as [|x l Hl IH Hx]; cbn [insert_row].
  - repeat constructor.
  - inversion Hall as [|? ? [tx Htx] Hall']; subst.
    unfold earlier. rewrite Ht, Htx. cbn [default from_option Datatypes.id].
    destruct (bool_decide_reflect (t ≤ tx)%Z) as [Hle|Hgt].
    + constructor; [now constructor|]. constructor.
      * exists t, tx. auto.
      * eapply Forall_impl; [|exact Hx]. intros y (a & b & Ha & Hb & Hab).
        exists t, b. rewrite Htx in Ha. injection Ha as <-.
        repeat split; auto. lia.
    + constructor; [now apply IH|].
      apply insert_row_Forall; [|exact Hx].
      exists tx, t. repeat split; auto. lia.
Qed.

Lemma sort_sorted (l : list row) :
  Forall (fun x => is_Some (time_of x)) l ->
  StronglySorted not_after (foldr insert_row [] l).
Proof.
  induction 1 as [|x l Hx Hl IH]; cbn [foldr]; [constructor|].
  apply insert_row_sorted; [exact Hx | now apply sort_Forall | exact IH].
Qed.

Lemma map_StronglySorted {A B} (R : A -> A -> Prop) (S : B -> B -> Prop)
    (f : A -> B) (l : list A) :
  (forall x y, R x y -> S (f x) (f y)) ->
  StronglySorted R l -> StronglySorted S (map f l).
Proof.
  intros H. induction 1 as [|x l Hl IH Hx]; cbn [map]; constructor; [exact IH|].
  apply Forall_fmap. eapply Forall_impl; [|exact Hx]. intros y. apply H.
Qed.
End Loaded.

Section LoadedFrame.
Import Analyze.

Lemma bounded_rows (d : date_arg) (p : Z -> row -> bool) (df : DataFrame) (P : row -> Prop) :
  Forall P (rows df) -> Forall P (rows (bounded d p df)).
Proof. destruct d; cbn; auto. apply filter_Forall_keep. Qed.

Lemma in_range_within (sd ed : date_arg) (df : DataFrame) :
  Forall (within sd ed) (rows (in_range sd ed df)).
Proof.
  unfold in_range.
  assert (H1 : Forall (fun r => forall t, sd = Date t -> on_or_after t r = true)
                 (rows (bounded sd on_or_after df))).
  { destruct sd as [|t|]; cbn.
    - apply Forall_true. discriminate.
    - eapply Forall_impl; [|apply filter_Forall]. cbn. now intros r Hr t' [= <-].
    - apply Forall_true. discriminate. }
  assert (H2 : Forall (fun r => forall t, ed = Date t -> on_or_before t r = true)
                 (rows (bounded ed on_or_before (bounded sd on_or_after df)))).
  { destruct ed as [|t|]; cbn.
    - apply Forall_true. discriminate.
    - eapply Forall_impl; [|apply filter_Forall]. cbn. now intros r Hr t' [= <-].
    - apply Forall_true. discriminate. }
  apply (bounded_rows ed on_or_before) in H1.
  apply (Forall_both _ _ _ (rows (bounded ed on_or_before (bounded sd on_or_after df))))
    with (3 := H2) (2 := H1).
  intros r Ha Hb. split; assumption.
Qed.

Lemma in_range_keeps (sd ed : date_arg) (df : DataFrame) (P : row -> Prop) :
  Forall P (rows df) -> Forall P (rows (in_range sd ed df)).
Proof. intros H. unfold in_range. now do 2 apply bounded_rows. Qed.

Lemma in_range_sorted (sd ed : date_arg) (df : DataFrame) (R : row -> row -> Prop) :
  StronglySorted R (rows df) -> StronglySorted R (rows (in_range sd ed df)).
Proof.
  intros H. destruct (rows_in_range sd ed df) as [p ->].
  now apply filter_StronglySorted.
Qed.

Lemma in_range_length (sd ed : date_arg) (df : DataFrame) :
  (len (in_range sd ed df) <= len df)%nat.
Proof.
  unfold len. destruct (rows_in_range sd ed df) as [p ->]. apply filter_length.
Qed.

Lemma timed_rows_time (df : DataFrame) :
  Forall (fun r => is_Some (time_of r)) (rows (timed df)).
Proof.
  unfold timed, sort_values, select. cbn [rows]. apply sort_Forall.
  eapply Forall_impl; [|apply filter_Forall]. cbn. intros r Hr.
  now apply bool_decide_eq_true in Hr.
Qed.

Lemma timed_rows_sorted (df : DataFrame) : StronglySorted not_after (rows (timed df)).
Proof.
  unfold timed, sort_values. cbn [rows]. apply sort_sorted.
  unfold select. cbn [rows].
  eapply Forall_impl; [|apply filter_Forall]. cbn. intros r Hr.
  now apply bool_decide_eq_true in Hr.
Qed.

Lemma timed_length (df : DataFrame) : (len (timed df) <= len df)%nat.
Proof.
  unfold len, timed, sort_values, select. cbn [rows]. rewrite sort_length.
  apply filter_length.
Qed.

Lemma loaded_field_no_text (df : DataFrame) (c : string) (r : row) :
  loaded_field df c r <> NumText.
Proof.
  unfold loaded_field. destruct (analyze_resolver c df); [|discriminate].
  unfold coerce. destruct (cell r s); discriminate.
Qed.

Lemma time_of_loaded_row (df : DataFrame) (r : row) :
  time_of (loaded_row df r) = time_of r.
Proof. reflexivity. Qed.

(** The frame [load_data] returns for a file it can read. *)
Lemma load_data_ok (df : DataFrame) (path : string) (sd ed : date_arg) :
  has_column "created_at" df = true ->
  comparable sd df -> comparable ed df ->
  load_data (Csv df) path sd ed
  = Some (select (fun r => present "pm25" r && present "pm10" r)
                 (in_range sd ed (foldl map_field (timed df) FIELD_MAPPING))).
Proof.
  intros Hc Hsd Hed. unfold load_data. now rewrite load_body_ok.
Qed.

(** What holds of a frame [load_data] returns. *)
Lemma loaded_frame (csv : file) (path : string) (sd ed : date_arg)
    (frame : DataFrame) :
  load_data csv path sd ed = Some frame ->
  (forall c, c ∈ semantic_fields -> has_column c frame = true)
  /\ Forall loaded_form (rows frame)
  /\ Forall (within sd ed) (rows frame)
  /\ StronglySorted not_after (rows frame)
  /\ (forall df, csv = Csv df -> (len frame <= len df)%nat).
Proof.
  destruct csv as [| |df]; [discriminate | discriminate |].
  destruct (has_column "created_at" df) eqn:Hc;
    [destruct (comparable_dec sd df) as [Hsd | Hsd];
     [destruct (comparable_dec ed df) as [Hed | Hed]|]|].
  2,3,4: rewrite load_data_fails by auto; discriminate.
  rewrite (load_data_ok df path sd ed Hc Hsd Hed). intros [= <-].
  set (M := foldl map_field (timed df) FIELD_MAPPING).
  assert (RM : rows M = map (loaded_row (timed df)) (rows (timed df)))
    by apply rows_field_mapping.
  assert (T : Forall (fun r => is_Some (time_of r)
                               /\ forall c, c ∈ semantic_fields -> cell r c <> NumText)
                (rows M)).
  { rewrite RM. apply Forall_fmap.
    eapply Forall_impl; [|apply (timed_rows_time df)]. cbn. intros r Hr.
    split; [exact Hr|]. intros c Hc'. rewrite cell_loaded_row by assumption.
    apply loaded_field_no_text. }
  assert (S : StronglySorted not_after (rows M)).
  { rewrite RM. apply (map_StronglySorted not_after); [|apply timed_rows_sorted].
    intros x y H. exact H. }
  unfold select. cbn [rows columns]. split; [|split; [|split; [|split]]].
  + intros c Hc'. unfold has_column. cbn [columns].
    change (has_column c (in_range sd ed M) = true).
    replace (has_column c (in_range sd ed M)) with (has_column c M)
      by (unfold in_range, bounded; destruct sd, ed; reflexivity).
    now apply has_column_field_mapping.
  + apply (Forall_both (fun r => present "pm25" r && present "pm10" r = true)
             (fun r => is_Some (time_of r)
                       /\ forall c, c ∈ semantic_fields -> cell r c <> NumText)).
    * intros r Hp [Ht Hn]. apply andb_true_iff in Hp as [H25 H10].
      unfold present in H25, H10.
      apply bool_decide_eq_true in H25, H10. repeat split; assumption.
    * apply filter_Forall.
    * apply filter_Forall_keep. now apply in_range_keeps.
  + apply filter_Forall_keep. apply in_range_within.
  + apply filter_StronglySorted. now apply in_range_sorted.
  + intros df' [= <-]. unfold len. cbn [rows].
    etransitivity; [apply filter_length|].
    etransitivity; [apply (in_range_length sd ed M)|].
    unfold len. rewrite RM, length_map. apply timed_length.
Qed.

End LoadedFrame.

(** X7.  [load_data] returns nothing when the file is missing or has nothing
    to parse, has no [created_at] column, or a date argument cannot be
    compared with the dates of the file: it is no date, or it is a date
    and those of the file carry a UTC offset.  Otherwise it returns a frame that has the four semantic columns,
    whose rows each have a time within the date arguments and both
    pollutant values, hold numbers or nothing in the four fields, and
    come in the order of their times; it has no more rows than the
    file. *)
Theorem load_data_returns (csv : file) (path : string) (sd ed : date_arg) :
  (Analyze.load_data csv path sd ed = None
   <-> ~ exists df, csv = Csv df /\ has_column "created_at" df = true
                    /\ comparable sd df /\ comparable ed df)
  /\ forall frame,
       Analyze.load_data csv path sd ed = Some frame ->
       (forall c, c ∈ semantic_fields -> has_column c frame = true)
       /\ Forall loaded_form (rows frame)
       /\ Forall (within sd ed) (rows frame)
       /\ StronglySorted not_after (rows frame)
       /\ (forall df, csv = Csv df -> (len frame <= len df)%nat).
Proof.
  destruct csv as [| |df].
  - split; [|discriminate]. split; [|reflexivity].
    intros _ (df & E & _). discriminate.
  - split; [|discriminate]. split; [|reflexivity].
    intros _ (df & E & _). discriminate.
  - destruct (has_column "created_at" df) eqn:Hc;
      [destruct (comparable_dec sd df) as [Hsd | Hsd];
       [destruct (comparable_dec ed df) as [Hed | Hed]|]|].
    2,3,4: rewrite load_data_fails by auto; split; [|discriminate];
         split; [|reflexivity]; intros _ (df' & [= <-] & H1 & H2 & H3);
         congruence || contradiction.
    split; [|apply loaded_frame].
    rewrite (load_data_ok df path sd ed Hc Hsd Hed).
    split; [discriminate|]. intros H. exfalso. apply H. exists df. auto.
Qed.

Lemma load_data_returns_witness :
  (exists frame,
      Analyze.load_data (Csv legacy_file) "data.csv" NoDate NoDate = Some frame
      /\ Forall loaded_form (rows frame)
      /\ StronglySorted not_after (rows frame))
  /\ Analyze.load_data (Csv utc_stamps) "data.csv" (Date 1704067200) NoDate = None.
Proof.
  split.
  - destruct (load_data_returns (Csv legacy_file) "data.csv" NoDate NoDate) as [_ H].
    eexists. split; [reflexivity|].
    destruct (H _ eq_refl) as (_ & Hl & _ & Hs & _). split; [exact Hl | exact Hs].
  - destruct (load_data_returns (Csv utc_stamps) "data.csv" (Date 1704067200) NoDate)
      as [[_ H] _].
    apply H. intros (df & [= <-] & _ & Hs & _). discriminate Hs.
Defined.

(** ** The statistics of loaded data *)

Section LoadedStatistics.
Import Analyze.

Lemma foldl_Z_min_max (l : list Z) (lo hi : Z) :
  (lo ≤ hi)%Z -> (foldl Z.min lo l ≤ foldl Z.max hi l)%Z.
Proof.
  revert lo hi. induction l as [|y l IH]; intros lo hi H; cbn [foldl]; [lia|].
  apply IH. lia.
Qed.

Lemma Z_minimum_maximum (l : list Z) :
  l <> [] ->
  exists t1 t2, Z_minimum l = Some t1 /\ Z_maximum l = Some t2 /\ (t1 ≤ t2)%Z.
Proof.
  destruct l as [|x l]; [contradiction|]. intros _. cbn [Z_minimum Z_maximum].
  eexists _, _. split; [reflexivity|]. split; [reflexivity|].
  apply foldl_Z_min_max. lia.
Qed.

Lemma times_nonempty (df : DataFrame) :
  Forall (fun r => is_Some (time_of r)) (rows df) -> len df <> 0%nat ->
  times df <> [].
Proof.
  unfold times, len. destruct (rows df) as [|r l]; [contradiction|].
  intros H _ E. inversion H as [|? ? [t Ht] _]; subst.
  assert (Hin : t ∈ omap time_of (r :: l))
    by (apply list_elem_of_omap; exists r; split; [left | exact Ht]).
  rewrite E in Hin. inversion Hin.
Qed.

Lemma present_values_all (df : DataFrame) (c : string) :
  Forall (fun r => is_Some (to_numeric (cell r c))) (rows df) ->
  length (present_values df c) = len df.
Proof.
  intros H. rewrite <- dropna_numeric. unfold numeric, len, dropna.
  induction H as [|r l [q Hq] _ IH]; [reflexivity|].
  cbn [map length]. rewrite Hq.
  change (omap Datatypes.id (Some q :: ?s)) with (q :: omap Datatypes.id s).
  cbn [length]. now rewrite IH.
Qed.

(** On a frame [load_data] returned, with a row, the statistics are
    computed. *)
Lemma loaded_statistics_computed (csv : file) (path : string) (sd ed : date_arg)
    (frame : DataFrame) :
  load_data csv path sd ed = Some frame -> len frame <> 0%nat ->
  exists stats, calculate_statistics (Some frame) = inr stats.
Proof.
  intros Hload Hlen.
  destruct (loaded_frame csv path sd ed frame Hload) as (Hcols & Hrows & _ & _ & _).
  assert (Ht : times frame <> []).
  { apply times_nonempty; [|exact Hlen].
    eapply Forall_impl; [|exact Hrows]. now intros r [Hr _]. }
  destruct (Z_minimum_maximum _ Ht) as (t1 & t2 & E1 & E2 & _).
  unfold calculate_statistics.
  destruct (Nat.eqb_spec (len frame) 0) as [|_]; [contradiction|].
  rewrite E1, E2.
  rewrite !Hcols by (unfold semantic_fields; rewrite !elem_of_cons; tauto).
  cbn [strftime mbind exn_bind]. eauto.
Qed.
End LoadedStatistics.

(** X8.  On data that [load_data] returned, with at least one row,
    [calculate_statistics] does not raise: it counts the rows, gives a
    date range that starts no later than it ends, and for each pollutant a
    minimum, a mean and a maximum that are numbers, the minimum no more
    than the maximum, with the air-quality level of the mean that is
    stored. *)
Theorem statistics_of_loaded_data (csv : file) (path : string) (sd ed : date_arg)
    (frame : DataFrame) :
  Analyze.load_data csv path sd ed = Some frame ->
  len frame <> 0%nat ->
  exists stats t1 t2,
    Analyze.calculate_statistics (Some frame) = inr stats
    /\ item "count" stats = Some (VInt (Z.of_nat (len frame)))
    /\ item "date_range" stats = Some (VDict [("start", VTime t1); ("end", VTime t2)])
    /\ (t1 ≤ t2)%Z
    /\ forall p, p = "pm25" \/ p = "pm10" ->
         exists d lo m hi,
           item p stats = Some d
           /\ item "min" d = Some (VNum lo)
           /\ item "mean" d = Some (VNum m)
           /\ item "max" d = Some (VNum hi)
           /\ lo ≤ hi
           /\ item "air_quality" d = Some (Analyze.get_air_quality_level (Some m) p).
Proof.
  intros Hload Hlen.
  destruct (loaded_frame csv path sd ed frame Hload) as (Hcols & Hrows & _ & _ & _).
  assert (Ht : times frame <> []).
  { apply times_nonempty; [|exact Hlen].
    eapply Forall_impl; [|exact Hrows]. now intros r [Hr _]. }
  destruct (Z_minimum_maximum _ Ht) as (t1 & t2 & E1 & E2 & Hle).
  assert (H25 : has_column "pm25" frame = true)
    by (apply Hcols; unfold semantic_fields; rewrite !elem_of_cons; tauto).
  assert (H10 : has_column "pm10" frame = true)
    by (apply Hcols; unfold semantic_fields; rewrite !elem_of_cons; tauto).
  assert (Hv : forall p, p = "pm25" \/ p = "pm10" ->
            exists lo m hi,
              minimum (dropna (numeric frame p)) = Some lo
              /\ mean (dropna (numeric frame p)) = Some m
              /\ maximum (dropna (numeric frame p)) = Some hi
              /\ lo ≤ m /\ m ≤ hi).
  { intros p Hp. apply minimum_mean_maximum. intros E.
    assert (Hl : length (present_values frame p) = len frame).
    { apply present_values_all. eapply Forall_impl; [|exact Hrows].
      intros r (_ & P25 & P10 & _). now destruct Hp as [-> | ->]. }
    rewrite <- dropna_numeric, E in Hl. cbn in Hl. congruence. }
  unfold Analyze.calculate_statistics.
  destruct (Nat.eqb_spec (len frame) 0) as [|_]; [contradiction|].
  rewrite E1, E2, H25, H10. cbn [Analyze.strftime mbind exn_bind].
  eexists _, t1, t2. split; [reflexivity|].
  split; [reflexivity|]. split; [reflexivity|]. split; [exact Hle|].
  intros p Hp. destruct (Hv p Hp) as (lo & m & hi & Elo & Em & Ehi & H1 & H2).
  destruct Hp as [-> | ->].
  - eexists _, lo, m, hi. split; [reflexivity|]. unfold Analyze.summary.
    rewrite Elo, Em, Ehi. repeat split; auto. now apply (Qcle_trans _ m).
  - eexists _, lo, m, hi. split; [reflexivity|]. unfold Analyze.summary.
    rewrite Elo, Em, Ehi. repeat split; auto. now apply (Qcle_trans _ m).
Qed.

Lemma statistics_of_loaded_data_witness :
  exists frame stats,
    Analyze.load_data (Csv legacy_file) "data.csv" NoDate NoDate = Some frame
    /\ Analyze.calculate_statistics (Some frame) = inr stats
    /\ item "count" stats = Some (VInt 2).
Proof.
  eexists.
  destruct (statistics_of_loaded_data (Csv legacy_file) "data.csv" NoDate NoDate _
              eq_refl) as (stats & t1 & t2 & Hs & Hc & _).
  - discriminate.
  - exists stats. split; [reflexivity|]. split; [exact Hs | exact Hc].
Defined.


(** ** The result of [analyze_data] *)

(** X9.  [analyze_data] reports success exactly when the chart function gave a
    path, and then the result has no error and holds the statistics.  Once
    data is loaded the statistics are always stored, so that an error is
    either that no data is available or what the chart function raised. *)
Theorem analyze_data_outcomes (c : Analyze.charts) (csv : file)
    (path viz_type : string) (sd ed : date_arg) :
  let result := Analyze.analyze_data c csv path viz_type sd ed in
  (result !! "success" = Some (VBool true)
   <-> exists p d,
         result !! "visualization"
         = Some (VDict [("type", VStr viz_type); ("path", VStr p);
                        ("description", VStr d)]))
  /\ (result !! "success" = Some (VBool true) \/ result !! "success" = Some (VBool false))
  /\ (result !! "success" = Some (VBool true) -> result !! "error" = Some VNone)
  /\ (forall frame,
        Analyze.load_data csv path sd ed = Some frame -> len frame <> 0%nat ->
        exists stats,
          Analyze.calculate_statistics (Some frame) = inr stats
          /\ result !! "statistics" = Some stats
          /\ (result !! "error" = Some VNone
              \/ exists e, Analyze.draw c viz_type frame = inl e
                           /\ result !! "error" = Some (VStr (str e))))
  /\ ((forall frame, Analyze.load_data csv path sd ed = Some frame -> len frame = 0%nat) ->
      result = <["error" := VStr "No data available for analysis"]>
                 (Analyze.initial viz_type)).
Proof.
  intros result. subst result. unfold Analyze.analyze_data.
  destruct (Analyze.load_data csv path sd ed) as [frame|] eqn:Hload.
  2: { repeat split; try discriminate; auto.
       intros (p & d & H). discriminate. }
  destruct (Nat.eqb_spec (len frame) 0) as [Hz|Hlen].
  { repeat split; try discriminate; auto.
    - intros (p & d & H). discriminate.
    - intros f [= <-] Hf. contradiction. }
  destruct (loaded_statistics_computed csv path sd ed frame Hload Hlen)
    as (stats & Hs).
  rewrite Hs.
  destruct (Analyze.draw c viz_type frame) as [e|[[p|] d]] eqn:Hd.
  - repeat split; try discriminate; auto.
    + intros (p & d & H). discriminate.
    + intros f [= <-] _. exists stats. split; [exact Hs|]. split; [reflexivity|].
      right. exists e. split; [exact Hd | reflexivity].
    + intros H. specialize (H frame eq_refl). contradiction.
  - repeat split; try discriminate; auto.
    + intros _. exists p, d. reflexivity.
    + intros f [= <-] _. exists stats. split; [exact Hs|]. split; [reflexivity|].
      left. reflexivity.
    + intros H. specialize (H frame eq_refl). contradiction.
  - repeat split; try discriminate; auto.
    + intros (p & d' & H). discriminate.
    + intros f [= <-] _. exists stats. split; [exact Hs|]. split; [reflexivity|].
      left. reflexivity.
    + intros H. specialize (H frame eq_refl). contradiction.
Qed.

(** ** The air-quality level rises with the value *)

Section LevelMonotone.
Import Analyze.




End LevelMonotone.


(** ** The report of the Streaming Aggregator *)

Section StreamingReport.
Import CorrelationLarge.

Lemma take_cons_positive {A} (n : nat) (x : A) (l : list A) :
  (0 < n)%nat -> exists k, take n (x :: l) = x :: k.
Proof. destruct n; [lia|]. intros _. cbn [take]. eauto. Qed.

Lemma aware_all (cols : list string) (l : list row) :
  l <> [] -> Forall (fun r => is_aware r = true) l -> aware (Frame cols l) = true.
Proof.
  destruct l as [|r l]; [contradiction|]. intros _ H. inversion H; subst.
  unfold aware. cbn [rows existsb]. now rewrite H2.
Qed.

Lemma clean_take (n : nat) (l : list row) : clean l -> clean (take n l).
Proof. unfold clean. apply Forall_take. Qed.

(** A file whose dates all carry an offset, read with both bounds: the
    first chunk raises. *)
Lemma create_correlation_aware (n : nat) (df : DataFrame) (path : string) (a b : Z) :
  (0 < n)%nat -> clean (rows df) -> has_column "created_at" df = true ->
  rows df <> [] -> Forall (fun r => is_aware r = true) (rows df) ->
  create_correlation_chunked n (Csv df) path (Date a) (Date b)
  = inl invalid_comparison.
Proof.
  intros Hn Hc Hcr Hne Ha. unfold create_correlation_chunked, read_csv_chunks.
  cbn [parse_date read_csv mbind exn_bind].
  destruct df as [cols l]. cbn [rows columns] in *.
  destruct l as [|r l]; [contradiction|]. cbn [mbind exn_bind].
  unfold chunks. cbn [length chunks_aux fmap list_fmap loop].
  rewrite (process_aware cols a b (take n (r :: l))).
  - reflexivity.
  - now apply clean_take.
  - exact Hcr.
  - apply aware_all.
    + destruct (take_cons_positive n r l Hn) as [k ->]. discriminate.
    + now apply Forall_take.
Qed.
End StreamingReport.

(** X12.  What the Streaming Aggregator reports for a file of clean rows,
    whatever the chunk size.  It needs the [created_at] column even when
    the file has no row.  With both bounds and dates that all carry a UTC
    offset it raises the error of the comparison.  With dates it can
    compare: when the date filter leaves no row it reports that there is
    no data, whatever the header; otherwise, when some of the four fields
    are not found, it raises one key error that lists them; and when all
    are found, the count it reports is the number of rows in range that
    hold the four values, no data being reported when there is none. *)
Theorem streaming_report (n : nat) (df : DataFrame) (path : string)
    (sd ed : date_arg) (start end_ : option Z) :
  (0 < n)%nat -> clean (rows df) ->
  CorrelationLarge.parse_date sd = inr start ->
  CorrelationLarge.parse_date ed = inr end_ ->
  let result := CorrelationLarge.create_correlation_chunked n (Csv df) path sd ed in
  let kept := between start end_ (rows df) in
  let counted := counted (columns df) start end_ (rows df) in
  (has_column "created_at" df = false ->
   result = inl (KeyError (quoted "created_at")))
  /\ (has_column "created_at" df = true ->
      (rows df <> [] -> Forall (fun r => is_aware r = true) (rows df) ->
       is_Some start -> is_Some end_ -> result = inl invalid_comparison)
      /\ (filterable start end_ (rows df) ->
          (kept = [] -> result = inr CorrelationLarge.NoData)
          /\ (kept <> [] -> lacking (columns df) <> [] ->
              result = inl (KeyError (listed (lacking (columns df)))))
          /\ (kept <> [] -> lacking (columns df) = [] ->
              (counted = [] -> result = inr CorrelationLarge.NoData)
              /\ (counted <> [] ->
                  exists r1 r2,
                    result
                    = inr (CorrelationLarge.Correlation (length counted) r1 r2))))).
Proof.
  intros Hn Hc Hs He result kept counted. subst result.
  split.
  { intros Hcr. unfold CorrelationLarge.create_correlation_chunked,
      CorrelationLarge.read_csv_chunks.
    rewrite Hs, He. cbn [read_csv mbind exn_bind].
    destruct df as [cols l]. cbn [rows columns] in *.
    destruct l as [|r l]; cbn [mbind exn_bind];
      [|unfold CorrelationLarge.chunks; cbn [length CorrelationLarge.chunks_aux
          fmap list_fmap]];
      cbn [CorrelationLarge.loop]; unfold CorrelationLarge.process at 1,
        CorrelationLarge.require;
      change (has_column "created_at" (Frame cols ?x))
        with (has_column "created_at" (Frame cols [])) in *;
      now rewrite Hcr. }
  intros Hcr. split.
  { intros Hne Ha [a Ea] [b Eb]. subst start end_.
    destruct sd as [|a'|]; try discriminate. destruct ed as [|b'|]; try discriminate.
    cbn [CorrelationLarge.parse_date] in Hs, He.
    injection Hs as ->. injection He as ->.
    now apply create_correlation_aware. }
  intros Hf.
  rewrite (create_correlation_clean n df path sd ed start end_ Hn Hc Hf Hs He).
  destruct df as [cols l]. cbn [rows columns] in *.
  rewrite process_clean by assumption. unfold CorrelationLarge.require.
  change (has_column "created_at" (Frame cols []))
    with (has_column "created_at" (Frame cols l)).
  rewrite Hcr. cbn [mbind exn_bind]. fold kept. rewrite required_lacking.
  split; [|split].
  - intros ->. reflexivity.
  - intros Hk Hl. destruct kept as [|r k]; [contradiction|].
    destruct (lacking cols); [contradiction | reflexivity].
  - intros Hk ->. destruct kept as [|r k]; [contradiction|].
    cbn [mbind exn_bind fmap exn_fmap].
    unfold CorrelationLarge.summarise.
    change (CorrelationLarge.count
              (CorrelationLarge.add (Frame cols (aggregated cols start end_ l))
                 CorrelationLarge.zero))
      with (length (aggregated cols start end_ l)).
    rewrite (aggregated_counted cols start end_ l Hc). fold counted.
    split.
    + intros ->. reflexivity.
    + intros Hne. destruct counted as [|x c]; [contradiction|].
      cbn [length Nat.eqb]. eauto.
Qed.

Lemma utc_stamps_clean : clean (rows utc_stamps).
Proof.
  unfold clean. repeat constructor; try discriminate;
    intros c Hc; destruct (semantic_fields_cases _ Hc) as [-> | [-> | [-> | ->]]];
    discriminate.
Qed.

Lemma streaming_report_witness :
  (exists r1 r2,
      CorrelationLarge.create_correlation_chunked 1 (Csv pm10_gap) "data.csv"
        NoDate NoDate
      = inr (CorrelationLarge.Correlation 2 r1 r2))
  /\ CorrelationLarge.create_correlation_chunked 1 (Csv pm25_only) "data.csv"
       NoDate NoDate
     = inl (KeyError "['pm10']")
  /\ CorrelationLarge.create_correlation_chunked 1 (Csv utc_stamps) "data.csv"
       (Date 1704067200) (Date 1704070800)
     = inl invalid_comparison.
Proof.
  split; [|split].
  - destruct (streaming_report 1 pm10_gap "data.csv" NoDate NoDate None None)
      as [_ H]; [lia | exact pm10_gap_clean | reflexivity | reflexivity |].
    destruct (H eq_refl) as (_ & H3). destruct (H3 I) as (_ & _ & H4).
    destruct H4 as [_ H5]; [discriminate | reflexivity |].
    destruct H5 as (r1 & r2 & E); [vm_compute; discriminate|].
    exists r1, r2. exact E.
  - destruct (streaming_report 1 pm25_only "data.csv" NoDate NoDate None None)
      as [_ H]; [lia | | reflexivity | reflexivity |].
    { unfold clean. repeat constructor; try discriminate;
        intros c Hc; destruct (semantic_fields_cases _ Hc) as [-> | [-> | [-> | ->]]];
        discriminate. }
    destruct (H eq_refl) as (_ & H3). destruct (H3 I) as (_ & H4 & _).
    apply H4; discriminate.
  - destruct (streaming_report 1 utc_stamps "data.csv" (Date 1704067200)
                (Date 1704070800) (Some 1704067200%Z) (Some 1704070800%Z))
      as [_ H]; [lia | exact utc_stamps_clean | reflexivity | reflexivity |].
    destruct (H eq_refl) as (H3 & _).
    apply H3; [discriminate | repeat constructor | eauto | eauto].
Defined.

(** ** The date range of the result *)

Section DateRange.
Import Analysis.

Lemma proceeds_then {A B} (I Q : state -> Prop) (m : M A) (k : A -> M B) :
  proceeds I m -> (forall a s, I s -> Q (k a s).1) ->
  forall s, I s -> Q ((m ≫= k) s).1.
Proof.
  intros Hm Hk s Hs. rewrite run_bind. destruct (Hm s Hs) as [Hs' [a Ha]].
  destruct (m s) as [s' o]. cbn [fst snd] in *. subst o. now apply Hk.
Qed.

Lemma proceeds_store_holds (k k' : string) (v v' : value) :
  k <> k' -> proceeds (holds k v) (store k' v').
Proof.
  intros Hk s Hs. split; [now apply keeps_store_holds | now exists ()].
Qed.

Lemma proceeds_warn_holds (k w : string) (v : value) :
  proceeds (holds k v) (warn w).
Proof. intros s Hs. split; [exact Hs | now exists ()]. Qed.

Lemma statistics_date_range (df : DataFrame) (extended : bool) (c25 c10 : string)
    (t1 t2 : Z) (s : state) :
  pm25_col df = Some c25 -> pm10_col df = Some c10 ->
  len df <> 0%nat ->
  Z_minimum (times df) = Some t1 -> Z_maximum (times df) = Some t2 ->
  holds "date_range" (VDict [("start", VNone); ("end", VNone)]) s ->
  holds "date_range" (VDict [("start", VTime t1); ("end", VTime t2)])
        (statistics df extended s).1.
Proof.
  intros H25 H10 Hlen E1 E2. unfold statistics.
  rewrite (available df c25 c10 H25 H10), E1, E2.
  destruct (Nat.ltb_spec 0 (len df)) as [_|]; [|lia].
  revert s.
  apply proceeds_then.
  { apply pollutant_block_proceeds; intros;
      try apply proceeds_store_holds; try discriminate; apply proceeds_warn_holds. }
  intros _. apply proceeds_then.
  { apply pollutant_block_proceeds; intros;
      try apply proceeds_store_holds; try discriminate; apply proceeds_warn_holds. }
  intros _. apply proceeds_then.
  { apply climate_block_proceeds; intros;
      try apply proceeds_store_holds; try discriminate; apply proceeds_warn_holds. }
  intros _. apply proceeds_then.
  { apply climate_block_proceeds; intros;
      try apply proceeds_store_holds; try discriminate; apply proceeds_warn_holds. }
  intros _. apply proceeds_then.
  { apply proceeds_store_holds. discriminate. }
  intros _ s Hs.
  assert (Hk : keeps (holds "date_range" (VDict [("start", VTime t1); ("end", VTime t2)]))
                 (if extended
                  then try_pass (extended_analysis df (pm25_col df) (pm10_col df)
                                   (temp_col df) (humidity_col df))
                  else mret ())).
  { destruct extended; [|apply keeps_ret]. unfold extended_analysis. keeps_tac. }
  assert (U1 : update "start" (VTime t1) [("start", VNone); ("end", VNone)]
               = [("start", VTime t1); ("end", VNone)]) by reflexivity.
  assert (U2 : update "end" (VTime t2) [("start", VTime t1); ("end", VNone)]
               = [("start", VTime t1); ("end", VTime t2)]) by reflexivity.
  rewrite run_bind. unfold strftime. run. unfold store_in at 1.
  unfold holds in Hs. rewrite Hs, U1. run.
  unfold store_in at 1. cbn [res]. rewrite lookup_insert_eq, U2. run.
  apply Hk. unfold holds. cbn [res]. now rewrite lookup_insert_eq.
Qed.
End DateRange.

Section DateRangeBounds.
Import Analysis.

Lemma foldl_Z_min_spec (l : list Z) (x : Z) :
  let m := foldl Z.min x l in
  (m = x \/ m ∈ l) /\ (m ≤ x)%Z /\ forall y, y ∈ l -> (m ≤ y)%Z.
Proof.
  revert x. induction l as [|a l IH]; intros x; cbn [foldl].
  - split; [now left|]. split; [lia|]. intros y Hy. inversion Hy.
  - destruct (IH (Z.min x a)) as (Hin & Hle & Hall). split; [|split].
    + destruct Hin as [E | Hin]; [|right; now right]. rewrite E.
      destruct (Z.min_spec x a) as [[_ ->] | [_ ->]]; [now left | right; left].
    + lia.
    + intros y Hy. apply elem_of_cons in Hy as [-> | Hy]; [lia | now apply Hall].
Qed.

Lemma foldl_Z_max_spec (l : list Z) (x : Z) :
  let m := foldl Z.max x l in
  (m = x \/ m ∈ l) /\ (x ≤ m)%Z /\ forall y, y ∈ l -> (y ≤ m)%Z.
Proof.
  revert x. induction l as [|a l IH]; intros x; cbn [foldl].
  - split; [now left|]. split; [lia|]. intros y Hy. inversion Hy.
  - destruct (IH (Z.max x a)) as (Hin & Hle & Hall). split; [|split].
    + destruct Hin as [E | Hin]; [|right; now right]. rewrite E.
      destruct (Z.max_spec x a) as [[_ ->] | [_ ->]]; [right; left | now left].
    + lia.
    + intros y Hy. apply elem_of_cons in Hy as [-> | Hy]; [lia | now apply Hall].
Qed.

Lemma Z_minimum_spec (l : list Z) (m : Z) :
  Z_minimum l = Some m -> m ∈ l /\ forall y, y ∈ l -> (m ≤ y)%Z.
Proof.
  destruct l as [|x l]; [discriminate|]. cbn [Z_minimum]. intros [= <-].
  destruct (foldl_Z_min_spec l x) as (Hin & Hle & Hall). split.
  - destruct Hin as [-> | Hin]; [left | now right].
  - intros y Hy. apply elem_of_cons in Hy as [-> | Hy]; auto.
Qed.

Lemma Z_maximum_spec (l : list Z) (m : Z) :
  Z_maximum l = Some m -> m ∈ l /\ forall y, y ∈ l -> (y ≤ m)%Z.
Proof.
  destruct l as [|x l]; [discriminate|]. cbn [Z_maximum]. intros [= <-].
  destruct (foldl_Z_max_spec l x) as (Hin & Hle & Hall). split.
  - destruct Hin as [-> | Hin]; [left | now right].
  - intros y Hy. apply elem_of_cons in Hy as [-> | Hy]; auto.
Qed.

Lemma times_within (sd ed : date_arg) (df : DataFrame) (t : Z) :
  t ∈ times (in_range sd ed df) ->
  (forall a, sd = Date a -> (a ≤ t)%Z) /\ (forall b, ed = Date b -> (t ≤ b)%Z).
Proof.
  unfold times. intros Ht. apply list_elem_of_omap in Ht as (r & Hr & Et).
  pose proof (in_range_within sd ed df) as Hw.
  apply list_elem_of_lookup_1 in Hr as [i Hi].
  pose proof (Forall_lookup_1 _ _ _ _ Hw Hi) as [H1 H2].
  split.
  - intros a Ha. specialize (H1 a Ha). unfold on_or_after in H1. rewrite Et in H1.
    now apply bool_decide_eq_true in H1.
  - intros b Hb. specialize (H2 b Hb). unfold on_or_before in H2. rewrite Et in H2.
    now apply bool_decide_eq_true in H2.
Qed.
End DateRangeBounds.

(** X14.  On a file with rows in range, the pollutant columns and a time in
    some row, the dates asked for being dates that can be compared with
    those of the file, the date range of the result starts at the earliest and ends
    at the latest time among the rows in range, so that it lies within the
    dates that were asked for. *)
Theorem reported_date_range (df : DataFrame) (path : string) (sd ed : date_arg)
    (extended : bool) (c25 c10 : string) :
  has_column "created_at" df = true ->
  comparable sd df -> comparable ed df ->
  len (in_range sd ed df) <> 0%nat ->
  Analysis.pm25_col (in_range sd ed df) = Some c25 ->
  Analysis.pm10_col (in_range sd ed df) = Some c10 ->
  times (in_range sd ed df) <> [] ->
  let data := in_range sd ed df in
  let st := Analysis.analyze_air_quality_data (Csv df) path sd ed extended in
  exists t1 t2,
    holds "date_range" (VDict [("start", VTime t1); ("end", VTime t2)]) st
    /\ t1 ∈ times data /\ t2 ∈ times data
    /\ (forall t, t ∈ times data -> (t1 ≤ t ≤ t2)%Z)
    /\ (forall a, sd = Date a -> (a ≤ t1)%Z)
    /\ (forall b, ed = Date b -> (t2 ≤ b)%Z).
Proof.
  intros Hc Hsd Hed Hlen H25 H10 Ht data st.
  destruct (Z_minimum_maximum _ Ht) as (t1 & t2 & E1 & E2 & Hle).
  destruct (Z_minimum_spec _ _ E1) as [I1 L1].
  destruct (Z_maximum_spec _ _ E2) as [I2 L2].
  exists t1, t2. split; [|split; [exact I1|split; [exact I2|split; [|split]]]].
  - apply analyze_holds; try assumption; [discriminate|].
    apply (statistics_date_range _ extended c25 c10 t1 t2); try assumption.
    reflexivity.
  - intros t Hin. split; [now apply L1 | now apply L2].
  - apply (times_within sd ed df t1 I1).
  - apply (times_within sd ed df t2 I2).
Qed.

Lemma reported_date_range_witness :
  exists t1 t2,
    holds "date_range" (VDict [("start", VTime t1); ("end", VTime t2)])
      (Analysis.analyze_air_quality_data (Csv two_rows) "data.csv"
         (Date 1704067200) NoDate false)
    /\ (1704067200 ≤ t1)%Z.
Proof.
  destruct (reported_date_range two_rows "data.csv" (Date 1704067200) NoDate false
              "pm25" "pm10") as (t1 & t2 & H & _ & _ & _ & Ha & _).
  - reflexivity.
  - reflexivity.
  - exact I.
  - vm_compute. discriminate.
  - reflexivity.
  - reflexivity.
  - vm_compute. discriminate.
  - exists t1, t2. split; [exact H | now apply Ha].
Defined.

(** ** A time that cannot be read *)

Section UnparsableTime.
Import CorrelationLarge.

Lemma process_text (start end_ : option Z) (chunk : DataFrame) (s : sums) :
  existsb is_text (rows chunk) = true ->
  exists e, process start end_ chunk s = inl e.
Proof.
  intros Ht. unfold process, require.
  destruct (has_column "created_at" chunk); cbn [mbind exn_bind]; [|eauto].
  rewrite Ht. cbn [mbind exn_bind]. eauto.
Qed.

Lemma loop_text (start end_ : option Z) (cs : list DataFrame) (s : sums) :
  Exists (fun chunk => existsb is_text (rows chunk) = true) cs ->
  exists e, loop start end_ cs s = inl e.
Proof.
  intros H. revert s. induction H as [chunk cs Hc | chunk cs _ IH]; intros s;
    cbn [loop].
  - destruct (process_text start end_ chunk s Hc) as [e ->]. eauto.
  - destruct (process start end_ chunk s) as [e|s']; [eauto|].
    cbn [mbind exn_bind]. apply IH.
Qed.

Lemma chunks_cover {A} (n : nat) (l : list A) (x : A) :
  (0 < n)%nat -> x ∈ l -> exists c, c ∈ chunks n l /\ x ∈ c.
Proof.
  intros Hn Hx. rewrite <- (chunks_concat n l Hn) in Hx.
  apply list_elem_of_In, in_concat in Hx as (c & Hc & Hx).
  exists c. split; now apply list_elem_of_In.
Qed.
End UnparsableTime.

(** X15.  One [created_at] field that is text and no date makes the Streaming
    Aggregator fail, wherever the row is in the file, whatever the chunk
    size and whether or not the row is in the date range: it raises, and
    reports no coefficient. *)
Theorem unparsable_time_aborts (n : nat) (df : DataFrame) (path : string)
    (sd ed : date_arg) (r : row) :
  (0 < n)%nat -> r ∈ rows df -> created_at r = TsText ->
  exists e, CorrelationLarge.create_correlation_chunked n (Csv df) path sd ed = inl e.
Proof.
  intros Hn Hr Ht. unfold CorrelationLarge.create_correlation_chunked.
  destruct (CorrelationLarge.parse_date sd) as [e|start]; [eauto|].
  destruct (CorrelationLarge.parse_date ed) as [e|end_]; [eauto|].
  cbn [mbind exn_bind]. unfold CorrelationLarge.read_csv_chunks.
  cbn [read_csv mbind exn_bind].
  destruct (rows df) as [|x l] eqn:El; [inversion Hr|]. rewrite <- El in *.
  cbn [mbind exn_bind].
  destruct (chunks_cover n (rows df) r Hn Hr) as (c & Hc & Hrc).
  destruct (loop_text start end_ (Frame (columns df) <$> CorrelationLarge.chunks n (rows df))
              CorrelationLarge.zero) as [e He].
  { apply Exists_exists. exists (Frame (columns df) c). split.
    - apply list_elem_of_In, list_elem_of_fmap. eauto.
    - cbn [rows]. apply existsb_exists. exists r. split.
      + now apply list_elem_of_In.
      + unfold CorrelationLarge.is_text. now rewrite Ht. }
  rewrite He. eauto.
Qed.

Lemma unparsable_time_aborts_witness :
  exists e,
    CorrelationLarge.create_correlation_large (Csv unparsed_times) "data.csv"
      NoDate NoDate = inl e.
Proof.
  destruct (unparsable_time_aborts CorrelationLarge.chunk_size unparsed_times
              "data.csv" NoDate NoDate
              (Row TsText (list_to_map [("pm25", NumOk (dec 10 1));
                                        ("pm10", NumOk (dec 20 1))]))) as [e He].
  - exact chunk_size_positive.
  - left.
  - reflexivity.
  - exists e. exact He.
Defined.

(** ** The command line of [analysis.py] *)

Section CommandLine.
Import Analysis AnalysisMain.

Lemma read_and_filter_bad_date (csv : file) (path : string) (sd ed : date_arg)
    (s : state) :
  sd = BadDate \/ ed = BadDate ->
  (exists e, read_and_filter csv path sd ed s = (s, Raised e))
  \/ read_and_filter csv path sd ed s
     = (State (<["error" := VStr "No data found in CSV file"]> (res s)) (warnings s),
        Returned).
Proof.
  intros Hd. unfold read_and_filter.
  destruct csv as [| |df]; run; [left; eauto | left; eauto|].
  destruct (len df =? 0)%nat; run; [right; reflexivity|].
  destruct (has_column "created_at" df); run; [|left; eauto].
  destruct sd as [|t|]; cbn [filter_date]; unfold compare_dates;
    [|destruct (aware df)|]; run; try (left; eauto; fail);
    (destruct ed as [|t'|]; cbn [filter_date]; unfold compare_dates; run;
     [destruct Hd; discriminate .. | left; eauto]).
Qed.

Lemma bad_date_result (csv : file) (path : string) (sd ed : date_arg)
    (extended : bool) :
  sd = BadDate \/ ed = BadDate ->
  exists msg,
    analyze_air_quality_data csv path sd ed extended
    = State (<["error" := VStr msg]> initial) [].
Proof.
  intros Hd. unfold analyze_air_quality_data.
  assert (H : exists msg,
             match body csv path sd ed extended (State initial []) with
             | (s, Raised e) =>
                 State (<["error" := VStr ("Error analyzing data: " +:+ str e)]> (res s))
                       (warnings s)
             | (s, _) => s
             end = State (<["error" := VStr msg]> initial) []).
  { unfold body. rewrite run_bind.
    destruct (read_and_filter_bad_date csv path sd ed (State initial []) Hd)
      as [[e ->] | ->]; eauto. }
  destruct csv; eauto.
Qed.

Lemma is_flag_nonempty (flag : string) : is_flag flag = true -> flag <> "".
Proof. intros H ->. discriminate. Qed.

Lemma flag_is_bad_date (to_datetime : string -> option Z) (flag : string) :
  is_flag flag = true -> to_datetime flag = None ->
  date_of to_datetime (Some flag) = BadDate.
Proof.
  intros Hf Hd. unfold date_of.
  destruct (decide (flag = "")) as [E|_]; [now apply is_flag_nonempty in E|].
  now rewrite Hd.
Qed.

Lemma read_and_filter_absent (k : string) (csv : file) (path : string)
    (sd ed : date_arg) :
  k <> "error" -> keeps (absent k) (read_and_filter csv path sd ed).
Proof.
  intros Hk. unfold read_and_filter, filter_date.
  repeat first
    [ apply keeps_bind; [|intros ?]
    | apply keeps_ret | apply keeps_raise | apply keeps_return | apply keeps_lift
    | apply keeps_store_absent; assumption
    | match goal with |- keeps _ (if ?b then _ else _) => destruct b end
    | match goal with |- keeps _ (match ?x with _ => _ end) => destruct x end ].
Qed.

Lemma extended_key_not_error (k : string) : k ∈ extended_keys -> k <> "error".
Proof.
  unfold extended_keys. rewrite !elem_of_cons, elem_of_nil.
  intros [-> | [-> | [-> | [-> | [-> | []]]]]]; discriminate.
Qed.

Lemma plain_analysis_absent (k : string) (csv : file) (path : string)
    (sd ed : date_arg) :
  k ∈ extended_keys -> absent k (analyze_air_quality_data csv path sd ed false).
Proof.
  intros Hk. pose proof (extended_key_not_error k Hk) as Hne.
  pose proof (initial_absent k Hk) as H0.
  assert (Hb : absent k (body csv path sd ed false (State initial [])).1).
  { assert (K : keeps (absent k) (body csv path sd ed false)).
    { apply keeps_bind; [now apply read_and_filter_absent | intros df].
      now apply statistics_absent. }
    exact (K _ H0). }
  unfold analyze_air_quality_data.
  destruct csv.
  - unfold absent. cbn [res]. rewrite lookup_insert_ne by auto. exact H0.
  - destruct (body _ _ _ _ _ _) as [s [a| |e]]; try exact Hb.
    unfold absent in *. cbn [res fst] in *. now rewrite lookup_insert_ne by auto.
  - destruct (body _ _ _ _ _ _) as [s [a| |e]]; try exact Hb.
    unfold absent in *. cbn [res fst] in *. now rewrite lookup_insert_ne by auto.
Qed.
End CommandLine.

(** X16.  On the command line of [analysis.py] the second and third
    arguments are the dates whatever they are.  Provided
    [pd.to_datetime] rejects the two spellings of the flag: with the
    flag in one of these two places the result is the initial one with
    an error entry added, whatever the file; and a result with any entry
    of the extended analysis has the flag in the first two places or
    after both dates. *)
Theorem extended_flag_is_read_as_a_date (fs : string -> file)
    (to_datetime : string -> option Z) (argv : list string) :
  (forall flag, AnalysisMain.is_flag flag = true -> to_datetime flag = None) ->
  let result := AnalysisMain.main fs to_datetime argv in
  (forall flag, AnalysisMain.is_flag flag = true ->
     argv !! 2%nat = Some flag \/ argv !! 3%nat = Some flag ->
     exists msg, result = Analysis.State (<["error" := VStr msg]> Analysis.initial) [])
  /\ (forall k, k ∈ extended_keys -> is_Some (Analysis.res result !! k) ->
      exists i flag, argv !! i = Some flag /\ AnalysisMain.is_flag flag = true
                     /\ i <> 2%nat /\ i <> 3%nat).
Proof.
  intros Hflag result.
  assert (H1 : forall flag, AnalysisMain.is_flag flag = true ->
     argv !! 2%nat = Some flag \/ argv !! 3%nat = Some flag ->
     exists msg, result = Analysis.State (<["error" := VStr msg]> Analysis.initial) []).
  { intros flag Hf Hp. unfold result, AnalysisMain.main. cbv zeta.
    apply bad_date_result.
    destruct Hp as [Hp | Hp]; [left | right];
      pose proof (lookup_lt_Some _ _ _ Hp) as Hl;
      (destruct (_ <? length argv)%nat eqn:E; [|apply Nat.ltb_ge in E; lia]);
      rewrite Hp; apply flag_is_bad_date; auto. }
  split; [exact H1|].
  intros k Hk [v Hv]. unfold result, AnalysisMain.main in Hv. cbv zeta in Hv.
  destruct (existsb AnalysisMain.is_flag argv) eqn:E.
  - pose proof E as E'. apply existsb_exists in E' as (flag & Hin & Hf).
    apply list_elem_of_In, list_elem_of_lookup_1 in Hin as [i Hi].
    exists i, flag. split; [exact Hi|]. split; [exact Hf|].
    assert (Hn : ~ (argv !! 2%nat = Some flag \/ argv !! 3%nat = Some flag)).
    { intros Hp. destruct (H1 flag Hf Hp) as [msg Hm].
      unfold result, AnalysisMain.main in Hm. cbv zeta in Hm.
      rewrite E in Hm. rewrite Hm in Hv. cbn [Analysis.res] in Hv.
      rewrite lookup_insert_ne in Hv by (symmetry; now apply extended_key_not_error).
      now rewrite (initial_absent k Hk) in Hv. }
    split; intros ->; apply Hn; auto.
  - now rewrite (plain_analysis_absent k _ _ _ _ Hk) in Hv.
Qed.

Lemma extended_flag_is_read_as_a_date_witness :
  exists msg,
    AnalysisMain.main (fun _ => Csv legacy_file) (fun _ => None)
      ["analysis.py"; "data.csv"; "--extended"]
    = Analysis.State (<["error" := VStr msg]> Analysis.initial) [].
Proof.
  destruct (extended_flag_is_read_as_a_date (fun _ => Csv legacy_file)
              (fun _ => None) ["analysis.py"; "data.csv"; "--extended"])
    as [H _].
  - reflexivity.
  - apply (H "--extended"); [reflexivity | now left].
Defined.

(** ** The correlation chart of [analyze.py] *)

Section CorrelationChart.
Import Analyze AnalyzeCharts.

Lemma omap_filter {A B} (f : A -> option B) (p : A -> bool) (l : list A) :
  (forall x, p x = false -> f x = None) ->
  omap f (List.filter p l) = omap f l.
Proof.
  intros H. induction l as [|x l IH]; [reflexivity|]. cbn [List.filter].
  destruct (p x) eqn:E.
  - cbn [omap list_omap]. now rewrite IH.
  - cbn [omap list_omap]. now rewrite (H x E), IH.
Qed.

(** The coefficient of the rows that have both values is the coefficient
    of the frame. *)
Lemma corr_valid (df : DataFrame) (c : string) :
  corr (select (fun r => present c r && present "pm25" r) df) c "pm25"
  = corr df c "pm25".
Proof.
  unfold corr, pairs, select. cbn [rows]. f_equal. apply omap_filter.
  intros r. unfold present.
  destruct (to_numeric (cell r c)); [|reflexivity].
  destruct (to_numeric (cell r "pm25")); [|reflexivity].
  rewrite !bool_decide_eq_true_2 by eauto. discriminate.
Qed.

Lemma has_values_row (df : DataFrame) (c : string) :
  has_values df c = true <-> Exists (fun r => present c r = true) (rows df).
Proof.
  unfold has_values, all_isna, numeric, present.
  induction (rows df) as [|r l IH]; cbn [map forallb].
  - split; [discriminate | intros H; inversion H].
  - rewrite negb_andb, negb_involutive, orb_true_iff, IH. split.
    + intros [H | H]; [now left | now right].
    + intros H. inversion H; subst; auto.
Qed.

(** In a frame whose rows all have a PM2.5 value, a column with values
    has rows with both. *)
Lemma valid_rows (df : DataFrame) (c : string) :
  Forall (fun r => present "pm25" r = true) (rows df) ->
  has_values df c = true ->
  (0 <? len (select (fun r => present c r && present "pm25" r) df))%nat = true.
Proof.
  intros Hp Hv. apply has_values_row in Hv. apply Nat.ltb_lt.
  unfold len, select. cbn [rows].
  induction Hp as [|r l Hr Hp IH]; [inversion Hv|]. cbn [List.filter].
  rewrite Hr, andb_true_r.
  destruct (present c r) eqn:E; [cbn [length]; lia|].
  apply IH. inversion Hv; subst; [congruence | assumption].
Qed.

Lemma no_valid_rows (df : DataFrame) (c : string) :
  Forall (fun r => present c r && present "pm25" r = false) (rows df) ->
  (0 <? len (select (fun r => present c r && present "pm25" r) df))%nat = false.
Proof.
  intros H. apply Nat.ltb_ge. unfold len, select. cbn [rows].
  induction H as [|r l Hr _ IH]; [reflexivity|]. cbn [List.filter]. now rewrite Hr.
Qed.

Lemma panel_paired (r : renderer) (df : DataFrame) (c : string) :
  has_column "pm25" df = true ->
  Forall (fun r => present "pm25" r = true) (rows df) ->
  has_values df c = true ->
  panel r c df
  = match regplot r c (select (fun r => present c r && present "pm25" r) df) with
    | inl e => inl (Exception e)
    | inr _ => inr (Some (corr df c "pm25"))
    end.
Proof.
  intros H25 Hp Hv. unfold panel, dropna_subset. rewrite H25.
  cbn [mbind failure_bind]. rewrite (valid_rows df c Hp Hv), corr_valid.
  now destruct (regplot r c _).
Qed.

Lemma panel_unpaired (r : renderer) (df : DataFrame) (c : string) :
  has_column "pm25" df = true ->
  Forall (fun r => present c r && present "pm25" r = false) (rows df) ->
  panel r c df = inr None.
Proof.
  intros H25 Hn. unfold panel, dropna_subset. rewrite H25.
  cbn [mbind failure_bind]. now rewrite (no_valid_rows df c Hn).
Qed.

Lemma panel_draws (r : renderer) (df : DataFrame) (c : string) :
  has_column "pm25" df = true -> draws r ->
  exists v, panel r c df = inr v.
Proof.
  intros H25 (_ & Hr & _). unfold panel, dropna_subset. rewrite H25.
  cbn [mbind failure_bind]. destruct (0 <? _)%nat; [|eauto].
  rewrite Hr. cbn [plot mbind failure_bind]. eauto.
Qed.

Lemma loaded_rows_pm25 (csv : file) (path : string) (sd ed : date_arg)
    (frame : DataFrame) :
  load_data csv path sd ed = Some frame ->
  Forall (fun r => present "pm25" r = true) (rows frame).
Proof.
  intros H. destruct (loaded_frame csv path sd ed frame H) as (_ & Hr & _).
  eapply Forall_impl; [|exact Hr]. intros r (_ & H25 & _).
  unfold present. now apply bool_decide_eq_true_2.
Qed.

Lemma loaded_columns (csv : file) (path : string) (sd ed : date_arg)
    (frame : DataFrame) :
  load_data csv path sd ed = Some frame ->
  has_column "pm25" frame = true /\ has_column "temperature" frame = true
  /\ has_column "humidity" frame = true.
Proof.
  intros H. destruct (loaded_frame csv path sd ed frame H) as (Hc & _).
  repeat split; apply Hc; unfold semantic_fields; rewrite !elem_of_cons; tauto.
Qed.
(** The function on a frame with a row and the two columns. *)
Lemma chart_steps (r : renderer) (timestamp : string) (frame : DataFrame) :
  len frame <> 0%nat ->
  has_column "temperature" frame = true -> has_column "humidity" frame = true ->
  create_correlation r timestamp (Some frame)
  = if negb (has_values frame "temperature") && negb (has_values frame "humidity")
    then inr (None, "Temperature and humidity data not available for correlation analysis")
    else
      plot (subplots r);;
      temp_corr ← (if has_values frame "temperature"
                   then panel r "temperature" frame else inr None);
      humidity_corr ← (if has_values frame "humidity"
                       then panel r "humidity" frame else inr None);
      plot (savefig r ("correlation_" +:+ timestamp +:+ ".png"));;
      description ←
        (if has_values frame "temperature"
         then c ← bound "temp_corr" temp_corr;
              inr (opening +:+ temperature_sentence c)
         else inr opening);
      description ←
        (if has_values frame "humidity"
         then c ← bound "humidity_corr" humidity_corr;
              inr (description +:+ humidity_sentence c)
         else inr description);
      inr (Some (chart_path timestamp), description).
Proof.
  intros Hlen Ht Hh. unfold create_correlation.
  destruct (Nat.eqb_spec (len frame) 0) as [|_]; [contradiction|].
  rewrite Ht, Hh. reflexivity.
Qed.

Ltac chart_run :=
  cbn [plot bound mbind failure_bind].

(** The chart of loaded data, when the plotting calls draw. *)
Lemma chart_described (r : renderer) (timestamp : string) (csv : file)
    (path : string) (sd ed : date_arg) (frame : DataFrame) :
  load_data csv path sd ed = Some frame -> len frame <> 0%nat -> draws r ->
  has_values frame "temperature" = true \/ has_values frame "humidity" = true ->
  create_correlation r timestamp (Some frame)
  = inr (Some (chart_path timestamp),
         let description := opening in
         let description :=
           if has_values frame "temperature"
           then description +:+ temperature_sentence (corr frame "temperature" "pm25")
           else description in
         if has_values frame "humidity"
         then description +:+ humidity_sentence (corr frame "humidity" "pm25")
         else description).
Proof.
  intros Hload Hlen (Hs & Hr & Hf) Hv.
  destruct (loaded_columns csv path sd ed frame Hload) as (H25 & Ht & Hh).
  pose proof (loaded_rows_pm25 csv path sd ed frame Hload) as Hp.
  rewrite (chart_steps r timestamp frame Hlen Ht Hh).
  destruct (has_values frame "temperature") eqn:Vt;
    destruct (has_values frame "humidity") eqn:Vh; cbn [negb andb];
    rewrite ?(panel_paired r frame "temperature" H25 Hp Vt),
            ?(panel_paired r frame "humidity" H25 Hp Vh);
    [| | |destruct Hv; discriminate];
    rewrite Hs, ?Hr, Hf; chart_run; rewrite ?Hr, ?Hf; chart_run; reflexivity.
Qed.

(** X17.  On a frame [load_data] returned, with a row,
    [create_correlation] of [analyze.py] never uses a coefficient that
    was not assigned.  Without a temperature and without a humidity
    value it returns no path and says so.  Otherwise, when the plotting
    calls draw, it returns the path of the chart and a description that
    has, after its opening, one sentence for each of the two fields that
    has values, chosen by the coefficient of that field and PM2.5 over
    the frame. *)
Theorem correlation_chart_of_loaded_data (r : renderer)
    (timestamp : string) (csv : file) (path : string) (sd ed : date_arg)
    (frame : DataFrame) :
  load_data csv path sd ed = Some frame -> len frame <> 0%nat ->
  let result := create_correlation r timestamp (Some frame) in
  (forall name, result <> inl (UnboundLocalError name))
  /\ (has_values frame "temperature" = false -> has_values frame "humidity" = false ->
      result = inr (None, "Temperature and humidity data not available for correlation analysis"))
  /\ (draws r ->
      has_values frame "temperature" = true \/ has_values frame "humidity" = true ->
      result
      = inr (Some (chart_path timestamp),
             let description := opening in
             let description :=
               if has_values frame "temperature"
               then description
                    +:+ temperature_sentence (corr frame "temperature" "pm25")
               else description in
             if has_values frame "humidity"
             then description +:+ humidity_sentence (corr frame "humidity" "pm25")
             else description)).
Proof.
  intros Hload Hlen result.
  destruct (loaded_columns csv path sd ed frame Hload) as (H25 & Ht & Hh).
  pose proof (loaded_rows_pm25 csv path sd ed frame Hload) as Hp.
  pose proof (chart_steps r timestamp frame Hlen Ht Hh) as E. fold result in E.
  split; [|split].
  - intros name. rewrite E. clear E.
    destruct (has_values frame "temperature") eqn:Vt;
      destruct (has_values frame "humidity") eqn:Vh; cbn [negb andb];
      rewrite ?(panel_paired r frame "temperature" H25 Hp Vt),
              ?(panel_paired r frame "humidity" H25 Hp Vh);
      [| | |discriminate];
      (destruct (subplots r); chart_run; [discriminate|]);
      repeat (match goal with
              | |- context [regplot ?x ?c ?d] => destruct (regplot x c d)
              | |- context [savefig ?x ?f] => destruct (savefig x f)
              end; chart_run; try discriminate).
  - intros Vt Vh. rewrite E, Vt, Vh. reflexivity.
  - intros Hd Hv. now apply (chart_described r timestamp csv path sd ed).
Qed.

Lemma correlation_chart_of_loaded_data_witness :
  exists frame,
    load_data (Csv constant_pm25) "data.csv" NoDate NoDate = Some frame
    /\ forall name,
         create_correlation easel "20240101120000" (Some frame)
         <> inl (UnboundLocalError name).
Proof.
  eexists. split; [reflexivity|].
  destruct (correlation_chart_of_loaded_data easel "20240101120000"
              (Csv constant_pm25) "data.csv" NoDate NoDate _ eq_refl) as (H & _).
  - discriminate.
  - exact H.
Defined.

Lemma valid_rows_none (df : DataFrame) (c : string) :
  (0 <? len (select (fun r => present c r && present "pm25" r) df))%nat = false ->
  Forall (fun r => present c r && present "pm25" r = false) (rows df).
Proof.
  intros H. apply Nat.ltb_ge in H. unfold len, select in H. cbn [rows] in H.
  induction (rows df) as [|r l IH]; [constructor|]. cbn [List.filter] in H.
  destruct (present c r && present "pm25" r) eqn:E; [cbn [length] in H; lia|].
  constructor; auto.
Qed.

(** X18.  Handed a frame in which no row has both a temperature and a
    PM2.5 value, though some row has a temperature, [create_correlation]
    draws and saves the chart and then fails on the coefficient it never
    assigned; and so for the humidity when the temperature does not fail
    first. *)
Theorem correlation_chart_unassigned_coefficient (r : renderer)
    (timestamp : string) (df : DataFrame) :
  len df <> 0%nat -> numeric_fields df -> has_column "pm25" df = true -> draws r ->
  let result := create_correlation r timestamp (Some df) in
  (unpaired df "temperature" -> result = inl (UnboundLocalError "temp_corr"))
  /\ (unpaired df "humidity" -> ~ unpaired df "temperature" ->
      result = inl (UnboundLocalError "humidity_corr")).
Proof.
  intros Hlen _ H25 Hd result. pose proof Hd as (Hs & Hr & Hf).
  subst result. unfold create_correlation.
  destruct (Nat.eqb_spec (len df) 0) as [|_]; [contradiction|].
  change (negb (all_isna (numeric df "temperature"))) with (has_values df "temperature").
  change (negb (all_isna (numeric df "humidity"))) with (has_values df "humidity").
  split.
  - intros (Hc & Hv & Hn). rewrite Hc, Hv. cbn [negb andb].
    rewrite Hs, (panel_unpaired r df "temperature" H25 Hn). chart_run.
    destruct (has_column "humidity" df && has_values df "humidity").
    + destruct (panel_draws r df "humidity" H25 Hd) as [v ->]. chart_run.
      rewrite Hf. chart_run. reflexivity.
    + chart_run. rewrite Hf. chart_run. reflexivity.
  - intros (Hc & Hv & Hn) Ht. rewrite Hc, Hv. cbn [negb andb]. rewrite andb_false_r.
    rewrite Hs, (panel_unpaired r df "humidity" H25 Hn). chart_run.
    destruct (has_column "temperature" df) eqn:Ec; cbn [andb];
      [destruct (has_values df "temperature") eqn:Ev|].
    + unfold panel, dropna_subset. rewrite H25. chart_run.
      destruct (0 <? _)%nat eqn:E.
      * rewrite Hr. chart_run. rewrite Hf. chart_run. reflexivity.
      * exfalso. apply Ht. split; [exact Ec|]. split; [exact Ev|].
        now apply valid_rows_none.
    + chart_run. rewrite Hf. chart_run. reflexivity.
    + chart_run. rewrite Hf. chart_run. reflexivity.
Qed.

Lemma line_no_text (t : Z) (l : list (string * Qc)) (c : string) :
  cell (line t l) c <> NumText.
Proof.
  unfold cell, line. cbn [fields].
  induction l as [|[k q] l IH]; cbn [fmap list_fmap list_to_map foldr prod_map fst snd].
  - rewrite lookup_empty. discriminate.
  - destruct (decide (k = c)) as [->|Hk].
    + rewrite lookup_insert_eq. discriminate.
    + rewrite lookup_insert_ne by exact Hk. exact IH.
Qed.

Lemma unpaired_temperature_unpaired : unpaired unpaired_temperature "temperature".
Proof.
  split; [reflexivity|]. split; [reflexivity|].
  repeat constructor.
Qed.

Lemma correlation_chart_unassigned_coefficient_witness :
  create_correlation easel "20240101120000" (Some unpaired_temperature)
  = inl (UnboundLocalError "temp_corr").
Proof.
  destruct (correlation_chart_unassigned_coefficient easel "20240101120000"
              unpaired_temperature) as [H _].
  - discriminate.
  - repeat constructor; intros c _; apply line_no_text.
  - reflexivity.
  - repeat split.
  - exact (H unpaired_temperature_unpaired).
Defined.

Lemma total_constant (l : list Qc) (v : Qc) :
  Forall (fun x => x = v) l -> total l = Qc_of_nat (length l) * v.
Proof.
  induction 1 as [|x l -> _ IH]; cbn [total foldr length].
  - rewrite Qc_of_nat_0. ring.
  - fold (total l). rewrite IH, Qc_of_nat_S. ring.
Qed.

Lemma mean_constant (l : list Qc) (v : Qc) :
  l <> [] -> Forall (fun x => x = v) l -> mean l = Some v.
Proof.
  intros Hne H. destruct l as [|x l]; [contradiction|].
  rewrite mean_cons, (total_constant _ v H). f_equal. field.
  apply Qc_of_nat_nonzero. discriminate.
Qed.

Lemma ssd_constant (l : list Qc) (v : Qc) :
  Forall (fun x => x = v) l -> ssd v l = 0.
Proof.
  unfold ssd. induction 1 as [|x l -> _ IH]; cbn [map total foldr]; [reflexivity|].
  fold (total (map (fun x => (x - v) * (x - v)) l)). rewrite IH. ring.
Qed.

(** Pearson's coefficient is undefined when one of the two series is
    constant. *)
Lemma pearson_constant (ps : list (Qc * Qc)) (v : Qc) :
  Forall (fun p => p.1 = v) ps \/ Forall (fun p => p.2 = v) ps -> pearson ps = None.
Proof.
  intros H. destruct ps as [|p ps]; [reflexivity|]. unfold pearson.
  destruct H as [H | H].
  - assert (H1 : Forall (fun x => x = v) (p :: ps).*1) by now apply Forall_fmap.
    rewrite (mean_constant _ v) by (discriminate || exact H1).
    destruct (mean (p :: ps).*2); [|reflexivity].
    rewrite (ssd_constant _ v H1), Qcmult_0_l. now destruct (decide (0 = 0)).
  - assert (H2 : Forall (fun x => x = v) (p :: ps).*2) by now apply Forall_fmap.
    rewrite (mean_constant (p :: ps).*2 v) by (discriminate || exact H2).
    destruct (mean (p :: ps).*1); [|reflexivity].
    rewrite (ssd_constant _ v H2), Qcmult_0_r. now destruct (decide (0 = 0)).
Qed.

Lemma corr_constant (df : DataFrame) (a b : string) :
  constant df a \/ constant df b -> corr df a b = None.
Proof.
  intros H. unfold corr.
  assert (Hp : exists v, Forall (fun p => p.1 = v) (pairs df a b)
                         \/ Forall (fun p => p.2 = v) (pairs df a b)).
  { destruct H as [[v H] | [v H]]; exists v; [left | right];
      unfold pairs; induction H as [|r l Hr _ IH]; cbn [omap list_omap];
      try constructor;
      (destruct (to_numeric (cell r a)) as [x|] eqn:Ea; [|exact IH]);
      (destruct (to_numeric (cell r b)) as [y|] eqn:Eb; [|exact IH]);
      constructor; auto. }
  destruct Hp as [v Hp]. now apply (pearson_constant _ v).
Qed.

Lemma append_empty (s : string) : s +:+ "" = s.
Proof.
  induction s as [|a s IH]; [reflexivity|].
  change (String a s +:+ "") with (String a (s +:+ "")). now rewrite IH.
Qed.

(** X19.  In the chart of loaded data, a field whose coefficient with
    PM2.5 is undefined because the field or the PM2.5 readings are
    constant is described as strongly negatively correlated: the
    comparisons with [NaN] all fail and the last branch is taken. *)
Theorem constant_series_described_as_strong_negative (r : renderer)
    (timestamp : string) (csv : file) (path : string) (sd ed : date_arg)
    (frame : DataFrame) :
  load_data csv path sd ed = Some frame -> len frame <> 0%nat -> draws r ->
  let result := create_correlation r timestamp (Some frame) in
  (has_values frame "temperature" = true ->
   constant frame "temperature" \/ constant frame "pm25" ->
   exists rest,
     result
     = inr (Some (chart_path timestamp),
            (opening +:+ "Strong negative correlation with temperature, suggesting PM2.5 levels significantly decrease in warmer conditions. ")
            +:+ rest))
  /\ (has_values frame "humidity" = true ->
      constant frame "humidity" \/ constant frame "pm25" ->
      exists before,
        result
        = inr (Some (chart_path timestamp),
               before +:+ "Strong negative correlation with humidity, suggesting PM2.5 levels significantly decrease in humid conditions.")).
Proof.
  intros Hload Hlen Hd result. subst result. split.
  - intros Hv Hc.
    rewrite (chart_described r timestamp csv path sd ed frame Hload Hlen Hd)
      by now left.
    cbv zeta. rewrite Hv, (corr_constant frame "temperature" "pm25" Hc).
    destruct (has_values frame "humidity").
    + eexists. reflexivity.
    + exists "". now rewrite append_empty.
  - intros Hv Hc.
    rewrite (chart_described r timestamp csv path sd ed frame Hload Hlen Hd)
      by now right.
    cbv zeta. rewrite Hv, (corr_constant frame "humidity" "pm25" Hc).
    eexists. reflexivity.
Qed.

Lemma constant_series_described_as_strong_negative_witness :
  exists frame rest,
    load_data (Csv constant_pm25) "data.csv" NoDate NoDate = Some frame
    /\ create_correlation easel "20240101120000" (Some frame)
       = inr (Some (chart_path "20240101120000"),
              (opening +:+ "Strong negative correlation with temperature, suggesting PM2.5 levels significantly decrease in warmer conditions. ")
              +:+ rest).
Proof.
  destruct (load_data (Csv constant_pm25) "data.csv" NoDate NoDate) as [frame|] eqn:E;
    [|discriminate E].
  destruct (constant_series_described_as_strong_negative easel "20240101120000"
              (Csv constant_pm25) "data.csv" NoDate NoDate frame E) as [H _].
  - injection E as <-. discriminate.
  - repeat split.
  - destruct H as [rest H].
    + injection E as <-. reflexivity.
    + right. injection E as <-. exists (dec 5 1).
      repeat constructor; intros q H; vm_compute in H; injection H as <-;
        vm_compute; reflexivity.
    + exists frame, rest. split; [reflexivity | exact H].
Defined.
End CorrelationChart.

(** ** What [analyze.py] prints *)

Section AnalyzeCommandLine.
Import Analyze AnalyzeMain.

Lemma main_no_data (c : charts) (csv : file) (path viz_type : string)
    (sd ed : date_arg) :
  analyze_data c csv path viz_type sd ed
  = <["error" := VStr "No data available for analysis"]> (initial viz_type) ->
  main c csv path viz_type sd ed
  = inr ([VStr "/images/error.png"; VStr "No data available for analysis"], 1%Z).
Proof. intros E. unfold main. rewrite E. reflexivity. Qed.

(** What [main] makes of a result without a path. *)
Lemma main_failed (c : charts) (csv : file) (path viz_type : string)
    (sd ed : date_arg) (d err : value) :
  let result := analyze_data c csv path viz_type sd ed in
  result !! "visualization"
  = Some (VDict [("type", VStr viz_type); ("path", VNone); ("description", d)]) ->
  result !! "error" = Some err ->
  result !! "success" = Some (VBool false) ->
  main c csv path viz_type sd ed
  = inr ([VStr "/images/error.png";
          if truthy err then err
          else VStr "Analysis failed without specific error message."], 1%Z).
Proof.
  intros result Hv He Hs. unfold main. fold result. unfold getitem.
  rewrite Hv, He, Hs. reflexivity.
Qed.
End AnalyzeCommandLine.

(** X21.  What [main] of [analyze.py] prints first goes with its exit
    status.  It prints the path and the description of
    the chart and exits with 0 exactly when the chart function returned a
    path.  Otherwise it prints [/images/error.png] and exits with 1, the
    second line being: that no data is available, when nothing was
    loaded; the message of what the chart function raised, when that is
    not empty; and the stock message in the cases left, so also when the
    chart function returned no path, whose description is not printed. *)
Theorem main_prints_and_exits (c : Analyze.charts) (csv : file)
    (path viz_type : string) (sd ed : date_arg) :
  let out := AnalyzeMain.main c csv path viz_type sd ed in
  let failed msg := inr ([VStr "/images/error.png"; VStr msg], 1%Z) in
  let stock := "Analysis failed without specific error message." in
  ((forall frame, Analyze.load_data csv path sd ed = Some frame -> len frame = 0%nat) ->
   out = failed "No data available for analysis")
  /\ (forall frame,
        Analyze.load_data csv path sd ed = Some frame -> len frame <> 0%nat ->
        (forall p d, Analyze.draw c viz_type frame = inr (Some p, d) ->
                     out = inr ([VStr p; VStr d], 0%Z))
        /\ (forall d, Analyze.draw c viz_type frame = inr (None, d) ->
                      out = failed stock)
        /\ (forall e, Analyze.draw c viz_type frame = inl e ->
                      out = failed (if decide (str e = "") then stock else str e))).
Proof.
  intros out failed stock. subst out failed stock. split.
  - intros H. apply main_no_data. unfold Analyze.analyze_data.
    destruct (Analyze.load_data csv path sd ed) as [frame|]; [|reflexivity].
    now rewrite (H frame eq_refl).
  - intros frame Hload Hlen.
    destruct (loaded_statistics_computed csv path sd ed frame Hload Hlen)
      as (stats & Hs).
    split; [|split].
    + intros p d Hd. unfold AnalyzeMain.main, Analyze.analyze_data. rewrite Hload.
      destruct (Nat.eqb_spec (len frame) 0) as [|_]; [contradiction|].
      rewrite Hs, Hd. reflexivity.
    + intros d Hd. unfold AnalyzeMain.main, Analyze.analyze_data. rewrite Hload.
      destruct (Nat.eqb_spec (len frame) 0) as [|_]; [contradiction|].
      rewrite Hs, Hd. reflexivity.
    + intros e He.
      rewrite (main_failed c csv path viz_type sd ed VNone (VStr (str e))).
      * cbn [AnalyzeMain.truthy]. destruct (decide (str e = "")) as [-> | Hne].
        -- reflexivity.
        -- rewrite bool_decide_eq_false_2 by exact Hne. reflexivity.
      * unfold Analyze.analyze_data. rewrite Hload.
        destruct (Nat.eqb_spec (len frame) 0) as [|_]; [contradiction|].
        rewrite Hs, He. reflexivity.
      * unfold Analyze.analyze_data. rewrite Hload.
        destruct (Nat.eqb_spec (len frame) 0) as [|_]; [contradiction|].
        rewrite Hs, He. now rewrite lookup_insert_eq.
      * unfold Analyze.analyze_data. rewrite Hload.
        destruct (Nat.eqb_spec (len frame) 0) as [|_]; [contradiction|].
        rewrite Hs, He. reflexivity.
Qed.
